(** * Tracy: the transaction-text understanding subsystem

    A shallow embedding of the two rule-based transaction parsers of the
    repository (the relay backend's [parseTransaction] and the desktop
    [AIService]), of the desktop escalation pipeline with its validator, and
    of the cached query-answering pipeline.

    Conventions of the embedding.
    - Text is a [string] of 8-bit characters, read as UTF-8.  The functions
      below agree with their JavaScript counterparts on ASCII text; the two
      non-ASCII currency symbols of the amount patterns are matched as their
      UTF-8 byte sequences, every other byte above 127 is an opaque character
      that is neither a letter, a digit nor white space.
    - JavaScript numbers that carry money or a confidence are rationals
      ([Q]), and a number read from text is the decimal it spells; in the
      reports, where sums and quotients are compared with each other and
      with thresholds, every arithmetic result is rounded as binary64
      rounds it (module [Reports]).  Millisecond time stamps are integers
      ([Z]).
    - [Date] reads, the category table of the database and the two calls to
      the text-generation capability are inputs of the functions that use
      them; a call that throws is the outcome [None].  Reads of the database
      always succeed. *)

From Stdlib Require Import QArith Qabs Qminmax Lqa.
From Stdlib Require Import Ascii String DecimalString.
From stdpp Require Import gmap strings list.

Local Open Scope string_scope.

(** ** JavaScript string primitives *)

Module Js.

Definition code (c : ascii) : N := N_of_ascii c.

Definition inRange (lo hi : N) (c : ascii) : bool :=
  (lo <=? code c)%N && (code c <=? hi)%N.

(** [\d] *)
Definition isDigit (c : ascii) : bool := inRange 48 57 c.

Definition isUpper (c : ascii) : bool := inRange 65 90 c.
Definition isLower (c : ascii) : bool := inRange 97 122 c.

(** [[a-zA-Z]] *)
Definition isLetter (c : ascii) : bool := isUpper c || isLower c.

(** [\w] *)
Definition isWordChar (c : ascii) : bool :=
  isLetter c || isDigit c || (code c =? 95)%N.

(** [\s]: tab, line feed, vertical tab, form feed, carriage return, space *)
Definition isSpace (c : ascii) : bool := inRange 9 13 c || (code c =? 32)%N.

Definition lowerChar (c : ascii) : ascii :=
  if isUpper c then ascii_of_N (code c + 32) else c.

Definition upperChar (c : ascii) : ascii :=
  if isLower c then ascii_of_N (code c - 32) else c.

(** [s.toLowerCase()] *)
Fixpoint toLowerCase (s : string) : string :=
  match s with
  | EmptyString => EmptyString
  | String c r => String (lowerChar c) (toLowerCase r)
  end.

(** [s.startsWith(p)] *)
Fixpoint startsWith (p s : string) : bool :=
  match p, s with
  | EmptyString, _ => true
  | String a p', String b s' => if Ascii.eqb a b then startsWith p' s' else false
  | String _ _, EmptyString => false
  end.

(** [s.includes(kw)] *)
Fixpoint includes (kw s : string) : bool :=
  startsWith kw s ||
  match s with
  | EmptyString => false
  | String _ r => includes kw r
  end.

(** the longest prefix of [s] whose characters satisfy [p], and the rest *)
Fixpoint span (p : ascii -> bool) (s : string) : string * string :=
  match s with
  | String c r =>
      if p c then let '(a, b) := span p r in (String c a, b)
      else (EmptyString, s)
  | EmptyString => (EmptyString, EmptyString)
  end.

Definition dropWhile (p : ascii -> bool) (s : string) : string := snd (span p s).

Fixpoint rev_onto (s acc : string) : string :=
  match s with
  | EmptyString => acc
  | String c r => rev_onto r (String c acc)
  end.

Definition reverse (s : string) : string := rev_onto s EmptyString.

Definition trimStart (s : string) : string := dropWhile isSpace s.
Definition trimEnd (s : string) : string := reverse (trimStart (reverse s)).

(** [s.trim()] *)
Definition trim (s : string) : string := trimEnd (trimStart s).

Definition isEmpty (s : string) : bool :=
  match s with EmptyString => true | _ => false end.

(** [s.split(',')] *)
Fixpoint splitOn (sep : ascii) (s : string) : list string :=
  match s with
  | EmptyString => [EmptyString]
  | String c r =>
      if Ascii.eqb c sep then EmptyString :: splitOn sep r
      else match splitOn sep r with
           | [] => [String c EmptyString]
           | p :: ps => String c p :: ps
           end
  end.

(** [xs.join(sep)] *)
Fixpoint join (sep : string) (xs : list string) : string :=
  match xs with
  | [] => EmptyString
  | [x] => x
  | x :: r => x ++ sep ++ join sep r
  end.

(** [a || b] on strings: the empty string is falsy *)
Definition orElse (a b : string) : string := if isEmpty a then b else a.

(** Leftmost match: [text.match(re)] tries the pattern at every start
    position from left to right; [m] is the pattern anchored at the start
    of its argument. *)
Fixpoint search {A} (m : string -> option A) (s : string) : option A :=
  match m s with
  | Some r => Some r
  | None =>
      match s with
      | EmptyString => None
      | String _ r => search m r
      end
  end.

(** Value of a string of decimal digits. *)
Fixpoint digitsValue (acc : N) (s : string) : N :=
  match s with
  | EmptyString => acc
  | String c r => digitsValue (acc * 10 + (code c - 48)) r
  end.

(** [parseFloat] on an unsigned decimal literal, digits with an optional
    [.] and fraction digits, the only shape the parsers pass to it.  (On
    text with no leading digit JavaScript yields NaN; this model yields 0
    there, a case the parsers never reach.) *)
Definition parseFloat (s : string) : Q :=
  let '(ip, r) := span isDigit s in
  let fp := match r with
            | String "." r' => fst (span isDigit r')
            | _ => EmptyString
            end in
  Qmake (Z.of_N (digitsValue (digitsValue 0 ip) fp))
        (Z.to_pos (10 ^ Z.of_nat (String.length fp))).

(** [s.replace(',', '.')]: the first comma only *)
Fixpoint replaceComma (s : string) : string :=
  match s with
  | EmptyString => EmptyString
  | String c r => if Ascii.eqb c "," then String "." r else String c (replaceComma r)
  end.

(** [s.slice(n)] *)
Fixpoint slice (n : nat) (s : string) : string :=
  match n, s with
  | S k, String _ r => slice k r
  | _, _ => s
  end.

Definition lastChar (s : string) : string :=
  match reverse s with
  | String c _ => String c EmptyString
  | EmptyString => EmptyString
  end.

(** [\b] before a pattern that starts with a word character: the pattern
    [m] is tried only where the preceding character is not a word
    character (or at the start of the text). *)
Fixpoint searchAtBoundary {A} (m : string -> option A) (prevIsWord : bool)
    (s : string) : option A :=
  match (if prevIsWord then None else m s) with
  | Some r => Some r
  | None =>
      match s with
      | EmptyString => None
      | String c r => searchAtBoundary m (isWordChar c) r
      end
  end.

(** [\b] after a pattern that ends with a word character *)
Definition boundaryAhead (s : string) : bool :=
  match s with
  | EmptyString => true
  | String c _ => negb (isWordChar c)
  end.

(** [w] (lower case) at the start of [s], letter case ignored: the rest *)
Definition wordCI (w s : string) : option string :=
  if startsWith w (toLowerCase s) then Some (slice (String.length w) s) else None.

(** [s.replace(re, '')] with the [g] flag.  [m prevIsWord s] is the number
    of characters the pattern consumes at the start of [s], where
    [prevIsWord] tells whether the character before is a word character;
    [skip] counts the characters of the current match still to drop. *)
Fixpoint removeAll (m : bool -> string -> option nat) (skip : nat)
    (prevIsWord : bool) (s : string) : string :=
  match s with
  | EmptyString => EmptyString
  | String c r =>
      match skip with
      | S k => removeAll m k (isWordChar c) r
      | O =>
          match m prevIsWord s with
          | Some (S k) => removeAll m k (isWordChar c) r
          | _ => String c (removeAll m 0 (isWordChar c) r)
          end
      end
  end.

(** characters consumed when [rest] is what an anchored match left of [s] *)
Definition consumed (s : string) (rest : option string) : option nat :=
  option_map (fun r => (String.length s - String.length r)%nat) rest.

(** [s.replace(/\s+/g, ' ')]: [inRun] tells whether the previous character
    was white space already replaced *)
Fixpoint collapseFrom (inRun : bool) (s : string) : string :=
  match s with
  | EmptyString => EmptyString
  | String c r =>
      if isSpace c then
        if inRun then collapseFrom true r else String " " (collapseFrom true r)
      else String c (collapseFrom false r)
  end.

Definition collapseSpaces (s : string) : string := collapseFrom false s.

End Js.


(** ** Shared data model *)

Inductive TxType := income | expense.

Definition TxType_eqb (a b : TxType) : bool :=
  match a, b with
  | income, income | expense, expense => true
  | _, _ => false
  end.

(** [ParsedTransaction]; [merchant] is [None] when the field is undefined *)
Record ParsedTransaction := {
  amount : Q;
  type : TxType;
  category : string;
  merchant : option string;
  description : string;
  date : string;
  confidence : Q
}.

(** What [new Date()] resolves to during one call, as ISO calendar dates. *)
Record Dates := {
  today : string;
  yesterday : string;
  lastWeek : string
}.

(** ** The amount token shared by both parsers *)

Module Amount.

Definition euro : string := String "226" (String "130" (String "172" EmptyString)).
Definition pound : string := String "194" (String "163" EmptyString).

(** the currency class at the start of [s]: the rest after the symbol *)
Definition currency (s : string) : option string :=
  if Js.startsWith "$" s then Some (Js.slice 1 s)
  else if Js.startsWith euro s then Some (Js.slice 3 s)
  else if Js.startsWith pound s then Some (Js.slice 2 s)
  else None.

(** the optional currency class *)
Definition optCurrency (s : string) : string := default s (currency s).

Definition skipSpaces (s : string) : string := Js.dropWhile Js.isSpace s.

Definition isSep (c : ascii) : bool := Ascii.eqb c "." || Ascii.eqb c ",".

(** [\d+(?:[.,]\d{1,2})?] at the start of [s]: the matched text and the
    rest.  The quantifiers are greedy and what follows the token in every
    pattern can match the empty string, so the first attempt of the
    backtracking matcher succeeds: all the digits, then the separator with
    one or two digits when they are there. *)
Definition numberToken (s : string) : option (string * string) :=
  let '(ds, r) := Js.span Js.isDigit s in
  if Js.isEmpty ds then None
  else
    match r with
    | String c (String d1 r1) =>
        if isSep c && Js.isDigit d1 then
          match r1 with
          | String d2 r2 =>
              if Js.isDigit d2
              then Some (ds ++ String c (String d1 (String d2 EmptyString)), r2)
              else Some (ds ++ String c (String d1 EmptyString), r1)
          | EmptyString => Some (ds ++ String c (String d1 EmptyString), r1)
          end
        else Some (ds, r)
    | _ => Some (ds, r)
    end.

(** [parseFloat(m.replace(',', '.'))] *)
Definition toNumber (m : string) : Q := Js.parseFloat (Js.replaceComma m).

End Amount.

(** ** The relay backend: [parser.ts] and [types.ts] *)

Module Backend.

Record Category := {
  id : string;
  name : string;
  ctype : TxType;
  group : string;
  icon : string;
  color : string;
  keywords : list string
}.

Definition DEFAULT_CATEGORIES : list Category := [
  (* Transportation *)
  {| id := "gas"; name := "Gas"; ctype := expense; group := "transportation"; icon := "fuel"; color := "#8e8e93";
     keywords := ["gas"; "fuel"; "petrol"; "diesel"; "gasoline"; "shell"; "bp"; "esso"; "tank"] |};
  {| id := "transit"; name := "Public Transit"; ctype := expense; group := "transportation"; icon := "bus"; color := "#30b0c7";
     keywords := ["bus"; "train"; "metro"; "subway"; "tram"; "transit"; "ticket"] |};
  {| id := "parking"; name := "Parking"; ctype := expense; group := "transportation"; icon := "square"; color := "#636366";
     keywords := ["parking"; "park"] |};
  {| id := "uber"; name := "Rideshare"; ctype := expense; group := "transportation"; icon := "car"; color := "#000000";
     keywords := ["uber"; "lyft"; "bolt"; "taxi"; "cab"] |};
  {| id := "car"; name := "Car Maintenance"; ctype := expense; group := "transportation"; icon := "wrench"; color := "#48484a";
     keywords := ["car wash"; "oil change"; "tire"; "mechanic"; "repair"; "service"] |};
  (* Essential *)
  {| id := "rent"; name := "Rent/Mortgage"; ctype := expense; group := "essential"; icon := "home"; color := "#ff9500";
     keywords := ["rent"; "mortgage"; "lease"; "housing"] |};
  {| id := "utilities"; name := "Utilities"; ctype := expense; group := "essential"; icon := "zap"; color := "#ffcc00";
     keywords := ["electric"; "electricity"; "water"; "utility"; "internet"; "phone"; "bill"] |};
  {| id := "groceries"; name := "Groceries"; ctype := expense; group := "essential"; icon := "shopping-cart"; color := "#34c759";
     keywords := ["grocery"; "groceries"; "supermarket"; "lidl"; "aldi"; "tesco"; "kaufland"; "billa"; "whole foods"] |};
  {| id := "healthcare"; name := "Healthcare"; ctype := expense; group := "essential"; icon := "heart"; color := "#ff2d55";
     keywords := ["doctor"; "pharmacy"; "medicine"; "hospital"; "dental"; "dentist"; "health"] |};
  {| id := "insurance"; name := "Insurance"; ctype := expense; group := "essential"; icon := "shield"; color := "#5856d6";
     keywords := ["insurance"] |};
  (* Lifestyle *)
  {| id := "dining"; name := "Dining Out"; ctype := expense; group := "lifestyle"; icon := "utensils"; color := "#ff6b6b";
     keywords := ["restaurant"; "lunch"; "dinner"; "breakfast"; "coffee"; "cafe"; "starbucks"; "mcdonald"; "pizza"; "burger"; "food"; "eat"] |};
  {| id := "entertainment"; name := "Entertainment"; ctype := expense; group := "lifestyle"; icon := "film"; color := "#af52de";
     keywords := ["movie"; "netflix"; "spotify"; "game"; "concert"; "tickets"; "cinema"; "theater"; "bar"; "club"] |};
  {| id := "shopping"; name := "Shopping"; ctype := expense; group := "lifestyle"; icon := "shopping-bag"; color := "#ff9500";
     keywords := ["amazon"; "shopping"; "clothes"; "target"; "walmart"; "ebay"; "ikea"; "zara"] |};
  {| id := "subscriptions"; name := "Subscriptions"; ctype := expense; group := "lifestyle"; icon := "repeat"; color := "#0071e3";
     keywords := ["subscription"; "membership"; "premium"; "plan"; "netflix"; "spotify"] |};
  (* Income *)
  {| id := "salary"; name := "Salary"; ctype := income; group := "income"; icon := "briefcase"; color := "#34c759";
     keywords := ["salary"; "paycheck"; "wage"; "income"; "pay"] |};
  {| id := "freelance"; name := "Freelance"; ctype := income; group := "income"; icon := "laptop"; color := "#30d158";
     keywords := ["freelance"; "client"; "project"; "invoice"; "gig"] |};
  {| id := "investments"; name := "Investments"; ctype := income; group := "income"; icon := "trending-up"; color := "#32ade6";
     keywords := ["invest"; "dividend"; "stock"; "crypto"; "trading"; "interest"] |};
  {| id := "gifts"; name := "Gifts"; ctype := income; group := "income"; icon := "gift"; color := "#ff2d55";
     keywords := ["gift"; "present"; "birthday"; "received"] |};
  {| id := "refund"; name := "Refund"; ctype := income; group := "income"; icon := "rotate-ccw"; color := "#ff9f0a";
     keywords := ["refund"; "return"; "cashback"; "reimbursement"] |};
  (* Other *)
  {| id := "other-expense"; name := "Other"; ctype := expense; group := "other"; icon := "more-horizontal"; color := "#8e8e93";
     keywords := [] |};
  {| id := "other-income"; name := "Other Income"; ctype := income; group := "other"; icon := "plus-circle"; color := "#34c759";
     keywords := [] |}
].

(** A successful [text.match(re)]: capture groups 1 and 2 ([None]: the
    pattern has no second group). *)
Record RegExpMatch := {
  group1 : string;
  group2 : option string
}.

Import Amount.

(** [/([+-])\s*[$€£]?\s*(\d+(?:[.,]\d{1,2})?)/] anchored.  The classes of
    the sign, of white space, of the currency symbols and of the digits
    are disjoint, so the greedy choices are the only ones that can
    succeed. *)
Definition signedAmountAt (s : string) : option RegExpMatch :=
  match s with
  | String c r =>
      if Ascii.eqb c "+" || Ascii.eqb c "-" then
        match numberToken (skipSpaces (optCurrency (skipSpaces r))) with
        | Some (m, _) => Some {| group1 := String c EmptyString; group2 := Some m |}
        | None => None
        end
      else None
  | EmptyString => None
  end.

(** [/[$€£]\s*(\d+(?:[.,]\d{1,2})?)/] anchored *)
Definition currencyAmountAt (s : string) : option RegExpMatch :=
  match currency s with
  | Some r =>
      match numberToken (skipSpaces r) with
      | Some (m, _) => Some {| group1 := m; group2 := None |}
      | None => None
      end
  | None => None
  end.

(** [/(\d+(?:[.,]\d{1,2})?)\s*[$€£]?/] and
    [/(\d+(?:[.,]\d{1,2})?)\s*(?:eur|usd|euro|dollar)?/i] anchored: what
    follows the number is optional and captures nothing. *)
Definition plainAmountAt (s : string) : option RegExpMatch :=
  match numberToken s with
  | Some (m, _) => Some {| group1 := m; group2 := None |}
  | None => None
  end.

Definition amountPatterns : list (string -> option RegExpMatch) := [
  Js.search signedAmountAt;
  Js.search currencyAmountAt;
  Js.search plainAmountAt;
  Js.search plainAmountAt
].

Inductive Sign := Plus | Minus.

(** The loop over [amountPatterns]: the first pattern that matches decides
    [amount] and [explicitSign]. *)
Fixpoint extractAmount (patterns : list (string -> option RegExpMatch))
    (text : string) : Q * option Sign :=
  match patterns with
  | [] => (0%Q, None)
  | pattern :: rest =>
      match pattern text with
      | Some m =>
          if String.eqb (group1 m) "+" then (toNumber (default "" (group2 m)), Some Plus)
          else if String.eqb (group1 m) "-" then (toNumber (default "" (group2 m)), Some Minus)
          else (toNumber (Js.orElse (group1 m) (Js.orElse (default "" (group2 m)) "0")), None)
      | None => extractAmount rest text
      end
  end.

Definition incomeKeywords : list string :=
  ["salary"; "paycheck"; "income"; "received"; "got paid"; "earned"; "bonus";
   "refund"; "dividend"; "gift from"; "sent me"].

Definition determineType (explicitSign : option Sign) (lowerText : string) : TxType :=
  match explicitSign with
  | Some Plus => income
  | Some Minus => expense
  | None =>
      if existsb (fun kw => Js.includes kw lowerText) incomeKeywords
      then income else expense
  end.

(** [/\bw\b/i.test(s)] for a word [w] of word characters *)
Definition hasWord (w s : string) : bool :=
  match Js.searchAtBoundary
          (fun t => match Js.wordCI w t with
                    | Some r => if Js.boundaryAhead r then Some tt else None
                    | None => None
                    end) false s with
  | Some _ => true
  | None => false
  end.

Definition resolveDate (d : Dates) (lowerText : string) : string :=
  if hasWord "yesterday" lowerText then yesterday d
  else if hasWord "last week" lowerText then lastWeek d
  else today d.

(** The two nested loops over the categories of the type and their
    keywords: the first category with a keyword contained in the text. *)
Definition categoriesForType (ty : TxType) : list Category :=
  List.filter (fun c => TxType_eqb (ctype c) ty) DEFAULT_CATEGORIES.

(** the inner loop: some keyword of [cat] is contained in the text *)
Definition hasKeyword (lowerText : string) (cat : Category) : bool :=
  existsb (fun keyword => Js.includes keyword lowerText) (keywords cat).

Definition matchCategory (ty : TxType) (lowerText : string) : option Category :=
  List.find (hasKeyword lowerText) (categoriesForType ty).

Definition fallbackCategory (ty : TxType) : option Category :=
  List.find (fun c => String.eqb (id c)
                        (match ty with income => "other-income" | expense => "other-expense" end))
            DEFAULT_CATEGORIES.

Definition notComma (c : ascii) : bool := negb (Ascii.eqb c ",").

(** [\s*([^,]+)] ([minSpaces] 0) and [\s+([^,]+)] ([minSpaces] 1) anchored:
    the captured field.  White space is taken greedily; when no field
    character follows it, the matcher backtracks by one white-space
    character, which then is the whole field. *)
Definition spacesThenField (minSpaces : nat) (s : string) : option string :=
  let '(ws, r) := Js.span Js.isSpace s in
  let field := fst (Js.span notComma r) in
  if negb (Js.isEmpty field) then
    if (minSpaces <=? String.length ws)%nat then Some field else None
  else
    if (minSpaces + 1 <=? String.length ws)%nat then Some (Js.lastChar ws) else None.

(** [/@\s*([^,]+)/i] anchored *)
Definition atSignAt (s : string) : option string :=
  match s with
  | String "@" r => spacesThenField 0 r
  | _ => None
  end.

(** [/\bat\s+([^,]+)/i] anchored after the word boundary *)
Definition atWordAt (s : string) : option string :=
  match Js.wordCI "at" s with
  | Some r => spacesThenField 1 r
  | None => None
  end.

Definition extractMerchant (text : string) : option string :=
  let atMatch :=
    match Js.search atSignAt text with
    | Some m => Some m
    | None => Js.searchAtBoundary atWordAt false text
    end in
  match atMatch with
  | Some m => Some (Js.trim m)
  | None =>
      let parts := map Js.trim (Js.splitOn "," text) in
      if (3 <=? length parts)%nat then nth_error parts 2 else None
  end.

(** [/[+-]?\s*[$€£]?\s*\d+(?:[.,]\d{1,2})?\s*[$€£]?/] anchored: the rest *)
Definition amountTextAt (s : string) : option string :=
  let s1 := match s with
            | String c r => if Ascii.eqb c "+" || Ascii.eqb c "-" then r else s
            | EmptyString => s
            end in
  match numberToken (skipSpaces (optCurrency (skipSpaces s1))) with
  | Some (_, r) => Some (optCurrency (skipSpaces r))
  | None => None
  end.

(** [/@\s*[^,]+/] anchored: the rest, which starts at the next comma *)
Definition atFieldAt (s : string) : option string :=
  match s with
  | String "@" r =>
      match spacesThenField 0 r with
      | Some _ => Some (Js.dropWhile notComma (skipSpaces r))
      | None => None
      end
  | _ => None
  end.

(** [/\b(yesterday|today|last week)\b/i] anchored after the first boundary *)
Definition dateWordAt (s : string) : option string :=
  let alt w := match Js.wordCI w s with
               | Some r => if Js.boundaryAhead r then Some r else None
               | None => None
               end in
  match alt "yesterday" with
  | Some r => Some r
  | None => match alt "today" with
            | Some r => Some r
            | None => alt "last week"
            end
  end.

Definition stripTokens (text : string) : string :=
  let d1 := Js.removeAll (fun _ s => Js.consumed s (amountTextAt s)) 0 false text in
  let d2 := Js.removeAll (fun _ s => Js.consumed s (atFieldAt s)) 0 false d1 in
  let d3 := Js.removeAll (fun prevIsWord s =>
                            if prevIsWord then None else Js.consumed s (dateWordAt s))
                         0 false d2 in
  Js.trim (Js.collapseSpaces d3).

(** [description.charAt(0).toUpperCase() + description.slice(1)] *)
Definition capitalize (s : string) : string :=
  match s with
  | String c r => String (Js.upperChar c) r
  | EmptyString => EmptyString
  end.

Definition parseTransaction (d : Dates) (text : string) : ParsedTransaction :=
  let lowerText := Js.trim (Js.toLowerCase text) in
  let '(amount, explicitSign) := extractAmount amountPatterns text in
  let type := determineType explicitSign lowerText in
  let date := resolveDate d lowerText in
  let '(matchedCategory, confidence) :=
    match matchCategory type lowerText with
    | Some cat => (Some cat, 0.85%Q)
    | None => (fallbackCategory type, 0.5%Q)
    end in
  let merchant := extractMerchant text in
  let description := stripTokens text in
  let description :=
    if Js.isEmpty description || (String.length description <? 2)%nat
    then Js.orElse (default "" (name <$> matchedCategory)) "Transaction"
    else description in
  {| amount := Qabs amount;
     type := type;
     category := Js.orElse (default "" (name <$> matchedCategory)) "Other";
     merchant := merchant;
     description := capitalize description;
     date := date;
     confidence := confidence |}.

End Backend.

(** ** The desktop application: [AIService] *)

Module Desktop.

(** A row of the [categories] table as [db.getCategories()] returns it
    (the columns [AIService] reads, and the group the rows are ordered by). *)
Record Category := {
  id : string;
  name : string;
  ctype : TxType;
  group : string
}.

Definition mkCategory (i n : string) (t : TxType) (g : string) : Category :=
  {| id := i; name := n; ctype := t; group := g |}.

(** The table [seedDefaultData] fills an empty database with, in the order
    of [getCategories] ([ORDER BY group_name, name]).  The identifiers are
    fresh UUIDs in the source; they are numbered here. *)
Definition seededCategories : list Category := [
  mkCategory "03" "Groceries" expense "essential";
  mkCategory "04" "Healthcare" expense "essential";
  mkCategory "05" "Insurance" expense "essential";
  mkCategory "01" "Rent/Mortgage" expense "essential";
  mkCategory "02" "Utilities" expense "essential";
  mkCategory "15" "Freelance" income "income";
  mkCategory "17" "Gifts" income "income";
  mkCategory "16" "Investments" income "income";
  mkCategory "18" "Refund" income "income";
  mkCategory "14" "Salary" income "income";
  mkCategory "06" "Dining Out" expense "lifestyle";
  mkCategory "07" "Entertainment" expense "lifestyle";
  mkCategory "08" "Shopping" expense "lifestyle";
  mkCategory "09" "Subscriptions" expense "lifestyle";
  mkCategory "21" "Other" expense "other";
  mkCategory "22" "Other Income" income "other";
  mkCategory "20" "Investments" expense "savings";
  mkCategory "19" "Savings Transfer" expense "savings";
  mkCategory "13" "Car Maintenance" expense "transportation";
  mkCategory "10" "Gas" expense "transportation";
  mkCategory "12" "Parking" expense "transportation";
  mkCategory "11" "Public Transit" expense "transportation"
].

Import Amount.

(** *** [parseWithRules] *)

(** [/[$€£]?\s*(\d+(?:[.,]\d{1,2})?)/] anchored: capture group 1 *)
Definition amountAt (s : string) : option string :=
  match numberToken (skipSpaces (optCurrency s)) with
  | Some (m, _) => Some m
  | None => None
  end.

Definition incomeKeywords : list string :=
  ["salary"; "paycheck"; "income"; "received"; "got paid"; "earned"; "bonus";
   "refund"; "dividend"].

Definition expenseKeywords : list string :=
  ["spent"; "paid"; "bought"; "cost"; "purchase"; "bill"; "expense"].

Definition categoryKeywords : list (string * list string) := [
  ("Groceries", ["grocery"; "groceries"; "supermarket"; "food"; "whole foods"; "trader"; "aldi"; "lidl"]);
  ("Dining Out", ["restaurant"; "lunch"; "dinner"; "coffee"; "cafe"; "starbucks"; "mcdonald"]);
  ("Transportation", ["uber"; "lyft"; "taxi"; "gas"; "fuel"; "parking"; "transit"; "metro"; "bus"]);
  ("Rent/Mortgage", ["rent"; "mortgage"; "lease"]);
  ("Utilities", ["electric"; "water"; "gas bill"; "utility"; "internet"; "phone"]);
  ("Entertainment", ["movie"; "netflix"; "spotify"; "game"; "concert"; "tickets"]);
  ("Shopping", ["amazon"; "shopping"; "clothes"; "target"; "walmart"; "ebay"]);
  ("Healthcare", ["doctor"; "pharmacy"; "medicine"; "hospital"; "dental"]);
  ("Salary", ["salary"; "paycheck"; "got paid"; "wage"]);
  ("Freelance", ["freelance"; "client"; "project"; "invoice"])
].

(** ['Other Income'] for income, ['Other'] otherwise *)
Definition fallbackName (ty : TxType) : string :=
  match ty with income => "Other Income" | expense => "Other" end.

Definition someIncluded (kws : list string) (lowerText : string) : bool :=
  existsb (fun kw => Js.includes kw lowerText) kws.

(** an entry of [categoryKeywords] with a keyword contained in the text *)
Definition entryMatches (lowerText : string) (entry : string * list string) : bool :=
  someIncluded (snd entry) lowerText.

(** [/w\s+([A-Z][a-zA-Z\s]+)/i] anchored, for the marker word [w] *)
Definition merchantAfter (w : string) (s : string) : option string :=
  match Js.wordCI w s with
  | Some r =>
      let '(ws, r1) := Js.span Js.isSpace r in
      if Js.isEmpty ws then None
      else
        match r1 with
        | String c r2 =>
            let run := fst (Js.span (fun x => Js.isLetter x || Js.isSpace x) r2) in
            if Js.isLetter c && negb (Js.isEmpty run) then Some (String c run) else None
        | EmptyString => None
        end
  | None => None
  end.

Definition merchantPatterns : list (string -> option string) :=
  [Js.search (merchantAfter "at"); Js.search (merchantAfter "from")].

Fixpoint firstMerchant (patterns : list (string -> option string)) (text : string)
    : option string :=
  match patterns with
  | [] => None
  | pattern :: rest =>
      match pattern text with
      | Some m => Some (Js.trim m)
      | None => firstMerchant rest text
      end
  end.

Definition sameName (a b : string) : bool :=
  String.eqb (Js.toLowerCase a) (Js.toLowerCase b).

Definition parseWithRules (categories : list Category) (d : Dates) (text : string)
    : ParsedTransaction :=
  let lowerText := Js.toLowerCase text in
  let amount := match Js.search amountAt text with
                | Some m => toNumber m
                | None => 0%Q
                end in
  let type := if someIncluded incomeKeywords lowerText then income
              else if someIncluded expenseKeywords lowerText then expense
              else expense in
  let date := if Js.includes "yesterday" lowerText then yesterday d else today d in
  let '(category, confidence) :=
    match List.find (entryMatches lowerText) categoryKeywords with
    | Some (cat, _) => (cat, 0.8%Q)
    | None => (fallbackName type, 0.5%Q)
    end in
  let matchedCategory :=
    List.find (fun c => sameName (name c) category && TxType_eqb (ctype c) type) categories in
  {| amount := amount;
     type := type;
     category := Js.orElse (default "" (name <$> matchedCategory)) category;
     merchant := firstMerchant merchantPatterns text;
     description := text;
     date := date;
     confidence := confidence |}.

(** *** [validateAndEnrich] *)

Definition isDigits (n : nat) (s : string) : bool :=
  (String.length s =? n)%nat && Js.isEmpty (Js.dropWhile Js.isDigit s).

(** [/^\d{4}-\d{2}-\d{2}$/.test(s)] *)
Definition isIsoDate (s : string) : bool :=
  match Js.splitOn "-" s with
  | [y; m; dd] => isDigits 4 y && isDigits 2 m && isDigits 2 dd
  | _ => false
  end.

(** [Math.max(0, Math.min(1, c || 0.5))]: a confidence of 0 is falsy *)
Definition clampConfidence (c : Q) : Q :=
  let c := if Qeq_bool c 0 then 0.5%Q else c in
  Qmax 0 (Qmin 1 c).

Definition validateAndEnrich (categories : list Category) (d : Dates)
    (parsed : ParsedTransaction) : ParsedTransaction :=
  let matchedCategory :=
    List.find (fun c => sameName (name c) (category parsed)) categories in
  let category' :=
    match matchedCategory with
    | None =>
        let fuzzyMatch :=
          List.find (fun c => Js.includes (Js.toLowerCase (category parsed))
                                          (Js.toLowerCase (name c))) categories in
        Js.orElse (default "" (name <$> fuzzyMatch)) (fallbackName (type parsed))
    | Some c => name c
    end in
  let date' :=
    if Js.isEmpty (date parsed) || negb (isIsoDate (date parsed))
    then today d else date parsed in
  {| amount := Qabs (amount parsed);
     type := type parsed;
     category := category';
     merchant := merchant parsed;
     description := description parsed;
     date := date';
     confidence := clampConfidence (confidence parsed) |}.

(** *** [parseTransaction]: rules first, the model below the threshold *)

(** What the service did outside of itself during a call, in order. *)
Inductive Event :=
  | CalledGenerateObject (prompt : string)
  | CalledGenerateText (prompt : string)
  | RanLocalQuery (query : string).

(** The object [generateObject] returns under [TransactionSchema];
    [merchant] is nullable. *)
Record ModelObject := {
  m_amount : Q;
  m_type : TxType;
  m_category : string;
  m_merchant : option string;
  m_description : string;
  m_date : string;
  m_confidence : Q
}.

Definition nl : string := String "010" EmptyString.
Definition dquote : string := String "034" EmptyString.

(** [categories.map(c => c.name).slice(0, 15)] *)
Definition offeredCategories (categories : list Category) : list string :=
  firstn 15 (map name categories).

Definition parsePrompt (categories : list Category) (d : Dates) (text : string) : string :=
  let categoryList := Js.join ", " (offeredCategories categories) in
  "Parse this financial transaction: " ++ dquote ++ text ++ dquote ++ nl ++
  "Available categories: " ++ categoryList ++ nl ++
  "Today's date: " ++ today d ++ nl ++
  "Return structured data.".

(** [parsed.merchant || undefined] *)
Definition truthyString (s : option string) : option string :=
  match s with
  | Some m => if Js.isEmpty m then None else Some m
  | None => None
  end.

Definition THRESHOLD : Q := 0.75.

(** [generateObject prompt] is the outcome of the awaited call with that
    prompt: [None] when it throws (the provider fails, or the answer does
    not fit the schema).  The result comes with the trace of the call. *)
Definition parseTransaction (categories : list Category) (d : Dates)
    (generateObject : string -> option ModelObject) (text : string)
    : ParsedTransaction * list Event :=
  let rulesBased := parseWithRules categories d text in
  if Qle_bool THRESHOLD (confidence rulesBased) then (rulesBased, [])
  else
    let prompt := parsePrompt categories d text in
    match generateObject prompt with
    | Some parsed =>
        (validateAndEnrich categories d
           {| amount := m_amount parsed;
              type := m_type parsed;
              category := m_category parsed;
              merchant := truthyString (m_merchant parsed);
              description := m_description parsed;
              date := m_date parsed;
              confidence := m_confidence parsed |},
         [CalledGenerateObject prompt])
    | None => (rulesBased, [CalledGenerateObject prompt])
    end.

(** *** [processQuery]: the cached query pipeline *)

Record CachedResponse := {
  response : string;
  timestamp : Z
}.

Definition CACHE_TTL : Z := 5 * 60 * 1000.

(** The branches of [handleLocalQuery], in the order they are tested. *)
Inductive Intent :=
  | SpendingByCategory
  | SpendingTotal
  | IncomeTotal
  | Balances
  | BudgetStatus
  | Savings
  | Summary.

(** [handleLocalQuery]: which branch answers the query.  The text of each
    branch is computed from the ledger of the database; [answer] gives it. *)
Definition handleLocalQuery (answer : Intent -> string) (query : string)
    : option string :=
  let has w := Js.includes w query in
  if has "spent" || has "spending" || has "expense" then
    if has "category" || has "where" || has "top" || has "most"
    then Some (answer SpendingByCategory)
    else Some (answer SpendingTotal)
  else if has "income" || has "earn" then Some (answer IncomeTotal)
  else if has "balance" || has "have" || has "total" then Some (answer Balances)
  else if has "budget" then Some (answer BudgetStatus)
  else if has "save" || has "saving" then Some (answer Savings)
  else if has "summary" || has "overview" then Some (answer Summary)
  else None.

(** What one call of [processQuery] reads from outside: the clock at the
    cache lookup and at the cache write, the ledger answers, the financial
    context, and the outcome of [generateText] ([None]: it throws). *)
Record QueryEnv := {
  nowAtLookup : Z;
  nowAtStore : Z;
  localAnswer : Intent -> string;
  financialContext : string;
  generateText : string -> option string
}.

Definition queryPrompt (context query : string) : string :=
  "You are Tracy, a helpful financial assistant. Answer concisely based on this data:" ++
  nl ++ nl ++ context ++ nl ++ nl ++
  "Question: " ++ query ++ nl ++ nl ++
  "Answer in 1-3 sentences. Use " ++ euro ++ " for currency.".

Definition helpMessage : string :=
  "Ask me about: spending, income, balance, budgets, savings, or get a summary!".

Record QueryResult := {
  answer : string;
  cacheAfter : gmap string CachedResponse;
  events : list Event
}.

(** The part of [processQuery] after the cache check: the local answer,
    or else the answer of the model, stored under [cacheKey]; the help
    message, not stored, when the call to the model throws. *)
Definition answerOnMiss (env : QueryEnv) (responseCache : gmap string CachedResponse)
    (query lowerQuery cacheKey : string) : QueryResult :=
  let store text :=
    <[cacheKey := {| response := text; timestamp := nowAtStore env |}]> responseCache in
  match truthyString (handleLocalQuery (localAnswer env) lowerQuery) with
  | Some text =>
      {| answer := text; cacheAfter := store text;
         events := [RanLocalQuery lowerQuery] |}
  | None =>
      let prompt := queryPrompt (financialContext env) query in
      match generateText env prompt with
      | Some text =>
          {| answer := Js.trim text; cacheAfter := store (Js.trim text);
             events := [RanLocalQuery lowerQuery; CalledGenerateText prompt] |}
      | None =>
          {| answer := helpMessage; cacheAfter := responseCache;
             events := [RanLocalQuery lowerQuery; CalledGenerateText prompt] |}
      end
  end.

Definition processQuery (env : QueryEnv) (responseCache : gmap string CachedResponse)
    (query : string) : QueryResult :=
  let lowerQuery := Js.toLowerCase query in
  let cacheKey := Js.trim lowerQuery in
  match responseCache !! cacheKey with
  | Some cached =>
      if (nowAtLookup env - timestamp cached <? CACHE_TTL)%Z
      then {| answer := response cached; cacheAfter := responseCache; events := [] |}
      else answerOnMiss env responseCache query lowerQuery cacheKey
  | None => answerOnMiss env responseCache query lowerQuery cacheKey
  end.

End Desktop.

(** ** The relay: storage, HTTP API and Telegram bot

    The storage functions of the backend, its [POST /api/transactions]
    route and its Telegram bot.  The remote tables are part of the state;
    whether a remote insert succeeds, the identifiers it draws and the time
    are inputs.  The outcome of a Telegram call is an input where the state
    depends on it; replies are recorded by kind, not by their text. *)

Module Relay.

(** a stored row of the [transactions] table *)
Record Transaction := {
  tx_id : string;
  tx_user : string;
  tx_date : string;
  tx_amount : Q;
  tx_type : TxType;
  tx_category : string;
  tx_merchant : option string;
  tx_description : string;
  tx_tags : list string;
  tx_source : string;
  tx_created_at : string;
  tx_updated_at : string
}.

(** [users]: the user id by [telegram_id]; [transactions]: the rows in the
    order they were inserted *)
Record Store := {
  users : gmap string string;
  transactions : list Transaction
}.

(** What the remote service and the clock do during one request. *)
Record StoreEnv := {
  userUUID : string;
  userInsertOk : bool;
  rowUUID : string;
  nowISO : string;
  rowInsertOk : bool
}.

(** [getOrCreateUser]: the id of the user, and the table after the call;
    [None] when the insert fails and the function throws *)
Definition getOrCreateUser (env : StoreEnv) (table : gmap string string)
    (telegramId : string) : option (string * gmap string string) :=
  match table !! telegramId with
  | Some existing => Some (existing, table)
  | None =>
      if userInsertOk env
      then Some (userUUID env, <[telegramId := userUUID env]> table)
      else None
  end.

(** [addTransaction]: the stored row and the table after the call;
    [None] when the insert fails and the function throws *)
Definition addTransaction (env : StoreEnv) (rows : list Transaction)
    (user_id : string) (parsed : ParsedTransaction) (source : string)
    : option (Transaction * list Transaction) :=
  if rowInsertOk env then
    let row := {| tx_id := rowUUID env;
                  tx_user := user_id;
                  tx_date := date parsed;
                  tx_amount := amount parsed;
                  tx_type := type parsed;
                  tx_category := category parsed;
                  tx_merchant := merchant parsed;
                  tx_description := description parsed;
                  tx_tags := [];
                  tx_source := source;
                  tx_created_at := nowISO env;
                  tx_updated_at := nowISO env |} in
    Some (row, (rows ++ [row])%list)
  else None.

(** *** [POST /api/transactions] *)

(** the fields of the request body the route reads ([None]: undefined) *)
Record Body := {
  body_text : option string;
  body_device_id : option string;
  body_source : option string
}.

Inductive Response :=
  | Created (transaction : Transaction) (parsed : ParsedTransaction)
  | BadRequest (error : string)
  | ServerError (error : string).

(** The route once the user is known: parse, refuse an amount of 0,
    store. *)
Definition storeParsed (d : Dates) (env : StoreEnv) (rows : list Transaction)
    (source : option string) (text userId : string) (users' : gmap string string)
    : Response * Store :=
  let parsed := Backend.parseTransaction d text in
  if Qeq_bool (amount parsed) 0
  then (BadRequest "Could not find amount in text",
        {| users := users'; transactions := rows |})
  else
    match addTransaction env rows userId parsed (default "api" source) with
    | None => (ServerError "Failed to add transaction",
               {| users := users'; transactions := rows |})
    | Some (row, rows') =>
        (Created row parsed, {| users := users'; transactions := rows' |})
    end.

Definition postTransaction (d : Dates) (env : StoreEnv) (st : Store) (body : Body)
    : Response * Store :=
  match Desktop.truthyString (body_text body), Desktop.truthyString (body_device_id body) with
  | Some text, Some device_id =>
      match getOrCreateUser env (users st) device_id with
      | None => (ServerError "Failed to add transaction", st)
      | Some (userId, users') =>
          storeParsed d env (transactions st) (body_source body) text userId users'
      end
  | _, _ => (BadRequest "Text and device_id are required", st)
  end.

(** *** The Telegram bot *)

Record Pending := {
  parsed : ParsedTransaction;
  messageId : Z
}.

Record BotState := {
  pendingTransactions : gmap Z Pending;
  store : Store
}.

(** [ctx.from.id.toString()] *)
Definition idString (id : Z) : string :=
  DecimalString.NilZero.string_of_int (Z.to_int id).

(** the update, as the bot routes it *)
Inductive Message :=
  | Command (name : string)
  | Text (text : string)
  | Voice (transcription : option string)
  | Audio
  | ConfirmButton
  | CancelButton.

(** What happens outside the bot during one update: the dates of the
    clock, the message id of the preview reply ([None]: the reply throws),
    the storage, and whether the edit of the preview message succeeds. *)
Record BotEnv := {
  dates : Dates;
  previewMessageId : option Z;
  storeEnv : StoreEnv;
  editOk : bool
}.

Record Update := {
  from : Z;
  message : Message;
  env : BotEnv
}.

Inductive Reply :=
  | Unauthorized
  | Welcome
  | Help
  | SummaryComingSoon
  | NoAmountInText
  | NoAmountInVoice
  | Preview (p : ParsedTransaction)
  | ParseError
  | Transcribing
  | NotUnderstood
  | Heard (transcription : string)
  | VoiceError
  | SendAsVoice
  | Expired
  | Added (p : ParsedTransaction)
  | Saved
  | SaveError
  | Cancelled.

(** the common end of the text and voice handlers: parse, refuse an
    amount of 0, show the preview and remember it *)
Definition preview (u : Update) (st : BotState) (text : string)
    (noAmount failure : Reply) : BotState * list Reply :=
  let p := Backend.parseTransaction (dates (env u)) text in
  if Qeq_bool (amount p) 0 then (st, [noAmount])
  else
    match previewMessageId (env u) with
    | Some mid =>
        ({| pendingTransactions :=
              <[from u := {| parsed := p; messageId := mid |}]> (pendingTransactions st);
            store := store st |},
         [Preview p])
    | None => (st, [failure])
    end.

Definition onConfirm (u : Update) (st : BotState) : BotState * list Reply :=
  match pendingTransactions st !! from u with
  | None => (st, [Expired])
  | Some pending =>
      match getOrCreateUser (storeEnv (env u)) (users (store st)) (idString (from u)) with
      | None => (st, [SaveError])
      | Some (dbUserId, users') =>
          match addTransaction (storeEnv (env u)) (transactions (store st)) dbUserId
                  (parsed pending) "telegram" with
          | None =>
              ({| pendingTransactions := pendingTransactions st;
                  store := {| users := users'; transactions := transactions (store st) |} |},
               [SaveError])
          | Some (_, rows') =>
              let stored := {| users := users'; transactions := rows' |} in
              if editOk (env u) then
                ({| pendingTransactions := delete (from u) (pendingTransactions st);
                    store := stored |},
                 [Added (parsed pending); Saved])
              else
                ({| pendingTransactions := pendingTransactions st; store := stored |},
                 [SaveError])
          end
      end
  end.

Definition handle (u : Update) (st : BotState) : BotState * list Reply :=
  match message u with
  | Command name =>
      (st,
       if String.eqb name "start" then [Welcome]
       else if String.eqb name "help" then [Help]
       else if String.eqb name "summary" then [SummaryComingSoon]
       else [])
  | Text text =>
      if Js.startsWith "/" text then (st, [])
      else preview u st text NoAmountInText ParseError
  | Voice transcription =>
      match transcription with
      | None => (st, [Transcribing; VoiceError])
      | Some t =>
          if Js.isEmpty t || (String.length (Js.trim t) =? 0)%nat
          then (st, [Transcribing; NotUnderstood])
          else
            let '(st', replies) := preview u st t NoAmountInVoice VoiceError in
            (st', (Transcribing :: Heard t :: replies)%list)
      end
  | Audio => (st, [SendAsVoice])
  | ConfirmButton => onConfirm u st
  | CancelButton =>
      ({| pendingTransactions := delete (from u) (pendingTransactions st);
          store := store st |},
       [Cancelled])
  end.

(** The middleware in front of every handler: with [ALLOWED_USER_ID] set,
    only that user gets through. *)
Definition step (allowedUserId : option string) (st : BotState) (u : Update)
    : BotState * list Reply :=
  match Desktop.truthyString allowedUserId with
  | Some allowed =>
      if negb (String.eqb (idString (from u)) allowed) then (st, [Unauthorized])
      else handle u st
  | None => handle u st
  end.

(** the bot over a sequence of updates, one after the other *)
Fixpoint run (allowedUserId : option string) (st : BotState)
    (updates : list Update) : BotState * list Reply :=
  match updates with
  | [] => (st, [])
  | u :: rest =>
      let '(st1, replies1) := step allowedUserId st u in
      let '(st2, replies2) := run allowedUserId st1 rest in
      (st2, (replies1 ++ replies2)%list)
  end.

Definition initial : BotState :=
  {| pendingTransactions := ∅; store := {| users := ∅; transactions := [] |} |}.

End Relay.

(** ** The desktop database: transactions and account balances

    [addTransaction], [updateTransaction], [deleteTransaction],
    [updateAccountBalance] and [resetAllData] of the [Database] class, over
    the tables they read and write.  A statement that violates a primary or
    foreign key throws; identifiers and the time are inputs, and one reading
    of the clock stands for the readings within a call. *)

Module Ledger.

Inductive Kind := IncomeTx | ExpenseTx | TransferTx.

(** a row of [accounts], by id (the columns the functions below use) *)
Record Account := {
  acc_name : string;
  balance : Q;
  isActive : bool;
  acc_updatedAt : string
}.

(** [Omit<Transaction, 'id' | 'createdAt' | 'updatedAt'>] *)
Record Fields := {
  f_date : string;
  f_amount : Q;
  f_type : Kind;
  categoryId : string;
  accountId : string;
  toAccountId : option string;
  f_merchant : option string;
  f_description : string;
  notes : option string;
  f_tags : list string;
  receiptPath : option string;
  recurringId : option string;
  isReconciled : bool;
  f_confidence : option Q
}.

(** a row of [transactions], by id *)
Record Row := {
  fields : Fields;
  createdAt : string;
  updatedAt : string
}.

Record Db := {
  accounts : gmap string Account;
  categories : list Desktop.Category;
  transactions : gmap string Row;
  recurring : gset string
}.

(** [x || null] on a number: 0 is falsy *)
Definition truthyNumber (x : option Q) : option Q :=
  match x with
  | Some q => if Qeq_bool q 0 then None else Some q
  | None => None
  end.

(** the values bound to the columns: [x || null] where the source has it *)
Definition stored (f : Fields) : Fields :=
  {| f_date := f_date f;
     f_amount := f_amount f;
     f_type := f_type f;
     categoryId := categoryId f;
     accountId := accountId f;
     toAccountId := Desktop.truthyString (toAccountId f);
     f_merchant := Desktop.truthyString (f_merchant f);
     f_description := f_description f;
     notes := Desktop.truthyString (notes f);
     f_tags := f_tags f;
     receiptPath := Desktop.truthyString (receiptPath f);
     recurringId := Desktop.truthyString (recurringId f);
     isReconciled := isReconciled f;
     f_confidence := truthyNumber (f_confidence f) |}.

Definition hasCategory (db : Db) (id : string) : bool :=
  existsb (fun c => String.eqb (Desktop.id c) id) (categories db).

Definition hasAccount (db : Db) (id : string) : bool :=
  bool_decide (is_Some (accounts db !! id)).

Definition hasOptionalAccount (db : Db) (id : option string) : bool :=
  match id with Some a => hasAccount db a | None => true end.

(** the foreign keys of a new row: category, account, target account and
    recurring transaction *)
Definition referencesOk (db : Db) (f : Fields) : bool :=
  hasCategory db (categoryId f) && hasAccount db (accountId f)
  && hasOptionalAccount db (toAccountId f)
  && match recurringId f with Some r => bool_decide (r ∈ recurring db) | None => true end.

(** the change [updateAccountBalance] makes to the balance *)
Definition balanceDelta (amount : Q) (type : Kind) : Q :=
  match type with
  | ExpenseTx => - Qabs amount
  | IncomeTx => Qabs amount
  | TransferTx => amount
  end.

(** [UPDATE accounts SET balance = balance + ?, updated_at = ? WHERE id = ?] *)
Definition updateAccountBalance (now : string) (accountId : string) (amount : Q)
    (type : Kind) (table : gmap string Account) : gmap string Account :=
  alter (fun a => {| acc_name := acc_name a;
                     balance := balance a + balanceDelta amount type;
                     isActive := isActive a;
                     acc_updatedAt := now |}) accountId table.

(** the balance updates after a row is written *)
Definition applyBalance (now : string) (f : Fields) (table : gmap string Account)
    : gmap string Account :=
  let table1 := updateAccountBalance now (accountId f) (f_amount f) (f_type f) table in
  match Desktop.truthyString (toAccountId f) with
  | Some to => updateAccountBalance now to (Qabs (f_amount f)) IncomeTx table1
  | None => table1
  end.

(** the balance updates before a row is replaced or deleted *)
Definition reverseBalance (now : string) (old : Fields) (table : gmap string Account)
    : gmap string Account :=
  let table1 := updateAccountBalance now (accountId old) (- f_amount old) (f_type old) table in
  match Desktop.truthyString (toAccountId old) with
  | Some to => updateAccountBalance now to (- Qabs (f_amount old)) IncomeTx table1
  | None => table1
  end.

(** [addTransaction]: the database after the call, [None] when the insert
    throws (the id is taken or a reference is missing) *)
Definition addTransaction (id now : string) (f : Fields) (db : Db) : option Db :=
  match transactions db !! id with
  | Some _ => None
  | None =>
      if referencesOk db (stored f) then
        Some {| accounts := applyBalance now f (accounts db);
                categories := categories db;
                transactions :=
                  <[id := {| fields := stored f; createdAt := now; updatedAt := now |}]>
                    (transactions db);
                recurring := recurring db |}
      else None
  end.

(** [deleteTransaction]: whether a row was deleted, and the database after
    the call *)
Definition deleteTransaction (now : string) (id : string) (db : Db) : bool * Db :=
  match transactions db !! id with
  | Some tx =>
      (true,
       {| accounts := reverseBalance now (fields tx) (accounts db);
          categories := categories db;
          transactions := delete id (transactions db);
          recurring := recurring db |})
  | None => (false, db)
  end.

(** the columns [updateTransaction] writes; the others keep their value *)
Definition replaced (old : Row) (now : string) (f : Fields) : Row :=
  {| fields :=
       {| f_date := f_date f;
          f_amount := f_amount f;
          f_type := f_type f;
          categoryId := categoryId f;
          accountId := accountId f;
          toAccountId := Desktop.truthyString (toAccountId f);
          f_merchant := Desktop.truthyString (f_merchant f);
          f_description := f_description f;
          notes := Desktop.truthyString (notes f);
          f_tags := f_tags f;
          receiptPath := Desktop.truthyString (receiptPath f);
          recurringId := recurringId (fields old);
          isReconciled := isReconciled f;
          f_confidence := f_confidence (fields old) |};
     createdAt := createdAt old;
     updatedAt := now |}.

(** [updateTransaction]: whether it returns ([false]: the update throws on
    a missing reference, after the old balances were reversed), and the
    database after the call *)
Definition updateTransaction (now : string) (id : string) (f : Fields) (db : Db)
    : bool * Db :=
  match transactions db !! id with
  | Some old =>
      let reversed := reverseBalance now (fields old) (accounts db) in
      if hasCategory db (categoryId f) && hasAccount db (accountId f)
         && hasOptionalAccount db (Desktop.truthyString (toAccountId f))
      then
        (true,
         {| accounts := applyBalance now f reversed;
            categories := categories db;
            transactions := <[id := replaced old now f]> (transactions db);
            recurring := recurring db |})
      else
        (false,
         {| accounts := reversed;
            categories := categories db;
            transactions := transactions db;
            recurring := recurring db |})
  | None =>
      (true,
       {| accounts := applyBalance now f (accounts db);
          categories := categories db;
          transactions := transactions db;
          recurring := recurring db |})
  end.

(** [resetAllData], on the tables modelled here *)
Definition resetAllData (db : Db) : bool * Db :=
  (true,
   {| accounts := (fun a => {| acc_name := acc_name a; balance := 0;
                               isActive := isActive a;
                               acc_updatedAt := acc_updatedAt a |}) <$> accounts db;
      categories := categories db;
      transactions := ∅;
      recurring := recurring db |}).

(** *** The confirmation of a parsed transaction in the voice panel *)

Definition kindOf (t : TxType) : Kind :=
  match t with income => IncomeTx | expense => ExpenseTx end.

(** [handleConfirmTransaction]: what is passed to [addTransaction];
    [None] when nothing is parsed, or the category or the account is not
    found, and nothing is added.  [accounts] is the list of the store, by
    id.  The parses of the service carry no tags, so [tags] is empty. *)
Definition handleConfirmTransaction (categories : list Desktop.Category)
    (accounts : list (string * Account)) (parsedTransaction : option ParsedTransaction)
    : option Fields :=
  match parsedTransaction with
  | None => None
  | Some p =>
      let category :=
        List.find (fun c => Desktop.sameName (Desktop.name c) (category p)) categories in
      match category, accounts with
      | Some c, (accountId, _) :: _ =>
          Some {| f_date := date p;
                  f_amount := match type p with
                              | expense => - Qabs (amount p)
                              | income => Qabs (amount p)
                              end;
                  f_type := kindOf (type p);
                  categoryId := Desktop.id c;
                  accountId := accountId;
                  toAccountId := None;
                  f_merchant := merchant p;
                  f_description := description p;
                  notes := None;
                  f_tags := [];
                  receiptPath := None;
                  recurringId := None;
                  isReconciled := false;
                  f_confidence := Some (confidence p) |}
      | _, _ => None
      end
  end.

End Ledger.

(** ** The reports of the desktop application: insights and dashboard

    [AIService.getInsights] and [Database.getDashboardData].  The rows the
    database returns for a period, the budgets and the catalog are inputs.

    The numbers of the reports are binary64 numbers: every sum, difference,
    product and quotient is the exact result rounded to the nearest
    representable number.  [fl] stands for that rounding, within the finite
    range.  Three of its laws are used: it is monotone, it leaves a rounded
    number as it is, and it leaves a number [n / 2^k] as it is when [n] has
    at most 53 bits and [k] is small. *)

Module Reports.

Import Ledger.

Record Rounding := {
  fl : Q -> Q;
  fl_monotone : forall x y, (x <= y)%Q -> (fl x <= fl y)%Q;
  fl_idempotent : forall x, (fl (fl x) == fl x)%Q;
  fl_exact : forall (n : Z) (k : N),
      (Z.abs n <= 2 ^ 53)%Z -> (k <= 1000)%N ->
      (fl (n # Pos.shiftl 1 k) == n # Pos.shiftl 1 k)%Q
}.

(** the arithmetic of unbounded precision, in which nothing is rounded *)
Definition unrounded : Rounding :=
  {| fl := fun x => x;
     fl_monotone := fun x y H => H;
     fl_idempotent := fun x => Qeq_refl x;
     fl_exact := fun n k _ _ => Qeq_refl (n # Pos.shiftl 1 k) |}.

(** the columns of [budgets] the reports read *)
Record Budget := {
  b_id : string;
  b_categoryId : string;
  b_amount : Q
}.

(** [t.type === k] *)
Definition hasType (k : Kind) (t : Fields) : bool :=
  match f_type t, k with
  | IncomeTx, IncomeTx | ExpenseTx, ExpenseTx | TransferTx, TransferTx => true
  | _, _ => false
  end.

(** [a > b] *)
Definition gt (a b : Q) : bool := negb (Qle_bool a b).

(** [new Map(categories.map(c => [c.id, c]))]: a later entry replaces an
    earlier one with the same id *)
Definition categoryMap (categories : list Desktop.Category) : gmap string Desktop.Category :=
  fold_left (fun m c => <[Desktop.id c := c]> m) categories ∅.

(** [${category?.name}] *)
Definition nameOrUndefined (category : option Desktop.Category) : string :=
  match category with Some c => Desktop.name c | None => "undefined" end.

(** [x || 0] *)
Definition orZero (x : Q) : Q := if Qeq_bool x 0 then 0%Q else x.

Inductive InsightType := Spending | Saving | Trend | Anomaly | Recommendation.

Inductive Priority := Low | Medium | High.

(** The text of a description is a fixed sentence around the numbers it
    prints with [toFixed]; the numbers are kept. *)
Inductive Description :=
  | SpendingVersusLastMonth (percent : Q) (more : bool)
  | SavingOfIncome (percent : Q)
  | SavingsRateIs (percent : Q)
  | ExceededBy (amount : Q)
  | PercentUsed (percent : Q).

Record AIInsight := {
  i_id : string;
  i_type : InsightType;
  title : string;
  description : Description;
  priority : Priority;
  i_createdAt : string
}.

(** [(spent / amount) * 100] for [spent >= 0]: a division by zero gives
    [Infinity] for a positive [spent] and [NaN] for zero *)
Inductive Percent := Finite (p : Q) | Infinite | NotANumber.

Record TopCategory := {
  tc_category : Desktop.Category;
  tc_amount : Q;
  tc_percentage : Q
}.

Record BudgetProgress := {
  bp_budget : Budget;
  bp_category : Desktop.Category;
  spent : Q;
  remaining : Q
}.

Record MonthTrend := {
  month : string;
  mt_income : Q;
  mt_expenses : Q
}.

Record DashboardData := {
  totalIncome : Q;
  totalExpenses : Q;
  netSavings : Q;
  savingsRate : Q;
  topCategories : list TopCategory;
  recentTransactions : list Fields;
  budgetProgress : list BudgetProgress;
  monthlyTrend : list MonthTrend;
  upcomingBills : list string
}.

(** [sort((a, b) => b[1] - a[1])]: the sort is stable, and the sign of the
    difference of two binary64 numbers is the sign of their exact
    difference *)
Fixpoint insertDesc (x : string * Q) (l : list (string * Q)) : list (string * Q) :=
  match l with
  | [] => [x]
  | y :: rest => if gt (snd y) (snd x) then y :: insertDesc x rest else x :: y :: rest
  end.

Definition sortDesc (l : list (string * Q)) : list (string * Q) :=
  foldr insertDesc [] l.

Section WithRounding.

Context (R : Rounding).

(** [rows.reduce((s, t) => s + Math.abs(t.amount), 0)] *)
Definition total (rows : list Fields) : Q :=
  fold_left (fun s t => fl R (s + Qabs (f_amount t))) rows 0%Q.

(** [(x / y) * 100] *)
Definition percentOf (x y : Q) : Q := fl R (fl R (x / y) * 100).

(** *** [getInsights] *)

(** the insight on the change of the expenses since last month *)
Definition spendingChange (now : string) (thisMonthExpenses lastMonthExpenses : Q)
    : list AIInsight :=
  if gt lastMonthExpenses 0 then
    let change :=
      percentOf (fl R (thisMonthExpenses - lastMonthExpenses)) lastMonthExpenses in
    if gt (Qabs change) 10 then
      [{| i_id := "spending-change";
          i_type := if gt change 0 then Anomaly else Saving;
          title := if gt change 0 then "Spending Up" else "Spending Down";
          description := SpendingVersusLastMonth (Qabs change) (gt change 0);
          priority := if gt (Qabs change) 25 then High else Medium;
          i_createdAt := now |}]
    else []
  else [].

(** the insight on the savings rate *)
Definition savingsInsight (now : string) (income thisMonthExpenses : Q) : list AIInsight :=
  if gt income 0 then
    let savingsRate := percentOf (fl R (income - thisMonthExpenses)) income in
    if Qle_bool 20 savingsRate then
      [{| i_id := "great-savings";
          i_type := Saving;
          title := "Great Savings!";
          description := SavingOfIncome savingsRate;
          priority := Low;
          i_createdAt := now |}]
    else if gt 10 savingsRate && Qle_bool 0 savingsRate then
      [{| i_id := "low-savings";
          i_type := Recommendation;
          title := "Consider Saving More";
          description := SavingsRateIs savingsRate;
          priority := Medium;
          i_createdAt := now |}]
    else []
  else [].

(** what was spent under the category of a budget *)
Definition spentOn (b : Budget) (rows : list Fields) : Q :=
  total (List.filter (fun t => String.eqb (categoryId t) (b_categoryId b)
                               && hasType ExpenseTx t) rows).

Definition percentage (spent amount : Q) : Percent :=
  if Qeq_bool amount 0 then
    if gt spent 0 then Infinite else NotANumber
  else Finite (percentOf spent amount).

(** one round of the loop over the budgets; a comparison with [NaN] is
    false *)
Definition budgetInsight (now : string) (categories : list Desktop.Category)
    (thisMonth : list Fields) (budget : Budget) : option AIInsight :=
  let spent := spentOn budget thisMonth in
  let category := categoryMap categories !! b_categoryId budget in
  let over :=
    {| i_id := "budget-over-" ++ b_id budget;
       i_type := Anomaly;
       title := "Over Budget: " ++ nameOrUndefined category;
       description := ExceededBy (fl R (spent - b_amount budget));
       priority := High;
       i_createdAt := now |} in
  match percentage spent (b_amount budget) with
  | Infinite => Some over
  | Finite p =>
      if Qle_bool 100 p then Some over
      else if Qle_bool 80 p then
        Some {| i_id := "budget-warning-" ++ b_id budget;
                i_type := Spending;
                title := "Budget Alert: " ++ nameOrUndefined category;
                description := PercentUsed p;
                priority := Medium;
                i_createdAt := now |}
      else None
  | NotANumber => None
  end.

Definition getInsights (now : string) (thisMonth lastMonth : list Fields)
    (budgets : list Budget) (categories : list Desktop.Category) : list AIInsight :=
  let thisMonthExpenses := total (List.filter (hasType ExpenseTx) thisMonth) in
  let lastMonthExpenses := total (List.filter (hasType ExpenseTx) lastMonth) in
  let income := total (List.filter (hasType IncomeTx) thisMonth) in
  (spendingChange now thisMonthExpenses lastMonthExpenses
   ++ savingsInsight now income thisMonthExpenses
   ++ omap (budgetInsight now categories thisMonth) budgets)%list.

(** *** [getDashboardData] *)

(** [m.set(k, (m.get(k) || 0) + v)] on a [Map], which keeps its keys in the
    order of their first insertion *)
Fixpoint addTo (k : string) (v : Q) (m : list (string * Q)) : list (string * Q) :=
  match m with
  | [] => [(k, fl R (0 + v))]
  | (k', v') :: rest =>
      if String.eqb k' k then (k', fl R (orZero v' + v)) :: rest
      else (k', v') :: addTo k v rest
  end.

Definition categorySpending (rows : list Fields) : list (string * Q) :=
  fold_left (fun m t => addTo (categoryId t) (Qabs (f_amount t)) m)
            (List.filter (hasType ExpenseTx) rows) [].

(** [transactions] are the rows of the period, newest first; [months] the
    six months up to the current one, as [YYYY-MM]; [bills] the active
    recurring transactions by id, next first *)
Definition getDashboardData (transactions : list Fields)
    (categories : list Desktop.Category) (budgets : list Budget)
    (months : list string) (bills : list string) : DashboardData :=
  let totalIncome := total (List.filter (hasType IncomeTx) transactions) in
  let totalExpenses := total (List.filter (hasType ExpenseTx) transactions) in
  let netSavings := fl R (totalIncome - totalExpenses) in
  let savingsRate := if gt totalIncome 0 then percentOf netSavings totalIncome else 0%Q in
  let topCategories :=
    omap (fun '(categoryId, amount) =>
            match categoryMap categories !! categoryId with
            | Some c =>
                Some {| tc_category := c;
                        tc_amount := amount;
                        tc_percentage := if gt totalExpenses 0
                                         then percentOf amount totalExpenses else 0%Q |}
            | None => None
            end)
         (take 5 (sortDesc (categorySpending transactions))) in
  let budgetProgress :=
    omap (fun budget =>
            let spent :=
              total (List.filter (fun t => hasType ExpenseTx t
                                           && String.eqb (categoryId t) (b_categoryId budget))
                                 transactions) in
            match categoryMap categories !! b_categoryId budget with
            | Some c =>
                Some {| bp_budget := budget;
                        bp_category := c;
                        spent := spent;
                        remaining := fl R (b_amount budget - spent) |}
            | None => None
            end)
         budgets in
  let monthlyTrend :=
    List.map (fun month =>
                let monthTransactions :=
                  List.filter (fun t => Js.startsWith month (f_date t)) transactions in
                {| month := month;
                   mt_income := total (List.filter (hasType IncomeTx) monthTransactions);
                   mt_expenses := total (List.filter (hasType ExpenseTx) monthTransactions) |})
             months in
  {| totalIncome := totalIncome;
     totalExpenses := totalExpenses;
     netSavings := netSavings;
     savingsRate := savingsRate;
     topCategories := topCategories;
     recentTransactions := take 10 transactions;
     budgetProgress := budgetProgress;
     monthlyTrend := monthlyTrend;
     upcomingBills := take 5 bills |}.

End WithRounding.

End Reports.

(** ** Vocabulary of the properties *)

(** [x] is the first element of [l] that satisfies [f]: the loops of the
    parsers stop at it. *)
Definition firstSuch {A} (f : A -> bool) (l : list A) (x : A) : Prop :=
  exists before after,
    l = (before ++ x :: after)%list /\ f x = true /\ forall y, In y before -> f y = false.

(** The category of [p] is under the control of the catalog: the name of
    an entry of the type of [p], or the fallback of that type. *)
Definition controlledCategory (categories : list Desktop.Category)
    (p : ParsedTransaction) : Prop :=
  (exists c, In c categories /\ Desktop.name c = category p /\ Desktop.ctype c = type p)
  \/ category p = Desktop.fallbackName (type p).

Definition controlledCategoryb (categories : list Desktop.Category)
    (p : ParsedTransaction) : bool :=
  existsb (fun c => String.eqb (Desktop.name c) (category p)
                    && TxType_eqb (Desktop.ctype c) (type p)) categories
  || String.eqb (category p) (Desktop.fallbackName (type p)).

(** no [+] and no [-] in [s] *)
Fixpoint noSign (s : string) : bool :=
  match s with
  | EmptyString => true
  | String c r => negb (Ascii.eqb c "+" || Ascii.eqb c "-") && noSign r
  end.

(** the direction an explicit sign stands for *)
Definition direction (c : ascii) : TxType :=
  if Ascii.eqb c "+" then income else expense.

(** the direction of the sign a match of the signed pattern captured *)
Definition signDirection (m : Backend.RegExpMatch) : TxType :=
  if String.eqb (Backend.group1 m) "+" then income else expense.

(** The order of [getCategories]: [ORDER BY group_name, name] under the
    binary collation of the table, that is by group and then by name, byte
    by byte (an upper-case ASCII letter sorts before every lower-case
    one). *)
Definition catalogLe (a b : Desktop.Category) : bool :=
  match String.compare (Desktop.group a) (Desktop.group b) with
  | Lt => true
  | Gt => false
  | Eq => String.leb (Desktop.name a) (Desktop.name b)
  end.

Fixpoint catalogOrdered (categories : list Desktop.Category) : bool :=
  match categories with
  | a :: (b :: _) as rest => catalogLe a b && catalogOrdered rest
  | _ => true
  end.

(** The cache key of a query: [query.toLowerCase().trim()]. *)
Definition cacheKey (query : string) : string := Js.trim (Js.toLowerCase query).

(** The computation of a cache miss yields an answer: a local one, or the
    text of the model. *)
Definition answersQuery (env : Desktop.QueryEnv) (query : string) : bool :=
  match Desktop.truthyString
          (Desktop.handleLocalQuery (Desktop.localAnswer env) (Js.toLowerCase query)) with
  | Some _ => true
  | None =>
      match Desktop.generateText env
              (Desktop.queryPrompt (Desktop.financialContext env) query) with
      | Some _ => true
      | None => false
      end
  end.

Definition isLocalRun (e : Desktop.Event) : bool :=
  match e with Desktop.RanLocalQuery _ => true | _ => false end.

Definition isModelCall (e : Desktop.Event) : bool :=
  match e with Desktop.RanLocalQuery _ => false | _ => true end.

(** The words that select a branch of [handleLocalQuery]. *)
Definition triggerWords : list string :=
  ["spent"; "spending"; "expense"; "income"; "earn"; "balance"; "have"; "total";
   "budget"; "save"; "saving"; "summary"; "overview"].

Definition hasTrigger (query : string) : bool :=
  existsb (fun w => Js.includes w query) triggerWords.

(** every character of [s] satisfies [p] *)
Fixpoint allChars (p : ascii -> bool) (s : string) : bool :=
  match s with
  | EmptyString => true
  | String c r => p c && allChars p r
  end.

(** [s] contains a decimal digit *)
Definition hasDigit (s : string) : bool :=
  negb (allChars (fun c => negb (Js.isDigit c)) s).

(** [x] is a decimal token with at most two fraction digits: digits,
    optionally followed by a point or a comma and one or two digits *)
Definition decimalToken (x : string) : bool :=
  let '(ds, tail) := Js.span Js.isDigit x in
  negb (Js.isEmpty ds)
  && match tail with
     | EmptyString => true
     | String sep (String d1 EmptyString) => Amount.isSep sep && Js.isDigit d1
     | String sep (String d1 (String d2 EmptyString)) =>
         Amount.isSep sep && Js.isDigit d1 && Js.isDigit d2
     | _ => false
     end.

(** What [parseFloat] is applied to: a matched number, or one of the
    defaults of the source. *)
Definition tokenOrDefault (x : string) : Prop :=
  x = "" \/ x = "0" \/ exists s r, Amount.numberToken s = Some (x, r).

(** A match of one of the backend amount patterns: a sign with a number in
    group 2, or a number in group 1. *)
Definition amountMatch (m : Backend.RegExpMatch) : Prop :=
  exists s n r,
    Amount.numberToken s = Some (n, r)
    /\ ((Backend.group2 m = Some n /\ (Backend.group1 m = "+" \/ Backend.group1 m = "-"))
        \/ (Backend.group1 m = n /\ Backend.group2 m = None)).

(** every character of [s] is white space *)
Fixpoint allSpaces (s : string) : bool :=
  match s with
  | EmptyString => true
  | String c r => Js.isSpace c && allSpaces r
  end.

(** Every pending preview and every stored row of the bot has a positive
    amount; the stored rows are marked as coming from Telegram. *)
Definition botInvariant (st : Relay.BotState) : Prop :=
  (forall uid p, Relay.pendingTransactions st !! uid = Some p ->
                 (0 < amount (Relay.parsed p))%Q)
  /\ (forall row, In row (Relay.transactions (Relay.store st)) ->
                  (0 < Relay.tx_amount row)%Q /\ Relay.tx_source row = "telegram").

(** [x] is a number of the rounded arithmetic: rounding leaves it as it is *)
Definition representable (R : Reports.Rounding) (x : Q) : Prop :=
  (Reports.fl R x == x)%Q.

(** [l] is in descending order of [f]: no entry is followed by a larger one *)
Fixpoint descending {A} (f : A -> Q) (l : list A) : Prop :=
  match l with
  | [] => True
  | a :: rest => Forall (fun b => (f b <= f a)%Q) rest /\ descending f rest
  end.

(** ** Inputs used in the examples *)

(** a database with one account and the seeded categories *)
Definition cashOnly : Ledger.Db :=
  {| Ledger.accounts :=
       {["acc-1" := {| Ledger.acc_name := "Cash"; Ledger.balance := 100%Q;
                       Ledger.isActive := true;
                       Ledger.acc_updatedAt := "2026-01-01T00:00:00.000Z" |}]};
     Ledger.categories := Desktop.seededCategories;
     Ledger.transactions := ∅;
     Ledger.recurring := ∅ |}.

(** a budget of 100 for gas, and rows that use 90 of it *)
Definition gasBudget : Reports.Budget :=
  {| Reports.b_id := "b-1"; Reports.b_categoryId := "10"; Reports.b_amount := 100%Q |}.

(** the accounts of the store, as the voice panel sees them *)
Definition cashAccounts : list (string * Ledger.Account) :=
  [("acc-1", {| Ledger.acc_name := "Cash"; Ledger.balance := 100%Q;
                Ledger.isActive := true;
                Ledger.acc_updatedAt := "2026-01-01T00:00:00.000Z" |})].

(** a database with a cash account of 100 and an empty savings account *)
Definition cashAndSavings : Ledger.Db :=
  {| Ledger.accounts :=
       <["acc-2" := {| Ledger.acc_name := "Savings"; Ledger.balance := 0%Q;
                       Ledger.isActive := true;
                       Ledger.acc_updatedAt := "2026-01-01T00:00:00.000Z" |}]>
         (Ledger.accounts cashOnly);
     Ledger.categories := Desktop.seededCategories;
     Ledger.transactions := ∅;
     Ledger.recurring := ∅ |}.

(** a transfer of 50 from the cash account to the savings account *)
Definition toSavings : Ledger.Fields :=
  {| Ledger.f_date := "2026-01-15"; Ledger.f_amount := (-50)%Q;
     Ledger.f_type := Ledger.TransferTx;
     Ledger.categoryId := "19"; Ledger.accountId := "acc-1";
     Ledger.toAccountId := Some "acc-2";
     Ledger.f_merchant := None; Ledger.f_description := "to savings";
     Ledger.notes := None; Ledger.f_tags := []; Ledger.receiptPath := None;
     Ledger.recurringId := None; Ledger.isReconciled := false;
     Ledger.f_confidence := None |}.

(** the same expense with a category id that is not in the catalog *)
Definition gasWithoutCategory : Ledger.Fields :=
  {| Ledger.f_date := "2026-01-15"; Ledger.f_amount := 30%Q; Ledger.f_type := Ledger.ExpenseTx;
     Ledger.categoryId := "99"; Ledger.accountId := "acc-1"; Ledger.toAccountId := None;
     Ledger.f_merchant := Some "Shell"; Ledger.f_description := "gas";
     Ledger.notes := None; Ledger.f_tags := []; Ledger.receiptPath := None;
     Ledger.recurringId := None; Ledger.isReconciled := false;
     Ledger.f_confidence := Some 0.8%Q |}.

(** [db] after [f] is added under [id], [db] itself when the insert throws *)
Definition withRow (id now : string) (f : Ledger.Fields) (db : Ledger.Db) : Ledger.Db :=
  default db (Ledger.addTransaction id now f db).

(** an expense of 30 for gas, with a positive amount *)
Definition gasExpense : Ledger.Fields :=
  {| Ledger.f_date := "2026-01-15"; Ledger.f_amount := 30%Q; Ledger.f_type := Ledger.ExpenseTx;
     Ledger.categoryId := "10"; Ledger.accountId := "acc-1"; Ledger.toAccountId := None;
     Ledger.f_merchant := Some "Shell"; Ledger.f_description := "gas";
     Ledger.notes := None; Ledger.f_tags := []; Ledger.receiptPath := None;
     Ledger.recurringId := None; Ledger.isReconciled := false;
     Ledger.f_confidence := Some 0.8%Q |}.

(** a remote service that works *)
Definition storeUp (uuid : string) : Relay.StoreEnv :=
  {| Relay.userUUID := "user-" ++ uuid; Relay.userInsertOk := true;
     Relay.rowUUID := "row-" ++ uuid; Relay.nowISO := "2026-01-15T10:00:00.000Z";
     Relay.rowInsertOk := true |}.

Definition botEnv (uuid : string) : Relay.BotEnv :=
  {| Relay.dates := {| today := "2026-01-15"; yesterday := "2026-01-14";
                       lastWeek := "2026-01-08" |};
     Relay.previewMessageId := Some 7%Z;
     Relay.storeEnv := storeUp uuid;
     Relay.editOk := true |}.

Definition update (uid : Z) (m : Relay.Message) (uuid : string) : Relay.Update :=
  {| Relay.from := uid; Relay.message := m; Relay.env := botEnv uuid |}.

(** an update during which the storage works and the edit of the preview
    message fails *)
Definition updateEditFails (uid : Z) (m : Relay.Message) (uuid : string) : Relay.Update :=
  {| Relay.from := uid; Relay.message := m;
     Relay.env := {| Relay.dates := Relay.dates (botEnv uuid);
                     Relay.previewMessageId := Some 7%Z;
                     Relay.storeEnv := storeUp uuid;
                     Relay.editOk := false |} |}.

(** the bot after user 42 has sent "-30 gas" and got the preview *)
Definition gasPreview : Relay.BotState :=
  fst (Relay.handle (update 42 (Relay.Text "-30 gas") "a") Relay.initial).

(** a ledger and a model for the query examples: the model answers every
    prompt with [reply] *)
Definition queryEnv (t : Z) (reply : option string) : Desktop.QueryEnv :=
  {| Desktop.nowAtLookup := t;
     Desktop.nowAtStore := t + 1;
     Desktop.localAnswer := fun _ => "Total balance: 0.00";
     Desktop.financialContext := "Income: 0.00, Expenses: 0.00, Balance: 0.00";
     Desktop.generateText := fun _ => reply |}.

(** the seeded catalog after the user has added a category "gas" to the
    transportation group, as [getCategories] returns it: the new row sorts
    after every seeded row of its group *)
Definition catalogWithLowerGas : list Desktop.Category :=
  (Desktop.seededCategories
   ++ [Desktop.mkCategory "23" "gas" expense "transportation"])%list.

(** a well-formed parse filed under the added category *)
Definition lowerGasParse : ParsedTransaction :=
  {| amount := 5; type := expense; category := "gas"; merchant := None;
     description := "fuel"; date := "2026-01-15"; confidence := 0.9 |}.

(** a well-formed parse filed under the seeded category "Gas" *)
Definition gasParse : ParsedTransaction :=
  {| amount := 5; type := expense; category := "Gas"; merchant := None;
     description := "fuel"; date := "2026-01-15"; confidence := 0.9 |}.


Definition jan15 : Dates :=
  {| today := "2026-01-15"; yesterday := "2026-01-14"; lastWeek := "2026-01-08" |}.

(** a text-generation capability that is down: every call throws *)
Definition modelDown : string -> option Desktop.ModelObject := fun _ => None.

(** a model that files everything as income from groceries *)
Definition modelGroceriesIncome : string -> option Desktop.ModelObject :=
  fun _ => Some {| Desktop.m_amount := 5; Desktop.m_type := income;
                   Desktop.m_category := "Groceries"; Desktop.m_merchant := None;
                   Desktop.m_description := "hello"; Desktop.m_date := "2026-01-15";
                   Desktop.m_confidence := 0.9 |}.

(** what the voice panel passes on for [gasParse] *)
Definition gasConfirmed : Ledger.Fields :=
  default gasExpense
    (Ledger.handleConfirmTransaction Desktop.seededCategories cashAccounts (Some gasParse)).


(** three fillings of the tank in a month, 30 each *)
Definition threeFillings : list Ledger.Fields := [gasExpense; gasExpense; gasExpense].

(** one filling of the tank in the month before *)
Definition oneFilling : list Ledger.Fields := [gasExpense].

(** the rows of a month: a salary of 1000 and three fillings of the tank *)
Definition salary : Ledger.Fields :=
  {| Ledger.f_date := "2026-01-02"; Ledger.f_amount := 1000%Q; Ledger.f_type := Ledger.IncomeTx;
     Ledger.categoryId := "14"; Ledger.accountId := "acc-1"; Ledger.toAccountId := None;
     Ledger.f_merchant := None; Ledger.f_description := "salary";
     Ledger.notes := None; Ledger.f_tags := []; Ledger.receiptPath := None;
     Ledger.recurringId := None; Ledger.isReconciled := false;
     Ledger.f_confidence := None |}.
(** * Properties *)

(** ** The parsers on sample inputs *)

Example backend_lunch :
  let p := Backend.parseTransaction jan15 "lunch 12.50 at cafe" in
  (amount p == 12.5)%Q /\ type p = expense /\ category p = "Dining Out"
  /\ merchant p = Some "cafe" /\ date p = "2026-01-15" /\ confidence p = 0.85%Q.
Proof. vm_compute. repeat split. Qed.

Example backend_groceries :
  let p := Backend.parseTransaction jan15 "-45, groceries, Lidl" in
  (amount p == 45)%Q /\ type p = expense /\ category p = "Groceries"
  /\ merchant p = Some "Lidl" /\ description p = ", groceries, Lidl"
  /\ confidence p = 0.85%Q.
Proof. vm_compute. repeat split. Qed.

Example backend_salary :
  let p := Backend.parseTransaction jan15 "+3000, salary" in
  (amount p == 3000)%Q /\ type p = income /\ category p = "Salary"
  /\ merchant p = None /\ confidence p = 0.85%Q.
Proof. vm_compute. repeat split. Qed.

Example backend_no_amount :
  let p := Backend.parseTransaction jan15 "hello yesterday" in
  (amount p == 0)%Q /\ type p = expense /\ category p = "Other"
  /\ description p = "Hello" /\ date p = "2026-01-14" /\ confidence p = 0.5%Q.
Proof. vm_compute. repeat split. Qed.

Example desktop_lunch :
  let p := Desktop.parseWithRules Desktop.seededCategories jan15 "lunch 12.50 at cafe" in
  (amount p == 12.5)%Q /\ type p = expense /\ category p = "Dining Out"
  /\ merchant p = Some "cafe" /\ description p = "lunch 12.50 at cafe"
  /\ confidence p = 0.8%Q.
Proof. vm_compute. repeat split. Qed.

Example local_query_branches (answer : Desktop.Intent -> string) :
  Desktop.handleLocalQuery answer "how's my budget" = Some (answer Desktop.BudgetStatus)
  /\ Desktop.handleLocalQuery answer "how much do i have"
      = Some (answer Desktop.Balances)
  /\ Desktop.handleLocalQuery answer "top spending by category"
      = Some (answer Desktop.SpendingByCategory)
  /\ Desktop.handleLocalQuery answer "hello" = None.
Proof. repeat split. Qed.

(** ** Amounts are never negative (C2) *)

Lemma parseFloat_nonneg (s : string) : (0 <= Js.parseFloat s)%Q.
Proof.
  unfold Js.parseFloat.
  destruct (Js.span Js.isDigit s) as [ip r].
  unfold Qle; cbn [Qnum Qden].
  rewrite Z.mul_0_l, Z.mul_1_r. apply N2Z.is_nonneg.
Qed.

Lemma toNumber_nonneg (m : string) : (0 <= Amount.toNumber m)%Q.
Proof. apply parseFloat_nonneg. Qed.

Lemma rules_amount_nonneg categories d text :
  (0 <= amount (Desktop.parseWithRules categories d text))%Q.
Proof.
  unfold Desktop.parseWithRules.
  destruct (List.find _ Desktop.categoryKeywords) as [[cat kws]|]; cbn [amount];
    (destruct (Js.search Desktop.amountAt text); [apply toNumber_nonneg | apply Qle_refl]).
Qed.

Lemma validate_amount categories d parsed :
  amount (Desktop.validateAndEnrich categories d parsed) = Qabs (amount parsed).
Proof. reflexivity. Qed.

Lemma backend_amount_abs d text :
  amount (Backend.parseTransaction d text)
  = Qabs (fst (Backend.extractAmount Backend.amountPatterns text)).
Proof.
  unfold Backend.parseTransaction.
  destruct (Backend.extractAmount Backend.amountPatterns text) as [a sgn].
  destruct (Backend.matchCategory _ _); reflexivity.
Qed.

(** C2. Whatever the text, the catalog, the dates and the answer of the
    model, the transaction a parser returns has [amount >= 0]: the backend
    parser returns the absolute value of the numeric match, the desktop
    rule-based parse reads an unsigned number, and the validator replaces
    a model-sourced amount by its absolute value. *)
Theorem amount_never_negative :
  (forall d text,
      amount (Backend.parseTransaction d text)
      = Qabs (fst (Backend.extractAmount Backend.amountPatterns text))
      /\ (0 <= amount (Backend.parseTransaction d text))%Q)
  /\ (forall categories d parsed,
         amount (Desktop.validateAndEnrich categories d parsed) = Qabs (amount parsed))
  /\ (forall categories d generateObject text,
         (0 <= amount (fst (Desktop.parseTransaction categories d generateObject text)))%Q).
Proof.
  split; [|split].
  - intros d text. split; [apply backend_amount_abs|].
    rewrite backend_amount_abs. apply Qabs_nonneg.
  - intros. apply validate_amount.
  - intros categories d generateObject text.
    unfold Desktop.parseTransaction.
    destruct (Qle_bool _ _); cbn [fst]; [apply rules_amount_nonneg|].
    destruct (generateObject _); cbn [fst].
    + rewrite validate_amount. apply Qabs_nonneg.
    + apply rules_amount_nonneg.
Qed.

(** ** The escalation policy (C3, C4) *)

(** C3. A rule-based parse with confidence at least 0.75 is returned as it
    is and no structured-extraction call is made; below 0.75 the pipeline
    issues exactly one structured-extraction call, with the prompt built
    from the text, and none after it, whatever that call answers. *)
Theorem escalation_threshold :
  forall categories d generateObject text,
    ((0.75 <= confidence (Desktop.parseWithRules categories d text))%Q ->
     Desktop.parseTransaction categories d generateObject text
     = (Desktop.parseWithRules categories d text, []))
    /\ ((confidence (Desktop.parseWithRules categories d text) < 0.75)%Q ->
        snd (Desktop.parseTransaction categories d generateObject text)
        = [Desktop.CalledGenerateObject (Desktop.parsePrompt categories d text)]).
Proof.
  intros categories d generateObject text. unfold Desktop.parseTransaction.
  split; intros H.
  - apply Qle_bool_iff in H. unfold Desktop.THRESHOLD. now rewrite H.
  - destruct (Qle_bool Desktop.THRESHOLD _) eqn:E.
    + apply Qle_bool_iff in E. exfalso. exact (Qlt_not_le _ _ H E).
    + now destruct (generateObject _).
Qed.

Lemma escalation_threshold_witness :
  Desktop.parseTransaction Desktop.seededCategories jan15 modelDown "lunch 12"
  = (Desktop.parseWithRules Desktop.seededCategories jan15 "lunch 12", [])
  /\ snd (Desktop.parseTransaction Desktop.seededCategories jan15 modelDown "hello 5")
     = [Desktop.CalledGenerateObject
          (Desktop.parsePrompt Desktop.seededCategories jan15 "hello 5")].
Proof.
  split.
  - apply (escalation_threshold Desktop.seededCategories jan15 modelDown "lunch 12").
    vm_compute. discriminate.
  - apply (escalation_threshold Desktop.seededCategories jan15 modelDown "hello 5").
    vm_compute. reflexivity.
Defined.

(** C4. When the structured-extraction call throws (the provider fails or
    its answer does not fit the schema), [parseTransaction] returns exactly
    the rule-based result computed before the escalation.  The pipeline is
    a total function to [ParsedTransaction]: there is no error outcome. *)
Theorem escalation_failure_falls_back :
  forall categories d generateObject text,
    generateObject (Desktop.parsePrompt categories d text) = None ->
    fst (Desktop.parseTransaction categories d generateObject text)
    = Desktop.parseWithRules categories d text.
Proof.
  intros categories d generateObject text H. unfold Desktop.parseTransaction.
  destruct (Qle_bool _ _); [reflexivity|]. now rewrite H.
Qed.

Lemma escalation_failure_falls_back_witness :
  Desktop.parseTransaction Desktop.seededCategories jan15 modelDown "hello 5"
  = (Desktop.parseWithRules Desktop.seededCategories jan15 "hello 5",
     [Desktop.CalledGenerateObject
        (Desktop.parsePrompt Desktop.seededCategories jan15 "hello 5")]).
Proof.
  apply injective_projections.
  - apply (escalation_failure_falls_back Desktop.seededCategories jan15 modelDown "hello 5").
    reflexivity.
  - vm_compute. reflexivity.
Defined.

(** ** Which category strings a parse can carry (C1) *)

Lemma TxType_eqb_eq a b : TxType_eqb a b = true <-> a = b.
Proof. destruct a, b; cbn; split; congruence. Qed.

Lemma orElse_nonempty a b : Js.isEmpty a = false -> Js.orElse a b = a.
Proof. unfold Js.orElse. now intros ->. Qed.

Lemma orElse_cases a b : (a <> "" /\ Js.orElse a b = a) \/ (a = "" /\ Js.orElse a b = b).
Proof. destruct a; [right | left]; split; easy. Qed.

Lemma controlledCategoryb_spec categories p :
  controlledCategoryb categories p = true <-> controlledCategory categories p.
Proof.
  unfold controlledCategoryb, controlledCategory.
  rewrite orb_true_iff, existsb_exists, String.eqb_eq.
  split; (intros [[c H]|H]; [left; exists c | now right]).
  - destruct H as [Hin H]. apply andb_true_iff in H as [Hn Ht].
    apply String.eqb_eq in Hn. apply TxType_eqb_eq in Ht. easy.
  - destruct H as (Hin & Hn & Ht). split; [easy|].
    apply andb_true_iff. split; [now apply String.eqb_eq | now apply TxType_eqb_eq].
Qed.

Lemma default_names_nonempty c :
  In c Backend.DEFAULT_CATEGORIES -> Js.isEmpty (Backend.name c) = false.
Proof.
  intros H.
  assert (A : forallb (fun c => negb (Js.isEmpty (Backend.name c)))
                      Backend.DEFAULT_CATEGORIES = true) by reflexivity.
  rewrite forallb_forall in A. apply A in H. now destruct (Js.isEmpty _).
Qed.

Lemma matchCategory_sound ty lowerText cat :
  Backend.matchCategory ty lowerText = Some cat ->
  In cat Backend.DEFAULT_CATEGORIES /\ Backend.ctype cat = ty.
Proof.
  unfold Backend.matchCategory. intros H.
  apply find_some in H as [H _]. apply filter_In in H as [H1 H2].
  now apply TxType_eqb_eq in H2.
Qed.

Lemma fallbackCategory_sound ty :
  exists c, Backend.fallbackCategory ty = Some c
            /\ In c Backend.DEFAULT_CATEGORIES /\ Backend.ctype c = ty
            /\ Backend.name c = Desktop.fallbackName ty.
Proof.
  destruct ty; eexists; (split; [vm_compute; reflexivity|]);
    (split; [|split; reflexivity]);
    unfold Backend.DEFAULT_CATEGORIES; repeat first [left; reflexivity | right].
Qed.

(** C1, as the code has it.  The backend parser always returns the name of
    an entry of [DEFAULT_CATEGORIES] whose type is the type of the
    transaction.  The desktop validator keeps the type it is given and
    returns the name of a catalog entry, of either type, or the fallback
    of the type.  The desktop rule-based parse returns a catalog name of
    the right type, the fallback of the type, or one of the names of its
    built-in keyword table, which the catalog need not contain. *)
Theorem category_sources :
  (forall d text,
      exists c, In c Backend.DEFAULT_CATEGORIES
                /\ Backend.name c = category (Backend.parseTransaction d text)
                /\ Backend.ctype c = type (Backend.parseTransaction d text))
  /\ (forall categories d parsed,
         type (Desktop.validateAndEnrich categories d parsed) = type parsed
         /\ ((exists c, In c categories
                        /\ Desktop.name c
                           = category (Desktop.validateAndEnrich categories d parsed))
             \/ category (Desktop.validateAndEnrich categories d parsed)
                = Desktop.fallbackName (type parsed)))
  /\ (forall categories d text,
         controlledCategory categories (Desktop.parseWithRules categories d text)
         \/ In (category (Desktop.parseWithRules categories d text))
               (map fst Desktop.categoryKeywords)).
Proof.
  split; [|split].
  { intros d text.
    unfold Backend.parseTransaction.
    destruct (Backend.extractAmount Backend.amountPatterns text) as [a sgn].
    set (ty := Backend.determineType sgn _).
    destruct (Backend.matchCategory ty _) as [cat|] eqn:E; cbn [category type].
    - apply matchCategory_sound in E as [Hin Hty].
      exists cat. cbn. rewrite orElse_nonempty by now apply default_names_nonempty.
      easy.
    - destruct (fallbackCategory_sound ty) as (c & -> & Hin & Hty & Hn).
      exists c. cbn. rewrite orElse_nonempty by now apply default_names_nonempty.
      easy. }
  { intros categories d parsed. split; [reflexivity|].
    unfold Desktop.validateAndEnrich; cbn [category].
    destruct (List.find _ categories) as [c|] eqn:E.
    - apply find_some in E as [Hin _]. left. now exists c.
    - destruct (List.find _ categories) as [c|] eqn:F in |- *; cbn.
      + apply find_some in F as [Hin _].
        destruct (orElse_cases (Desktop.name c) (Desktop.fallbackName (type parsed)))
          as [[_ ->]|[_ ->]]; [left; now exists c | now right].
      + now right. }
  { intros categories d text.
    unfold Desktop.parseWithRules.
    set (ty := if Desktop.someIncluded Desktop.incomeKeywords _ then income else _).
    destruct (List.find _ Desktop.categoryKeywords) as [[cat kws]|] eqn:E.
    - destruct (List.find _ categories) as [c|] eqn:F; cbn.
      + apply find_some in F as [Hin F]. apply andb_true_iff in F as [_ Ht].
        apply TxType_eqb_eq in Ht.
        destruct (orElse_cases (Desktop.name c) cat) as [[_ Hc]|[_ Hc]].
        * left. left. exists c. cbn. rewrite Hc. easy.
        * right. cbn. rewrite Hc. apply find_some in E as [E _].
          now apply (in_map fst) in E.
      + right. apply find_some in E as [E _]. now apply (in_map fst) in E.
    - destruct (List.find _ categories) as [c|] eqn:F; cbn.
      + apply find_some in F as [Hin F]. apply andb_true_iff in F as [_ Ht].
        apply TxType_eqb_eq in Ht.
        destruct (orElse_cases (Desktop.name c) (Desktop.fallbackName ty)) as [[_ Hc]|[_ Hc]].
        * left. left. exists c. cbn. rewrite Hc. easy.
        * left. right. cbn. now rewrite Hc.
      + left. now right. }
Qed.

(** C1 fails on the desktop pipeline.  With the seeded catalog, "uber 20"
    is returned at once with the category "Transportation", which no
    catalog entry carries; and a model answer of type income and category
    "Groceries" passes the validator although every "Groceries" entry is
    an expense category. *)
Lemma category_not_controlled :
  category (fst (Desktop.parseTransaction Desktop.seededCategories jan15 modelDown "uber 20"))
  = "Transportation"
  /\ ~ controlledCategory Desktop.seededCategories
         (fst (Desktop.parseTransaction Desktop.seededCategories jan15 modelDown "uber 20"))
  /\ ~ controlledCategory Desktop.seededCategories
         (fst (Desktop.parseTransaction Desktop.seededCategories jan15
                 modelGroceriesIncome "hello 5")).
Proof.
  split; [reflexivity|].
  split; rewrite <- controlledCategoryb_spec; vm_compute; discriminate.
Qed.

(** ** Category matching and confidence (C8) *)

Lemma find_firstSuch {A} (f : A -> bool) (l : list A) (x : A) :
  List.find f l = Some x -> firstSuch f l x.
Proof.
  induction l as [|a l IH]; cbn; [discriminate|].
  destruct (f a) eqn:E.
  - intros [= ->]. exists [], l. repeat split; easy.
  - intros H. destruct (IH H) as (before & after & -> & Hx & Hb).
    exists (a :: before), after. repeat split; [easy|].
    intros y [<-|Hy]; auto.
Qed.

Lemma sameName_refl a : Desktop.sameName a a = true.
Proof. apply String.eqb_refl. Qed.

(** C8, as the code has it.  In the backend parser the first category of
    the type, in catalog order, with a keyword contained in the lowered
    text is selected with confidence exactly 0.85, and without any such
    category the fallback of the type is selected with confidence exactly
    0.5.  The desktop rule-based parse does the same over its built-in
    keyword table, but a match has confidence exactly 0.8; the selected
    name is kept up to letter case.  In both, the confidence of the result
    is this value: nothing else adjusts it. *)
Theorem category_match_confidence :
  (forall d text,
      let p := Backend.parseTransaction d text in
      let lowerText := Js.trim (Js.toLowerCase text) in
      (exists cat,
          firstSuch (Backend.hasKeyword lowerText) (Backend.categoriesForType (type p)) cat
          /\ category p = Backend.name cat /\ confidence p = 0.85%Q)
      \/ ((forall c, In c (Backend.categoriesForType (type p)) ->
                     Backend.hasKeyword lowerText c = false)
          /\ category p = Desktop.fallbackName (type p) /\ confidence p = 0.5%Q))
  /\ (forall categories d text,
         let p := Desktop.parseWithRules categories d text in
         let lowerText := Js.toLowerCase text in
         (exists entry,
             firstSuch (Desktop.entryMatches lowerText) Desktop.categoryKeywords entry
             /\ Desktop.sameName (category p) (fst entry) = true /\ confidence p = 0.8%Q)
         \/ ((forall entry, In entry Desktop.categoryKeywords ->
                            Desktop.entryMatches lowerText entry = false)
             /\ Desktop.sameName (category p) (Desktop.fallbackName (type p)) = true
             /\ confidence p = 0.5%Q)).
Proof.
  split.
  { intros d text.
    cbv zeta. unfold Backend.parseTransaction.
    destruct (Backend.extractAmount Backend.amountPatterns text) as [a sgn].
    set (ty := Backend.determineType sgn _).
    destruct (Backend.matchCategory ty _) as [cat|] eqn:E; cbn [category type confidence].
    - left. exists cat. split; [now apply find_firstSuch|].
      apply matchCategory_sound in E as [Hin _]. cbn.
      rewrite orElse_nonempty by now apply default_names_nonempty. easy.
    - right. split; [intros c Hc; exact (find_none _ _ E c Hc)|].
      destruct (fallbackCategory_sound ty) as (c & -> & Hin & _ & Hn). cbn.
      rewrite orElse_nonempty by now apply default_names_nonempty. easy. }
  { intros categories d text.
    cbv zeta. unfold Desktop.parseWithRules.
    set (ty := if Desktop.someIncluded Desktop.incomeKeywords _ then income else _).
    destruct (List.find _ Desktop.categoryKeywords) as [[cat kws]|] eqn:E.
    - left. exists (cat, kws). split; [now apply find_firstSuch|].
      split; [|reflexivity]. cbn [category fst].
      destruct (List.find _ categories) as [c|] eqn:F; cbn; [|apply sameName_refl].
      apply find_some in F as [_ F]. apply andb_true_iff in F as [F _].
      destruct (orElse_cases (Desktop.name c) cat) as [[_ ->]|[_ ->]];
        [easy | apply sameName_refl].
    - right. split; [intros entry He; exact (find_none _ _ E entry He)|].
      split; [|reflexivity]. cbn [category type].
      destruct (List.find _ categories) as [c|] eqn:F; cbn; [|apply sameName_refl].
      apply find_some in F as [_ F]. apply andb_true_iff in F as [F _].
      destruct (orElse_cases (Desktop.name c) (Desktop.fallbackName ty)) as [[_ ->]|[_ ->]];
        [easy | apply sameName_refl]. }
Qed.

(** C8 fails on the desktop parser: "lunch 12" matches the keyword "lunch"
    of "Dining Out" and gets confidence 0.8, not 0.85. *)
Lemma desktop_match_confidence_is_080 :
  category (Desktop.parseWithRules Desktop.seededCategories jan15 "lunch 12") = "Dining Out"
  /\ confidence (Desktop.parseWithRules Desktop.seededCategories jan15 "lunch 12") = 0.8%Q
  /\ ~ (confidence (Desktop.parseWithRules Desktop.seededCategories jan15 "lunch 12")
        == 0.85)%Q.
Proof.
  split; [reflexivity|]. split; [reflexivity|]. vm_compute. discriminate.
Qed.

(** ** Explicit signs (C5) *)

Lemma search_found {A} (m : string -> option A) (s : string) (r : A) :
  m s = Some r -> Js.search m s = Some r.
Proof. intros H. destruct s; cbn; now rewrite H. Qed.

Lemma search_inv {A} (m : string -> option A) (s : string) (r : A) :
  Js.search m s = Some r -> exists pre t, s = pre ++ t /\ m t = Some r.
Proof.
  induction s as [|c s IH]; cbn.
  - destruct (m "") eqn:E; [|discriminate]. intros [= <-]. now exists "", "".
  - destruct (m (String c s)) eqn:E.
    + intros [= <-]. now exists "", (String c s).
    + intros H. destruct (IH H) as (pre & t & -> & Ht).
      now exists (String c pre), t.
Qed.

Lemma search_leftmost {A} (m : string -> option A) (pre t : string) (r : A) :
  m t = Some r ->
  (forall p u, pre ++ t = p ++ u -> (String.length p < String.length pre)%nat ->
               m u = None) ->
  Js.search m (pre ++ t) = Some r.
Proof.
  induction pre as [|a pre IH]; intros Ht Hnone.
  - now apply search_found.
  - change (Js.search m (String a pre ++ t))
      with (match m (String a (pre ++ t)) with
            | Some r => Some r
            | None => Js.search m (pre ++ t)
            end).
    rewrite (Hnone "" (String a (pre ++ t)) eq_refl) by (cbn; lia).
    apply IH; [exact Ht|].
    intros p u E L. apply (Hnone (String a p) u).
    + change (String a (pre ++ t) = String a (p ++ u)). now rewrite E.
    + cbn. lia.
Qed.

Lemma search_somewhere {A} (m : string -> option A) (pre t : string) (r : A) :
  m t = Some r -> exists r', Js.search m (pre ++ t) = Some r'.
Proof.
  intros Ht. induction pre as [|a pre IH].
  - exists r. now apply search_found.
  - change (Js.search m (String a pre ++ t))
      with (match m (String a (pre ++ t)) with
            | Some r => Some r
            | None => Js.search m (pre ++ t)
            end).
    destruct (m (String a (pre ++ t))) as [r1|]; [now exists r1 | exact IH].
Qed.

Lemma signedAmountAt_inv c rest m :
  Backend.signedAmountAt (String c rest) = Some m ->
  (c = "+"%char \/ c = "-"%char)
  /\ Backend.group1 m = String c EmptyString
  /\ exists n, Backend.group2 m = Some n.
Proof.
  cbn. destruct (Ascii.eqb c "+" || Ascii.eqb c "-") eqn:E; [|discriminate].
  destruct (Amount.numberToken _) as [[n r]|]; [|discriminate].
  intros [= <-]. cbn. split; [|split; [reflexivity | now exists n]].
  apply orb_true_iff in E as [E|E]; apply Ascii.eqb_eq in E; auto.
Qed.

Lemma search_signed_skip pre s :
  noSign pre = true ->
  Js.search Backend.signedAmountAt (pre ++ s) = Js.search Backend.signedAmountAt s.
Proof.
  induction pre as [|a pre IH]; [reflexivity|].
  cbn [noSign]. intros H. apply andb_true_iff in H as [Ha Hp].
  apply negb_true_iff in Ha.
  change (Js.search Backend.signedAmountAt (String a pre ++ s))
    with (match Backend.signedAmountAt (String a (pre ++ s)) with
          | Some r => Some r
          | None => Js.search Backend.signedAmountAt (pre ++ s)
          end).
  unfold Backend.signedAmountAt. rewrite Ha. now apply IH.
Qed.

Lemma backend_type_of_amount d text a sgn :
  Backend.extractAmount Backend.amountPatterns text = (a, sgn) ->
  type (Backend.parseTransaction d text)
  = Backend.determineType sgn (Js.trim (Js.toLowerCase text)).
Proof.
  intros H. unfold Backend.parseTransaction. rewrite H.
  now destruct (Backend.matchCategory _ _).
Qed.

Lemma backend_type_of_signed_match d text m :
  Js.search Backend.signedAmountAt text = Some m ->
  (Backend.group1 m = "+" \/ Backend.group1 m = "-")
  /\ type (Backend.parseTransaction d text) = signDirection m.
Proof.
  intros Hs. destruct (search_inv _ _ _ Hs) as (pre & t & _ & Ht).
  destruct t as [|c rest]; [discriminate|].
  destruct (signedAmountAt_inv _ _ _ Ht) as (Hc & Hg1 & n & Hg2).
  unfold signDirection. rewrite Hg1.
  destruct Hc as [-> | ->].
  - split; [now left|].
    rewrite (backend_type_of_amount d _ (Amount.toNumber n) (Some Backend.Plus));
      [reflexivity|].
    cbn [Backend.extractAmount Backend.amountPatterns]. rewrite Hs, Hg1, Hg2.
    reflexivity.
  - split; [now right|].
    rewrite (backend_type_of_amount d _ (Amount.toNumber n) (Some Backend.Minus));
      [reflexivity|].
    cbn [Backend.extractAmount Backend.amountPatterns]. rewrite Hs, Hg1, Hg2.
    reflexivity.
Qed.

Lemma signDirection_of_sign c rest m :
  Backend.signedAmountAt (String c rest) = Some m -> signDirection m = direction c.
Proof.
  intros Hm. destruct (signedAmountAt_inv _ _ _ Hm) as (Hc & Hg1 & _).
  unfold signDirection, direction. rewrite Hg1.
  now destruct Hc as [-> | ->].
Qed.

(** C5, as the code has it.  In the backend parser, whenever a sign stands
    before a number somewhere in the text, with only white space and a
    currency symbol in between, the leftmost such sign decides the type,
    [+] for income and [-] for expense, whatever keywords and whatever
    other [+] and [-] characters the text contains.  The desktop rule-based
    parse does not read signs: its type is income exactly when the text
    contains one of its income keywords. *)
Theorem explicit_sign_decides_type :
  (forall d text m,
      Js.search Backend.signedAmountAt text = Some m ->
      (Backend.group1 m = "+" \/ Backend.group1 m = "-")
      /\ type (Backend.parseTransaction d text) = signDirection m)
  /\ (forall pre s m,
         Backend.signedAmountAt s = Some m ->
         exists m', Js.search Backend.signedAmountAt (pre ++ s) = Some m')
  /\ (forall d pre c rest m,
         Backend.signedAmountAt (String c rest) = Some m ->
         (forall p t, pre ++ String c rest = p ++ t ->
                      (String.length p < String.length pre)%nat ->
                      Backend.signedAmountAt t = None) ->
         type (Backend.parseTransaction d (pre ++ String c rest)) = direction c)
  /\ (forall d pre c rest m,
         noSign pre = true ->
         Backend.signedAmountAt (String c rest) = Some m ->
         type (Backend.parseTransaction d (pre ++ String c rest)) = direction c)
  /\ (forall categories d text,
         type (Desktop.parseWithRules categories d text)
         = if Desktop.someIncluded Desktop.incomeKeywords (Js.toLowerCase text)
           then income else expense).
Proof.
  split; [exact backend_type_of_signed_match|].
  split; [intros pre s m; apply search_somewhere|].
  split; [|split].
  { intros d pre c rest m Hm Hnone.
    pose proof (search_leftmost _ pre _ _ Hm Hnone) as Hs.
    rewrite (proj2 (backend_type_of_signed_match d _ _ Hs)).
    now apply (signDirection_of_sign c rest). }
  { intros d pre c rest m Hpre Hm.
    pose proof (search_found _ _ _ Hm) as Hs.
    rewrite <- (search_signed_skip pre) in Hs by assumption.
    rewrite (proj2 (backend_type_of_signed_match d _ _ Hs)).
    now apply (signDirection_of_sign c rest). }
  { intros categories d text.
    unfold Desktop.parseWithRules.
    destruct (List.find _ Desktop.categoryKeywords) as [[cat kws]|]; cbn [type];
      (destruct (Desktop.someIncluded Desktop.incomeKeywords (Js.toLowerCase text));
       [reflexivity|]);
      now destruct (Desktop.someIncluded Desktop.expenseKeywords (Js.toLowerCase text)). }
Qed.

Lemma explicit_sign_decides_type_witness :
  type (Backend.parseTransaction jan15 "got paid -30") = expense
  /\ type (Backend.parseTransaction jan15 "+30 spent on gas") = income
  /\ type (Backend.parseTransaction jan15 "t-shirt refund -20") = expense.
Proof.
  split; [|split].
  - apply (proj1 (proj2 (proj2 (proj2 explicit_sign_decides_type)))
             jan15 "got paid " "-"%char "30"
             {| Backend.group1 := "-"; Backend.group2 := Some "30" |});
      reflexivity.
  - apply (proj1 (proj2 (proj2 (proj2 explicit_sign_decides_type)))
             jan15 "" "+"%char "30 spent on gas"
             {| Backend.group1 := "+"; Backend.group2 := Some "30" |});
      reflexivity.
  - exact (proj2 (proj1 explicit_sign_decides_type jan15 "t-shirt refund -20"
                    {| Backend.group1 := "-"; Backend.group2 := Some "20" |}
                    eq_refl)).
Defined.

(** C5 fails on the desktop parser: "+30 spent on gas" is an expense there
    (no income keyword), and "-500 salary" is an income (keyword "salary"),
    against the sign in both. *)
Lemma desktop_ignores_sign :
  type (Desktop.parseWithRules Desktop.seededCategories jan15 "+30 spent on gas") = expense
  /\ type (Desktop.parseWithRules Desktop.seededCategories jan15 "+30 spent on gas")
     <> direction "+"
  /\ type (Desktop.parseWithRules Desktop.seededCategories jan15 "-500 salary") = income
  /\ type (Desktop.parseWithRules Desktop.seededCategories jan15 "-500 salary")
     <> direction "-".
Proof. repeat split; try reflexivity; vm_compute; discriminate. Qed.

(** ** The validator on valid input (C9) *)

Lemma isIsoDate_nonempty s : Desktop.isIsoDate s = true -> Js.isEmpty s = false.
Proof. now destruct s. Qed.

(** C9, as the code has it.  When the category of a parse is the name of a
    catalog entry and no catalog name differs from it only in letter case,
    its amount is not negative and its date has the strict shape
    YYYY-MM-DD, the validator leaves category, amount and date (and type,
    merchant and description) as they are. *)
Theorem validator_keeps_valid_parse :
  forall categories d parsed,
    (exists c, In c categories /\ Desktop.name c = category parsed) ->
    (forall c, In c categories ->
               Desktop.sameName (Desktop.name c) (category parsed) = true ->
               Desktop.name c = category parsed) ->
    (0 <= amount parsed)%Q ->
    Desktop.isIsoDate (date parsed) = true ->
    category (Desktop.validateAndEnrich categories d parsed) = category parsed
    /\ amount (Desktop.validateAndEnrich categories d parsed) = amount parsed
    /\ date (Desktop.validateAndEnrich categories d parsed) = date parsed
    /\ type (Desktop.validateAndEnrich categories d parsed) = type parsed
    /\ merchant (Desktop.validateAndEnrich categories d parsed) = merchant parsed
    /\ description (Desktop.validateAndEnrich categories d parsed) = description parsed.
Proof.
  intros categories d parsed [c0 [Hin0 Hn0]] Hcase Hamount Hdate.
  unfold Desktop.validateAndEnrich; cbn [category amount date type merchant description].
  repeat split.
  - destruct (List.find _ categories) as [c|] eqn:E.
    + apply find_some in E as [Hin E]. now apply Hcase.
    + pose proof (find_none _ _ E c0 Hin0) as F. cbn in F.
      rewrite Hn0, sameName_refl in F. discriminate.
  - destruct (amount parsed) as [n den]. unfold Qle in Hamount. cbn in Hamount.
    unfold Qabs. f_equal. apply Z.abs_eq. lia.
  - now rewrite Hdate, (isIsoDate_nonempty _ Hdate).
Qed.

Lemma validator_keeps_valid_parse_witness :
  category (Desktop.validateAndEnrich Desktop.seededCategories jan15 gasParse) = "Gas"
  /\ amount (Desktop.validateAndEnrich Desktop.seededCategories jan15 gasParse) = 5%Q
  /\ date (Desktop.validateAndEnrich Desktop.seededCategories jan15 gasParse) = "2026-01-15".
Proof.
  destruct (validator_keeps_valid_parse Desktop.seededCategories jan15 gasParse)
    as (H1 & H2 & H3 & _).
  - exists (Desktop.mkCategory "10" "Gas" expense "transportation").
    split; [|reflexivity]. unfold Desktop.seededCategories.
    repeat first [left; reflexivity | right].
  - intros c Hc. unfold Desktop.seededCategories in Hc. cbn in Hc.
    repeat (destruct Hc as [<-|Hc]; [vm_compute; intros H; first [reflexivity | discriminate H]|]).
    destruct Hc.
  - vm_compute. discriminate.
  - reflexivity.
  - now rewrite H1, H2, H3.
Defined.

(** C9 fails when two catalog names differ only in letter case.  After the
    user has added a category "gas" beside the seeded "Gas", the catalog
    lists "Gas" first (the rows come ordered by group and name, byte by
    byte), and a parse filed under "gas", with a valid amount and date, comes
    back filed under "Gas". *)
Lemma validator_changes_valid_category :
  catalogOrdered catalogWithLowerGas = true
  /\ (exists c, In c catalogWithLowerGas /\ Desktop.name c = category lowerGasParse)
  /\ (0 <= amount lowerGasParse)%Q
  /\ Desktop.isIsoDate (date lowerGasParse) = true
  /\ category (Desktop.validateAndEnrich catalogWithLowerGas jan15 lowerGasParse) = "Gas"
  /\ category (Desktop.validateAndEnrich catalogWithLowerGas jan15 lowerGasParse)
     <> category lowerGasParse.
Proof.
  split; [vm_compute; reflexivity|].
  split; [exists (Desktop.mkCategory "23" "gas" expense "transportation");
          split; [apply in_or_app; right; left|]; reflexivity|].
  split; [vm_compute; discriminate|].
  split; [reflexivity|]. split; [vm_compute; reflexivity|]. vm_compute. discriminate.
Qed.

(** ** The categories offered to the model (C10) *)

Lemma In_firstn_iff {A} (k : nat) (l : list A) (x : A) :
  In x (firstn k l) <-> exists i, i < k /\ nth_error l i = Some x.
Proof.
  revert l. induction k as [|k IH]; intros l; cbn.
  - split; [easy | intros (i & Hi & _); lia].
  - destruct l as [|a l]; cbn.
    + split; [easy | intros (i & _ & Hi); now destruct i].
    + rewrite IH. split.
      * intros [<-|(i & Hi & Hn)]; [exists 0 | exists (S i)]; split; (lia || easy).
      * intros (i & Hi & Hn). destruct i as [|i]; cbn in Hn.
        -- left. congruence.
        -- right. exists i. split; [lia | easy].
Qed.

Lemma validate_accepts_catalog_name categories d parsed c :
  In c categories ->
  category parsed = Desktop.name c ->
  exists c', In c' categories
             /\ category (Desktop.validateAndEnrich categories d parsed) = Desktop.name c'
             /\ Desktop.sameName (Desktop.name c') (Desktop.name c) = true.
Proof.
  intros Hin Hn. unfold Desktop.validateAndEnrich; cbn [category].
  destruct (List.find _ categories) as [c'|] eqn:E.
  - apply find_some in E as [Hin' E]. exists c'. rewrite <- Hn. easy.
  - pose proof (find_none _ _ E c Hin) as F. cbn in F.
    rewrite Hn, sameName_refl in F. discriminate.
Qed.

(** C10. A structured-extraction call, when there is one, carries the
    prompt of [parsePrompt], whose list of available categories is made of
    the names of the first 15 catalog entries and of no other entry: a
    name is offered exactly when it is the name of one of the first 15
    entries.  The validator, on the other hand, accepts the name of every
    catalog entry, whatever its position. *)
Theorem model_is_offered_first_15_categories :
  forall categories d generateObject text,
    (snd (Desktop.parseTransaction categories d generateObject text) = []
     \/ snd (Desktop.parseTransaction categories d generateObject text)
        = [Desktop.CalledGenerateObject (Desktop.parsePrompt categories d text)])
    /\ Desktop.parsePrompt categories d text
       = "Parse this financial transaction: " ++ Desktop.dquote ++ text ++ Desktop.dquote
         ++ Desktop.nl ++ "Available categories: "
         ++ Js.join ", " (Desktop.offeredCategories categories)
         ++ Desktop.nl ++ "Today's date: " ++ today d
         ++ Desktop.nl ++ "Return structured data."
    /\ length (Desktop.offeredCategories categories) <= 15
    /\ (forall n, In n (Desktop.offeredCategories categories)
                  <-> exists i, i < 15
                                /\ nth_error (map Desktop.name categories) i = Some n)
    /\ (forall parsed c,
           In c categories ->
           category parsed = Desktop.name c ->
           exists c', In c' categories
                      /\ category (Desktop.validateAndEnrich categories d parsed)
                         = Desktop.name c'
                      /\ Desktop.sameName (Desktop.name c') (Desktop.name c) = true).
Proof.
  intros categories d generateObject text. repeat split.
  - unfold Desktop.parseTransaction.
    destruct (Qle_bool _ _); [now left|]. right. now destruct (generateObject _).
  - unfold Desktop.offeredCategories. apply firstn_le_length.
  - now apply In_firstn_iff.
  - now apply In_firstn_iff.
  - intros parsed c. apply validate_accepts_catalog_name.
Qed.

(** The seeded catalog is listed in the order of [getCategories]. *)
Example seeded_catalog_is_ordered : catalogOrdered Desktop.seededCategories = true.
Proof. vm_compute. reflexivity. Qed.

(** With the seeded catalog of 22 entries, "Gas" (the 20th) is not among
    the offered names, and the validator accepts it. *)
Example seeded_catalog_offers_15_of_22 :
  length Desktop.seededCategories = 22
  /\ length (Desktop.offeredCategories Desktop.seededCategories) = 15
  /\ ~ In "Gas" (Desktop.offeredCategories Desktop.seededCategories)
  /\ category (Desktop.validateAndEnrich Desktop.seededCategories jan15 gasParse) = "Gas".
Proof.
  repeat split. cbn. intros H.
  repeat (destruct H as [H|H]; [discriminate H|]). exact H.
Qed.

(** ** The response cache (C6) *)

Lemma processQuery_hit env (responseCache : gmap string Desktop.CachedResponse)
    query cached :
  responseCache !! cacheKey query = Some cached ->
  (Desktop.nowAtLookup env - Desktop.timestamp cached < Desktop.CACHE_TTL)%Z ->
  Desktop.processQuery env responseCache query
  = {| Desktop.answer := Desktop.response cached;
       Desktop.cacheAfter := responseCache;
       Desktop.events := [] |}.
Proof.
  intros Hc Ht. unfold Desktop.processQuery. unfold cacheKey in Hc. rewrite Hc.
  apply Z.ltb_lt in Ht. now rewrite Ht.
Qed.

(** A call that does anything at all has missed the cache. *)
Lemma processQuery_miss env (responseCache : gmap string Desktop.CachedResponse) query :
  Desktop.events (Desktop.processQuery env responseCache query) <> [] ->
  Desktop.processQuery env responseCache query
  = Desktop.answerOnMiss env responseCache query (Js.toLowerCase query) (cacheKey query).
Proof.
  unfold Desktop.processQuery, cacheKey.
  destruct (responseCache !! _) as [cached|]; [|reflexivity].
  destruct (_ <? _)%Z; [|reflexivity]. cbn. congruence.
Qed.

Lemma processQuery_stores env (responseCache : gmap string Desktop.CachedResponse) query :
  Desktop.events (Desktop.processQuery env responseCache query) <> [] ->
  answersQuery env query = true ->
  Desktop.cacheAfter (Desktop.processQuery env responseCache query) !! cacheKey query
  = Some {| Desktop.response := Desktop.answer (Desktop.processQuery env responseCache query);
            Desktop.timestamp := Desktop.nowAtStore env |}
  /\ length (List.filter isLocalRun (Desktop.events (Desktop.processQuery env responseCache query)))
     = 1
  /\ length (List.filter isModelCall (Desktop.events (Desktop.processQuery env responseCache query)))
     <= 1.
Proof.
  intros Hmiss Hans. rewrite (processQuery_miss _ _ _ Hmiss).
  unfold Desktop.answerOnMiss. unfold answersQuery in Hans.
  destruct (Desktop.truthyString _) as [text|]; cbn.
  - rewrite lookup_insert_eq. repeat split; lia.
  - destruct (Desktop.generateText env _) as [text|]; [|discriminate]. cbn.
    rewrite lookup_insert_eq. repeat split; lia.
Qed.

(** C6. The time-to-live is 300000 ms.  A call whose key,
    [trim(lowercase(query))], has a stored response less than 300000 ms
    old returns the stored text, leaves the cache as it is and does
    nothing else: no local computation, no call to the model.  Hence of two
    calls with the same key, the second made less than 300000 ms after the
    first one stored its answer, only the first computes: the local
    computation runs once, the model is called at most once, and the
    second call returns the answer of the first. *)
Theorem cache_hit_skips_computation :
  Desktop.CACHE_TTL = 300000%Z
  /\ (forall env (responseCache : gmap string Desktop.CachedResponse) query cached,
         responseCache !! cacheKey query = Some cached ->
         (Desktop.nowAtLookup env - Desktop.timestamp cached < Desktop.CACHE_TTL)%Z ->
         Desktop.processQuery env responseCache query
         = {| Desktop.answer := Desktop.response cached;
              Desktop.cacheAfter := responseCache;
              Desktop.events := [] |})
  /\ (forall env1 env2 (responseCache : gmap string Desktop.CachedResponse) query1 query2,
         cacheKey query1 = cacheKey query2 ->
         Desktop.events (Desktop.processQuery env1 responseCache query1) <> [] ->
         answersQuery env1 query1 = true ->
         (Desktop.nowAtLookup env2 - Desktop.nowAtStore env1 < Desktop.CACHE_TTL)%Z ->
         let first := Desktop.processQuery env1 responseCache query1 in
         let second := Desktop.processQuery env2 (Desktop.cacheAfter first) query2 in
         second = {| Desktop.answer := Desktop.answer first;
                     Desktop.cacheAfter := Desktop.cacheAfter first;
                     Desktop.events := [] |}
         /\ length (List.filter isLocalRun (Desktop.events first ++ Desktop.events second)) = 1
         /\ length (List.filter isModelCall (Desktop.events first ++ Desktop.events second)) <= 1).
Proof.
  split; [reflexivity|]. split; [exact processQuery_hit|].
  intros env1 env2 responseCache query1 query2 Hkey Hmiss Hans Ht first second.
  destruct (processQuery_stores _ _ _ Hmiss Hans) as (Hst & Hl & Hm).
  fold first in Hst, Hl, Hm. rewrite Hkey in Hst.
  assert (E : second = {| Desktop.answer := Desktop.answer first;
                          Desktop.cacheAfter := Desktop.cacheAfter first;
                          Desktop.events := [] |}).
  { unfold second. now rewrite (processQuery_hit env2 _ query2 _ Hst). }
  split; [exact E|]. rewrite E. cbn [Desktop.events]. now rewrite app_nil_r.
Qed.

Lemma cache_hit_skips_computation_witness :
  Desktop.processQuery (queryEnv 200000 None)
    (Desktop.cacheAfter (Desktop.processQuery (queryEnv 0 (Some "All good.")) ∅ "Hello "))
    " hello"
  = {| Desktop.answer := "All good.";
       Desktop.cacheAfter :=
         Desktop.cacheAfter (Desktop.processQuery (queryEnv 0 (Some "All good.")) ∅ "Hello ");
       Desktop.events := [] |}.
Proof.
  destruct cache_hit_skips_computation as (_ & _ & H).
  destruct (H (queryEnv 0 (Some "All good.")) (queryEnv 200000 None) ∅ "Hello " " hello")
    as (E & _).
  - reflexivity.
  - unfold Desktop.processQuery. rewrite lookup_empty. cbn. discriminate.
  - reflexivity.
  - reflexivity.
  - rewrite E. f_equal.
Defined.

(** ** What [processQuery] returns (C7) *)

Lemma truthyString_nonempty o text :
  Desktop.truthyString o = Some text -> text <> "".
Proof.
  destruct o as [m|]; cbn; [|discriminate].
  destruct m; cbn; [discriminate|]. now intros [= <-].
Qed.

Lemma insert_keeps_nonempty (responseCache : gmap string Desktop.CachedResponse)
    key text t :
  (forall k c, responseCache !! k = Some c -> Desktop.response c <> "") ->
  text <> "" ->
  forall k c,
    <[key := {| Desktop.response := text; Desktop.timestamp := t |}]> responseCache !! k
    = Some c ->
    Desktop.response c <> "".
Proof.
  intros Hall Htext k c. destruct (decide (key = k)) as [->|Hne].
  - rewrite lookup_insert_eq. now intros [= <-].
  - rewrite lookup_insert_ne by assumption. apply Hall.
Qed.

(** C7, as the code has it.  [processQuery] is a total function to a text:
    there is no error outcome.  When every stored response is non-empty
    and the text of the model, if the call returns one, is not blank, the
    answer is a non-empty string and every stored response stays
    non-empty.  When the narrative-generation call is made and throws, the
    answer is the fixed help message, which is not empty, and the cache is
    left as it was: the help message is not stored. *)
Theorem query_answer_nonempty :
  (forall env (responseCache : gmap string Desktop.CachedResponse) query,
      (forall k c, responseCache !! k = Some c -> Desktop.response c <> "") ->
      (forall text,
          Desktop.generateText env (Desktop.queryPrompt (Desktop.financialContext env) query)
          = Some text ->
          Js.trim text <> "") ->
      Desktop.answer (Desktop.processQuery env responseCache query) <> ""
      /\ forall k c,
           Desktop.cacheAfter (Desktop.processQuery env responseCache query) !! k = Some c ->
           Desktop.response c <> "")
  /\ (forall env (responseCache : gmap string Desktop.CachedResponse) query,
         Desktop.generateText env (Desktop.queryPrompt (Desktop.financialContext env) query)
         = None ->
         In (Desktop.CalledGenerateText
               (Desktop.queryPrompt (Desktop.financialContext env) query))
            (Desktop.events (Desktop.processQuery env responseCache query)) ->
         Desktop.answer (Desktop.processQuery env responseCache query) = Desktop.helpMessage
         /\ Desktop.cacheAfter (Desktop.processQuery env responseCache query) = responseCache)
  /\ Desktop.helpMessage <> "".
Proof.
  split; [|split; [|discriminate]].
  { intros env responseCache query Hall Hgen.
    assert (Hmiss : forall lowerQuery key,
      let r := Desktop.answerOnMiss env responseCache query lowerQuery key in
      Desktop.answer r <> ""
      /\ forall k c, Desktop.cacheAfter r !! k = Some c -> Desktop.response c <> "").
    { intros lowerQuery key. cbv zeta. unfold Desktop.answerOnMiss.
      destruct (Desktop.truthyString _) as [text|] eqn:T; cbn.
      - apply truthyString_nonempty in T. split; [easy|].
        now apply insert_keeps_nonempty.
      - destruct (Desktop.generateText env _) as [text|] eqn:G; cbn.
        + specialize (Hgen text eq_refl). split; [easy|].
          now apply insert_keeps_nonempty.
        + split; [discriminate | exact Hall]. }
    unfold Desktop.processQuery.
    destruct (responseCache !! _) as [cached|] eqn:L; [|apply Hmiss].
    destruct (_ <? _)%Z; [|apply Hmiss].
    cbn. split; [exact (Hall _ _ L) | exact Hall]. }
  { intros env responseCache query.
    intros Hnone. unfold Desktop.processQuery, Desktop.answerOnMiss. rewrite Hnone.
    destruct (responseCache !! _) as [cached|].
    - destruct (_ <? _)%Z; cbn; [easy|].
      destruct (Desktop.truthyString _); cbn; [|easy].
      intros [H|[]]. discriminate H.
    - destruct (Desktop.truthyString _); cbn; [|easy].
      intros [H|[]]. discriminate H. }
Qed.

Lemma query_answer_nonempty_witness :
  Desktop.answer (Desktop.processQuery (queryEnv 0 (Some " All good. ")) ∅ "hello") <> ""
  /\ Desktop.answer (Desktop.processQuery (queryEnv 0 None) ∅ "hello") = Desktop.helpMessage
  /\ Desktop.cacheAfter (Desktop.processQuery (queryEnv 0 None) ∅ "hello") = ∅.
Proof.
  destruct query_answer_nonempty as (H1 & H2 & _). split.
  - apply (H1 (queryEnv 0 (Some " All good. ")) ∅ "hello").
    + intros k c. rewrite lookup_empty. discriminate.
    + intros text [= <-]. vm_compute. discriminate.
  - apply (H2 (queryEnv 0 None) ∅ "hello"); [reflexivity|].
    unfold Desktop.processQuery. rewrite lookup_empty. cbn. right. left. reflexivity.
Defined.

(** C7 fails when the model returns a blank text: for the query "hello",
    which no local branch answers, and the model text of two spaces, the
    answer is the empty string, and it is stored in the cache. *)
Lemma blank_model_text_gives_empty_answer :
  Desktop.answer (Desktop.processQuery (queryEnv 0 (Some "  ")) ∅ "hello") = ""
  /\ Desktop.cacheAfter (Desktop.processQuery (queryEnv 0 (Some "  ")) ∅ "hello") !! "hello"
     = Some {| Desktop.response := ""; Desktop.timestamp := 1 |}.
Proof.
  unfold Desktop.processQuery. rewrite lookup_empty. cbn. split; [reflexivity|].
  apply lookup_insert_eq.
Qed.

(** * Further properties of the code *)

(** ** Strings: trimming and letter case *)

Lemma append_cons x (a b : string) : String x a ++ b = String x (a ++ b).
Proof. reflexivity. Qed.

Lemma append_nil (b : string) : "" ++ b = b.
Proof. reflexivity. Qed.

Lemma append_assoc (a b c : string) : (a ++ b) ++ c = a ++ b ++ c.
Proof.
  induction a as [|x a IH]; [reflexivity|]. now rewrite !append_cons, IH.
Qed.

Lemma rev_onto_app s acc : Js.rev_onto s acc = Js.rev_onto s "" ++ acc.
Proof.
  revert acc. induction s as [|c r IH]; intros acc; cbn; [reflexivity|].
  rewrite (IH (String c acc)), (IH (String c "")).
  now rewrite append_assoc, append_cons, append_nil.
Qed.

Lemma reverse_cons c r : Js.reverse (String c r) = Js.reverse r ++ String c "".
Proof. unfold Js.reverse. cbn. apply rev_onto_app. Qed.

Lemma reverse_snoc a c : Js.reverse (a ++ String c "") = String c (Js.reverse a).
Proof.
  induction a as [|x a IH]; [reflexivity|].
  rewrite ?append_cons, ?append_nil. now rewrite !reverse_cons, IH.
Qed.

Lemma reverse_involutive s : Js.reverse (Js.reverse s) = s.
Proof.
  induction s as [|c r IH]; [reflexivity|].
  now rewrite reverse_cons, reverse_snoc, IH.
Qed.

Lemma reverse_isEmpty s : Js.isEmpty (Js.reverse s) = Js.isEmpty s.
Proof.
  destruct s as [|c r]; [reflexivity|].
  rewrite reverse_cons. now destruct (Js.reverse r).
Qed.

Lemma dropWhile_cons p c r :
  Js.dropWhile p (String c r) = if p c then Js.dropWhile p r else String c r.
Proof.
  unfold Js.dropWhile. cbn. destruct (p c); [|reflexivity].
  now destruct (Js.span p r).
Qed.

Lemma dropWhile_snoc p a c :
  Js.dropWhile p (a ++ String c "")
  = if Js.isEmpty (Js.dropWhile p a)
    then (if p c then "" else String c "")
    else Js.dropWhile p a ++ String c "".
Proof.
  induction a as [|x a IH]; rewrite ?append_cons, ?append_nil.
  - rewrite dropWhile_cons. cbn. now destruct (p c).
  - rewrite !dropWhile_cons. now destruct (p x).
Qed.

Lemma dropWhile_idem p s : Js.dropWhile p (Js.dropWhile p s) = Js.dropWhile p s.
Proof.
  induction s as [|c r IH]; [reflexivity|].
  rewrite dropWhile_cons. destruct (p c) eqn:E; [exact IH|].
  now rewrite dropWhile_cons, E.
Qed.

(** [trimEnd] read from the left *)
Lemma trimEnd_cons c r :
  Js.trimEnd (String c r)
  = if Js.isSpace c && Js.isEmpty (Js.trimEnd r) then "" else String c (Js.trimEnd r).
Proof.
  unfold Js.trimEnd, Js.trimStart. rewrite reverse_cons, dropWhile_snoc, reverse_isEmpty.
  destruct (Js.dropWhile Js.isSpace (Js.reverse r)) as [|y t] eqn:E.
  - cbn. now destruct (Js.isSpace c).
  - cbn [Js.isEmpty]. rewrite andb_false_r. apply reverse_snoc.
Qed.

Lemma trimStart_trimEnd s : Js.trimStart (Js.trimEnd s) = Js.trimEnd (Js.trimStart s).
Proof.
  induction s as [|c r IH]; [reflexivity|].
  unfold Js.trimStart at 2. rewrite dropWhile_cons. fold (Js.trimStart r).
  rewrite trimEnd_cons. destruct (Js.isSpace c) eqn:E; cbn [andb].
  - rewrite <- IH. destruct (Js.trimEnd r) eqn:F; [reflexivity|].
    cbn [Js.isEmpty]. unfold Js.trimStart. now rewrite dropWhile_cons, E.
  - unfold Js.trimStart. rewrite dropWhile_cons, E. now rewrite trimEnd_cons, E.
Qed.

Lemma trimEnd_idem s : Js.trimEnd (Js.trimEnd s) = Js.trimEnd s.
Proof.
  unfold Js.trimEnd, Js.trimStart. now rewrite reverse_involutive, dropWhile_idem.
Qed.

Lemma trim_idem s : Js.trim (Js.trim s) = Js.trim s.
Proof.
  unfold Js.trim. rewrite trimStart_trimEnd. unfold Js.trimStart at 1 2.
  now rewrite dropWhile_idem, trimEnd_idem.
Qed.

Lemma lowerChar_idem c : Js.lowerChar (Js.lowerChar c) = Js.lowerChar c.
Proof. destruct c as [[] [] [] [] [] [] [] []]; reflexivity. Qed.

Lemma isSpace_lowerChar c : Js.isSpace (Js.lowerChar c) = Js.isSpace c.
Proof. destruct c as [[] [] [] [] [] [] [] []]; reflexivity. Qed.

Lemma toLowerCase_idem s : Js.toLowerCase (Js.toLowerCase s) = Js.toLowerCase s.
Proof. induction s as [|c r IH]; cbn; [reflexivity|]. now rewrite lowerChar_idem, IH. Qed.

Lemma toLowerCase_app a b :
  Js.toLowerCase (a ++ b) = Js.toLowerCase a ++ Js.toLowerCase b.
Proof.
  induction a as [|c r IH]; [reflexivity|].
  rewrite append_cons. cbn [Js.toLowerCase]. now rewrite append_cons, IH.
Qed.

Lemma toLowerCase_reverse s : Js.toLowerCase (Js.reverse s) = Js.reverse (Js.toLowerCase s).
Proof.
  induction s as [|c r IH]; [reflexivity|].
  cbn [Js.toLowerCase]. now rewrite !reverse_cons, toLowerCase_app, IH.
Qed.

Lemma toLowerCase_trimStart s :
  Js.toLowerCase (Js.trimStart s) = Js.trimStart (Js.toLowerCase s).
Proof.
  unfold Js.trimStart. induction s as [|c r IH]; [reflexivity|].
  cbn [Js.toLowerCase]. rewrite !dropWhile_cons, isSpace_lowerChar.
  now destruct (Js.isSpace c).
Qed.

Lemma toLowerCase_trim s : Js.toLowerCase (Js.trim s) = Js.trim (Js.toLowerCase s).
Proof.
  unfold Js.trim, Js.trimEnd.
  now rewrite toLowerCase_reverse, toLowerCase_trimStart, toLowerCase_reverse,
    toLowerCase_trimStart.
Qed.

Lemma trimStart_spaces pre s :
  allSpaces pre = true -> Js.trimStart (pre ++ s) = Js.trimStart s.
Proof.
  unfold Js.trimStart. induction pre as [|c r IH]; [reflexivity|].
  cbn [allSpaces]. rewrite ?append_cons. intros H. apply andb_true_iff in H as [Hc Hr].
  rewrite dropWhile_cons, Hc. now apply IH.
Qed.

Lemma trimEnd_spaces post : allSpaces post = true -> Js.trimEnd post = "".
Proof.
  induction post as [|c r IH]; [reflexivity|].
  cbn [allSpaces]. intros H. apply andb_true_iff in H as [Hc Hr].
  now rewrite trimEnd_cons, Hc, (IH Hr).
Qed.

Lemma trimEnd_app_spaces s post :
  allSpaces post = true -> Js.trimEnd (s ++ post) = Js.trimEnd s.
Proof.
  intros H. induction s as [|c r IH]; rewrite ?append_cons, ?append_nil.
  - now apply trimEnd_spaces.
  - now rewrite !trimEnd_cons, IH.
Qed.

Lemma trim_spaces pre s post :
  allSpaces pre = true -> allSpaces post = true ->
  Js.trim (pre ++ s ++ post) = Js.trim s.
Proof.
  intros Hpre Hpost. unfold Js.trim.
  rewrite <- !trimStart_trimEnd, <- append_assoc, trimEnd_app_spaces by assumption.
  rewrite !trimStart_trimEnd. now rewrite trimStart_spaces.
Qed.

(** ** The cache key of a query *)

(** X1. The cache key, [query.toLowerCase().trim()], is a normal form:
    normalising twice changes nothing, and two queries that differ only
    in ASCII letter case or in white space around them have the same key,
    so they share one cache entry. *)
Theorem cache_key_is_normal_form :
  forall query,
    cacheKey (cacheKey query) = cacheKey query
    /\ (forall other, Js.toLowerCase other = Js.toLowerCase query ->
                      cacheKey other = cacheKey query)
    /\ (forall pre post, allSpaces pre = true -> allSpaces post = true ->
                         cacheKey (pre ++ query ++ post) = cacheKey query).
Proof.
  intros query. unfold cacheKey. repeat split.
  - now rewrite toLowerCase_trim, toLowerCase_idem, trim_idem.
  - now intros other ->.
  - intros pre post Hpre Hpost.
    rewrite !toLowerCase_app. apply trim_spaces.
    + clear - Hpre. induction pre as [|c r IH]; [reflexivity|].
      cbn in *. apply andb_true_iff in Hpre as [Hc Hr].
      now rewrite isSpace_lowerChar, Hc, IH.
    + clear - Hpost. induction post as [|c r IH]; [reflexivity|].
      cbn in *. apply andb_true_iff in Hpost as [Hc Hr].
      now rewrite isSpace_lowerChar, Hc, IH.
Qed.

Lemma cache_key_is_normal_form_witness :
  cacheKey "  How Much did I SPEND? " = "how much did i spend?"
  /\ cacheKey (" " ++ "Balance" ++ "  ") = cacheKey "Balance"
  /\ cacheKey "BALANCE" = cacheKey "Balance".
Proof.
  destruct (cache_key_is_normal_form "Balance") as (_ & H2 & H3).
  split; [reflexivity|]. split.
  - apply H3; reflexivity.
  - apply H2. reflexivity.
Defined.

(** ** The response cache beyond a hit *)

(** X2. A call of [processQuery] reads and writes the cache under its own
    key only: every other entry is left as it was, and no entry is ever
    removed, expired or not. *)
Theorem processQuery_touches_only_its_key :
  forall env (responseCache : gmap string Desktop.CachedResponse) query,
    (forall k, k <> cacheKey query ->
               Desktop.cacheAfter (Desktop.processQuery env responseCache query) !! k
               = responseCache !! k)
    /\ (forall k, is_Some (responseCache !! k) ->
                  is_Some (Desktop.cacheAfter (Desktop.processQuery env responseCache query)
                           !! k)).
Proof.
  intros env responseCache query.
  assert (Hmiss : forall k,
    (k <> cacheKey query ->
     Desktop.cacheAfter
       (Desktop.answerOnMiss env responseCache query (Js.toLowerCase query) (cacheKey query))
     !! k = responseCache !! k)
    /\ (is_Some (responseCache !! k) ->
        is_Some (Desktop.cacheAfter
                   (Desktop.answerOnMiss env responseCache query (Js.toLowerCase query)
                      (cacheKey query)) !! k))).
  { intros k. unfold Desktop.answerOnMiss.
    destruct (Desktop.truthyString _) as [text|]; cbn.
    - split; [intros Hk; now rewrite lookup_insert_ne|].
      intros Hs. destruct (decide (cacheKey query = k)) as [->|Hk].
      + rewrite lookup_insert_eq. eauto.
      + now rewrite lookup_insert_ne.
    - destruct (Desktop.generateText env _) as [text|]; cbn; [|easy].
      split; [intros Hk; now rewrite lookup_insert_ne|].
      intros Hs. destruct (decide (cacheKey query = k)) as [->|Hk].
      + rewrite lookup_insert_eq. eauto.
      + now rewrite lookup_insert_ne. }
  unfold Desktop.processQuery. fold (cacheKey query).
  destruct (responseCache !! cacheKey query) as [cached|].
  - destruct (_ <? _)%Z; cbn; [easy|].
    split; intros k; apply Hmiss.
  - split; intros k; apply Hmiss.
Qed.

Lemma processQuery_touches_only_its_key_witness :
  Desktop.cacheAfter
    (Desktop.processQuery (queryEnv 0 (Some "Fine."))
       {["balance" := {| Desktop.response := "Total balance: 0.00";
                         Desktop.timestamp := (-400000)%Z |}]} "hello")
  !! "balance"
  = Some {| Desktop.response := "Total balance: 0.00"; Desktop.timestamp := (-400000)%Z |}.
Proof.
  destruct (processQuery_touches_only_its_key (queryEnv 0 (Some "Fine."))
              {["balance" := {| Desktop.response := "Total balance: 0.00";
                                Desktop.timestamp := (-400000)%Z |}]} "hello") as [H _].
  rewrite H; [apply lookup_singleton_eq | vm_compute; discriminate].
Defined.

(** X3. Entries expire lazily.  A stored response that is 300000 ms old or
    older is not served: the call computes again.  When the computation
    yields an answer, the entry is overwritten with the answer and the
    time of the write; when it ends in the help message, the stale entry
    stays in the cache untouched. *)
Theorem stale_entry_is_recomputed :
  forall env (responseCache : gmap string Desktop.CachedResponse) query cached,
    responseCache !! cacheKey query = Some cached ->
    (Desktop.CACHE_TTL <= Desktop.nowAtLookup env - Desktop.timestamp cached)%Z ->
    let r := Desktop.processQuery env responseCache query in
    hd_error (Desktop.events r) = Some (Desktop.RanLocalQuery (Js.toLowerCase query))
    /\ (answersQuery env query = true ->
        Desktop.cacheAfter r !! cacheKey query
        = Some {| Desktop.response := Desktop.answer r;
                  Desktop.timestamp := Desktop.nowAtStore env |})
    /\ (answersQuery env query = false ->
        Desktop.answer r = Desktop.helpMessage /\ Desktop.cacheAfter r = responseCache).
Proof.
  intros env responseCache query cached Hc Ht. cbv zeta.
  unfold Desktop.processQuery. fold (cacheKey query). rewrite Hc.
  apply Z.ltb_ge in Ht. rewrite Ht.
  unfold Desktop.answerOnMiss, answersQuery.
  destruct (Desktop.truthyString _) as [text|]; cbn.
  - rewrite lookup_insert_eq. repeat split; discriminate.
  - destruct (Desktop.generateText env _) as [text|]; cbn.
    + rewrite lookup_insert_eq. repeat split; discriminate.
    + repeat split; discriminate.
Qed.

Lemma stale_entry_is_recomputed_witness :
  hd_error
    (Desktop.events
       (Desktop.processQuery (queryEnv 300000 (Some "Fine."))
          {["hello" := {| Desktop.response := "Old."; Desktop.timestamp := 0 |}]} "Hello"))
  = Some (Desktop.RanLocalQuery "hello").
Proof.
  refine (proj1 (stale_entry_is_recomputed (queryEnv 300000 (Some "Fine."))
                   {["hello" := {| Desktop.response := "Old."; Desktop.timestamp := 0 |}]}
                   "Hello" {| Desktop.response := "Old."; Desktop.timestamp := 0 |} _ _)).
  - apply lookup_singleton_eq.
  - vm_compute. discriminate.
Defined.

(** ** Local answers *)

Ltac split_includes :=
  repeat match goal with
         | |- context [Js.includes ?w ?q] =>
             destruct (Js.includes w q); cbn;
             try solve [split; intros; congruence | eauto]
         end.

Lemma handleLocalQuery_None answer query :
  Desktop.handleLocalQuery answer query = None <-> hasTrigger query = false.
Proof.
  unfold Desktop.handleLocalQuery, hasTrigger, triggerWords. cbn [existsb].
  split_includes.
Qed.

Lemma handleLocalQuery_Some answer query :
  hasTrigger query = true ->
  exists i, Desktop.handleLocalQuery answer query = Some (answer i).
Proof.
  unfold Desktop.handleLocalQuery, hasTrigger, triggerWords. cbn [existsb].
  split_includes. discriminate.
Qed.

(** X4. [handleLocalQuery] answers a query exactly when the query contains
    one of its thirteen trigger words.  For such a query, when the ledger
    answers are non-empty texts, [processQuery] never calls the model: the
    answer comes from the cache or from the local computation. *)
Theorem local_answer_needs_no_model :
  (forall answer query,
      Desktop.handleLocalQuery answer query = None <-> hasTrigger query = false)
  /\ (forall env (responseCache : gmap string Desktop.CachedResponse) query,
         hasTrigger (Js.toLowerCase query) = true ->
         (forall i, Desktop.localAnswer env i <> "") ->
         List.filter isModelCall (Desktop.events (Desktop.processQuery env responseCache query))
         = []).
Proof.
  split; [exact handleLocalQuery_None|].
  intros env responseCache query Ht Hne.
  destruct (handleLocalQuery_Some (Desktop.localAnswer env) _ Ht) as [i Hi].
  unfold Desktop.processQuery, Desktop.answerOnMiss. rewrite Hi.
  assert (E : Desktop.truthyString (Some (Desktop.localAnswer env i))
              = Some (Desktop.localAnswer env i)).
  { cbn. specialize (Hne i). now destruct (Desktop.localAnswer env i). }
  rewrite E.
  destruct (responseCache !! _) as [cached|]; [|reflexivity].
  now destruct (_ <? _)%Z.
Qed.

Lemma local_answer_needs_no_model_witness :
  Desktop.events (Desktop.processQuery (queryEnv 0 None) ∅ "What is my BALANCE?")
  = [Desktop.RanLocalQuery "what is my balance?"]
  /\ List.filter isModelCall
       (Desktop.events (Desktop.processQuery (queryEnv 0 None) ∅ "What is my BALANCE?"))
     = [].
Proof.
  split.
  - unfold Desktop.processQuery. rewrite lookup_empty. reflexivity.
  - apply (proj2 local_answer_needs_no_model (queryEnv 0 None) ∅ "What is my BALANCE?").
    + reflexivity.
    + intros i. discriminate.
Defined.

(** ** The desktop pipeline: confidence, date, escalation *)

Lemma clampConfidence_range c :
  (0 <= Desktop.clampConfidence c)%Q /\ (Desktop.clampConfidence c <= 1)%Q.
Proof.
  unfold Desktop.clampConfidence. split.
  - apply Q.le_max_l.
  - apply Q.max_lub; [easy | apply Q.le_min_l].
Qed.

Lemma rules_confidence_value categories d text :
  confidence (Desktop.parseWithRules categories d text)
  = if existsb (Desktop.entryMatches (Js.toLowerCase text)) Desktop.categoryKeywords
    then 0.8%Q else 0.5%Q.
Proof.
  unfold Desktop.parseWithRules.
  destruct (List.find _ Desktop.categoryKeywords) as [[cat kws]|] eqn:E; cbn [confidence].
  - apply find_some in E as [Hin E].
    assert (X : existsb (Desktop.entryMatches (Js.toLowerCase text))
                        Desktop.categoryKeywords = true)
      by (apply existsb_exists; eauto).
    now rewrite X.
  - destruct (existsb _ Desktop.categoryKeywords) eqn:X; [|reflexivity].
    apply existsb_exists in X as (entry & Hin & X).
    now rewrite (find_none _ _ E entry Hin) in X.
Qed.

(** X5. The confidence of every result of the desktop pipeline lies in
    [0, 1].  The validator clamps the confidence of the model into that
    interval, keeps a confidence in (0, 1] as it is, and turns a confidence
    of exactly 0 into 0.5, because 0 is falsy. *)
Theorem pipeline_confidence_in_unit_interval :
  (forall categories d generateObject text,
      (0 <= confidence (fst (Desktop.parseTransaction categories d generateObject text)))%Q
      /\ (confidence (fst (Desktop.parseTransaction categories d generateObject text)) <= 1)%Q)
  /\ (forall c, (0 < c)%Q -> (c <= 1)%Q -> (Desktop.clampConfidence c == c)%Q)
  /\ (forall c, (c == 0)%Q -> (Desktop.clampConfidence c == 0.5)%Q).
Proof.
  split; [|split].
  - intros categories d generateObject text. unfold Desktop.parseTransaction.
    assert (R : (0 <= confidence (Desktop.parseWithRules categories d text))%Q
                /\ (confidence (Desktop.parseWithRules categories d text) <= 1)%Q).
    { rewrite rules_confidence_value. destruct (existsb _ _); split; discriminate. }
    destruct (Qle_bool _ _); cbn [fst]; [exact R|].
    destruct (generateObject _); cbn [fst]; [|exact R].
    apply clampConfidence_range.
  - intros c H0 H1. unfold Desktop.clampConfidence.
    destruct (Qeq_bool c 0) eqn:E.
    + apply Qeq_bool_iff in E. rewrite E in H0. now apply Qlt_irrefl in H0.
    + rewrite (Q.min_r 1 c) by assumption. apply Q.max_r. now apply Qlt_le_weak.
  - intros c H. unfold Desktop.clampConfidence.
    apply Qeq_bool_iff in H. rewrite H. reflexivity.
Qed.

Lemma pipeline_confidence_in_unit_interval_witness :
  (Desktop.clampConfidence 0.3 == 0.3)%Q /\ (Desktop.clampConfidence 0 == 0.5)%Q.
Proof.
  destruct pipeline_confidence_in_unit_interval as (_ & H1 & H2). split.
  - apply H1; vm_compute; [reflexivity | discriminate].
  - apply H2. reflexivity.
Defined.

(** X6. When the dates the clock resolves to have the shape YYYY-MM-DD,
    so has the date of every result of the desktop pipeline: the
    rule-based date is one of them, and the validator replaces a model
    date of any other shape by today's date. *)
Theorem pipeline_date_is_iso :
  forall categories d generateObject text,
    Desktop.isIsoDate (today d) = true ->
    Desktop.isIsoDate (yesterday d) = true ->
    Desktop.isIsoDate (date (fst (Desktop.parseTransaction categories d generateObject text)))
    = true.
Proof.
  intros categories d generateObject text Ht Hy.
  assert (R : Desktop.isIsoDate (date (Desktop.parseWithRules categories d text)) = true).
  { unfold Desktop.parseWithRules.
    destruct (List.find _ Desktop.categoryKeywords) as [[cat kws]|]; cbn [date];
      now destruct (Js.includes "yesterday" _). }
  unfold Desktop.parseTransaction.
  destruct (Qle_bool _ _); cbn [fst]; [exact R|].
  destruct (generateObject _) as [parsed|]; cbn [fst]; [|exact R].
  unfold Desktop.validateAndEnrich; cbn [date].
  destruct (Js.isEmpty _); cbn [orb]; [exact Ht|].
  now destruct (Desktop.isIsoDate (Desktop.m_date parsed)) eqn:E.
Qed.

Lemma pipeline_date_is_iso_witness :
  Desktop.isIsoDate
    (date (fst (Desktop.parseTransaction Desktop.seededCategories jan15
                  (fun _ => Some {| Desktop.m_amount := 5; Desktop.m_type := expense;
                                    Desktop.m_category := "Gas"; Desktop.m_merchant := None;
                                    Desktop.m_description := "fuel";
                                    Desktop.m_date := "15 January";
                                    Desktop.m_confidence := 0.9 |})
                  "hello 5"))) = true.
Proof.
  apply pipeline_date_is_iso; reflexivity.
Defined.

(** X7. The desktop pipeline consults the model exactly when no keyword of
    its built-in table occurs in the lower-cased text: the catalog, the
    amount and the dates play no part in the decision. *)
Theorem escalates_iff_no_keyword :
  forall categories d generateObject text,
    snd (Desktop.parseTransaction categories d generateObject text) = []
    <-> existsb (Desktop.entryMatches (Js.toLowerCase text)) Desktop.categoryKeywords = true.
Proof.
  intros categories d generateObject text. unfold Desktop.parseTransaction.
  rewrite rules_confidence_value.
  destruct (existsb _ Desktop.categoryKeywords); cbn.
  - easy.
  - destruct (generateObject _); cbn; split; discriminate.
Qed.

Lemma includes_empty s : Js.includes "" s = true.
Proof. now destruct s. Qed.

(** X8. What the validator does with a category the catalog cannot place.
    With an empty catalog every category becomes the fallback of the type.
    An empty category is contained in every name, so with a catalog of
    non-empty names it becomes the name of the first catalog entry, not
    the fallback. *)
Theorem validator_unplaced_category :
  (forall d parsed,
      category (Desktop.validateAndEnrich [] d parsed) = Desktop.fallbackName (type parsed))
  /\ (forall c rest d parsed,
         category parsed = "" ->
         (forall x, In x (c :: rest) -> Desktop.name x <> "") ->
         category (Desktop.validateAndEnrich (c :: rest) d parsed) = Desktop.name c).
Proof.
  split; [reflexivity|].
  intros c rest d parsed He Hne. unfold Desktop.validateAndEnrich; cbn [category].
  rewrite He.
  destruct (List.find (fun x => Desktop.sameName (Desktop.name x) "") (c :: rest))
    as [x|] eqn:E.
  - apply find_some in E as [Hin E]. unfold Desktop.sameName in E.
    apply String.eqb_eq in E. cbn in E. specialize (Hne x Hin).
    destruct (Desktop.name x); [easy | discriminate].
  - cbn [List.find Js.toLowerCase]. rewrite includes_empty. cbn.
    specialize (Hne c (or_introl eq_refl)).
    now destruct (Desktop.name c).
Qed.

Lemma validator_unplaced_category_witness :
  category (Desktop.validateAndEnrich Desktop.seededCategories jan15
              {| amount := 5; type := income; category := ""; merchant := None;
                 description := "x"; date := "2026-01-15"; confidence := 0.9 |})
  = "Groceries".
Proof.
  apply (proj2 validator_unplaced_category
           (Desktop.mkCategory "03" "Groceries" expense "essential")).
  - reflexivity.
  - intros x Hx. cbn in Hx.
    repeat (destruct Hx as [<-|Hx]; [discriminate|]). destruct Hx.
Defined.

(** ** The amount token *)

Lemma span_spec p s :
  s = fst (Js.span p s) ++ snd (Js.span p s)
  /\ allChars p (fst (Js.span p s)) = true
  /\ match snd (Js.span p s) with
     | String c _ => p c = false
     | EmptyString => True
     end.
Proof.
  induction s as [|c r IH]; cbn; [easy|].
  destruct (p c) eqn:E; [|cbn; now rewrite E].
  destruct (Js.span p r) as [a b]. cbn in *. rewrite E.
  destruct IH as (Hs & Ha & Hb). rewrite append_cons, <- Hs. easy.
Qed.

Lemma span_app p a t :
  allChars p a = true ->
  match t with String c _ => p c = false | EmptyString => True end ->
  Js.span p (a ++ t) = (a, t).
Proof.
  intros Ha Ht. induction a as [|c r IH]; rewrite ?append_cons, ?append_nil.
  - destruct t as [|c r]; [reflexivity|]. cbn. now rewrite Ht.
  - cbn in Ha. apply andb_true_iff in Ha as [Hc Hr]. cbn. now rewrite Hc, (IH Hr).
Qed.

Lemma replaceComma_digits ds t :
  allChars Js.isDigit ds = true -> Js.replaceComma (ds ++ t) = ds ++ Js.replaceComma t.
Proof.
  induction ds as [|c r IH]; [reflexivity|].
  cbn [allChars]. intros H. apply andb_true_iff in H as [Hc Hr].
  rewrite !append_cons. cbn [Js.replaceComma].
  destruct (Ascii.eqb c ",") eqn:E.
  - apply Ascii.eqb_eq in E. subst c. discriminate Hc.
  - now rewrite IH.
Qed.

Lemma isSep_cases c : Amount.isSep c = true -> c = "."%char \/ c = ","%char.
Proof.
  unfold Amount.isSep. intros H. apply orb_true_iff in H as [H|H];
    apply Ascii.eqb_eq in H; auto.
Qed.

Lemma digit_not_comma c : Js.isDigit c = true -> Ascii.eqb c "," = false.
Proof.
  intros H. destruct (Ascii.eqb c ",") eqn:E; [|reflexivity].
  apply Ascii.eqb_eq in E. subst c. discriminate H.
Qed.

(** The shape of a matched number: digits, then nothing or a separator
    with one or two digits. *)
Lemma numberToken_shape s m r :
  Amount.numberToken s = Some (m, r) ->
  s = m ++ r
  /\ exists ds tail,
       m = ds ++ tail /\ ds <> "" /\ allChars Js.isDigit ds = true
       /\ (tail = ""
           \/ exists sep d1, Amount.isSep sep = true /\ Js.isDigit d1 = true
                /\ (tail = String sep (String d1 "")
                    \/ exists d2, Js.isDigit d2 = true
                                  /\ tail = String sep (String d1 (String d2 "")))).
Proof.
  unfold Amount.numberToken.
  destruct (span_spec Js.isDigit s) as (Hs & Hds & _).
  destruct (Js.span Js.isDigit s) as [ds t]. cbn [fst snd] in *.
  destruct ds as [|d0 ds0] eqn:Eds; [discriminate|]. cbn [Js.isEmpty].
  rewrite <- Eds in *. assert (Hne : ds <> "") by now rewrite Eds.
  clear Eds d0 ds0.
  assert (Plain : Some (ds, t) = Some (m, r) ->
    s = m ++ r /\ exists ds' tail, m = ds' ++ tail /\ ds' <> ""
      /\ allChars Js.isDigit ds' = true
      /\ (tail = ""
          \/ exists sep d1, Amount.isSep sep = true /\ Js.isDigit d1 = true
               /\ (tail = String sep (String d1 "")
                   \/ exists d2, Js.isDigit d2 = true
                                 /\ tail = String sep (String d1 (String d2 ""))))).
  { intros [= <- <-]. split; [exact Hs|]. exists ds, "".
    split; [|auto]. clear. induction ds as [|c r IH]; [reflexivity|].
    now rewrite append_cons, <- IH. }
  destruct t as [|c [|d1 r1]]; try exact Plain.
  destruct (Amount.isSep c && Js.isDigit d1) eqn:E; [|exact Plain].
  apply andb_true_iff in E as [Hc Hd1].
  destruct r1 as [|d2 r2].
  - intros [= <- <-]. split; [now rewrite Hs, append_assoc|].
    exists ds, (String c (String d1 "")). repeat split; try assumption.
    right. exists c, d1. auto.
  - destruct (Js.isDigit d2) eqn:Hd2; intros [= <- <-].
    + split; [now rewrite Hs, append_assoc|].
      exists ds, (String c (String d1 (String d2 ""))). repeat split; try assumption.
      right. exists c, d1. repeat split; try assumption. right. now exists d2.
    + split; [now rewrite Hs, append_assoc|].
      exists ds, (String c (String d1 "")). repeat split; try assumption.
      right. exists c, d1. auto.
Qed.

Lemma numberToken_nonempty s m r : Amount.numberToken s = Some (m, r) -> Js.isEmpty m = false.
Proof.
  intros H. apply numberToken_shape in H as (_ & ds & tail & -> & Hne & _).
  destruct ds; [easy | reflexivity].
Qed.

Lemma signedAmountAt_match t m : Backend.signedAmountAt t = Some m -> amountMatch m.
Proof.
  destruct t as [|c r]; [discriminate|]. intros H.
  destruct (signedAmountAt_inv _ _ _ H) as (Hc & Hg1 & _).
  cbn in H. destruct (Ascii.eqb c "+" || Ascii.eqb c "-"); [|discriminate].
  destruct (Amount.numberToken _) as [[n r']|] eqn:E; [|discriminate].
  injection H as <-. eexists. exists n, r'. split; [exact E|]. left. cbn.
  split; [reflexivity|]. destruct Hc as [-> | ->]; auto.
Qed.

Lemma currencyAmountAt_match t m : Backend.currencyAmountAt t = Some m -> amountMatch m.
Proof.
  unfold Backend.currencyAmountAt. destruct (Amount.currency t) as [r|]; [|discriminate].
  destruct (Amount.numberToken _) as [[n r']|] eqn:E; [|discriminate].
  intros [= <-]. eexists. exists n, r'. split; [exact E|]. now right.
Qed.

Lemma plainAmountAt_match t m : Backend.plainAmountAt t = Some m -> amountMatch m.
Proof.
  unfold Backend.plainAmountAt.
  destruct (Amount.numberToken t) as [[n r']|] eqn:E; [|discriminate].
  intros [= <-]. eexists. exists n, r'. split; [exact E|]. now right.
Qed.

Lemma extractAmount_value text :
  exists x, tokenOrDefault x
            /\ fst (Backend.extractAmount Backend.amountPatterns text) = Amount.toNumber x.
Proof.
  assert (M : forall m, amountMatch m ->
    exists x, tokenOrDefault x
      /\ fst (if String.eqb (Backend.group1 m) "+"
              then (Amount.toNumber (default "" (Backend.group2 m)), Some Backend.Plus)
              else if String.eqb (Backend.group1 m) "-"
                   then (Amount.toNumber (default "" (Backend.group2 m)), Some Backend.Minus)
                   else (Amount.toNumber
                           (Js.orElse (Backend.group1 m)
                              (Js.orElse (default "" (Backend.group2 m)) "0")), None))
         = Amount.toNumber x).
  { intros m (s & n & r & Hn & [[Hg2 Hg1]|[Hg1 Hg2]]).
    - rewrite Hg2. cbn [default]. exists n. split; [right; right; eauto|].
      destruct Hg1 as [-> | ->]; reflexivity.
    - rewrite Hg2, Hg1. cbn [default].
      destruct (String.eqb n "+"); [exists ""; split; [now left | reflexivity]|].
      destruct (String.eqb n "-"); [exists ""; split; [now left | reflexivity]|].
      exists n. split; [right; right; eauto|].
      cbn [fst]. now rewrite (orElse_nonempty _ _ (numberToken_nonempty _ _ _ Hn)). }
  cbn [Backend.extractAmount Backend.amountPatterns].
  destruct (Js.search Backend.signedAmountAt text) as [m|] eqn:E1.
  { apply search_inv in E1 as (pre & t & _ & E1). apply M. eauto using signedAmountAt_match. }
  destruct (Js.search Backend.currencyAmountAt text) as [m|] eqn:E2.
  { apply search_inv in E2 as (pre & t & _ & E2). apply M. eauto using currencyAmountAt_match. }
  destruct (Js.search Backend.plainAmountAt text) as [m|] eqn:E3.
  { apply search_inv in E3 as (pre & t & _ & E3). apply M. eauto using plainAmountAt_match. }
  exists "". split; [now left | reflexivity].
Qed.

Lemma rules_amount_value categories d text :
  exists x, tokenOrDefault x
            /\ amount (Desktop.parseWithRules categories d text) = Amount.toNumber x.
Proof.
  unfold Desktop.parseWithRules.
  assert (A : exists x, tokenOrDefault x
                /\ match Js.search Desktop.amountAt text with
                   | Some m => Amount.toNumber m
                   | None => 0%Q
                   end = Amount.toNumber x).
  { destruct (Js.search Desktop.amountAt text) as [m|] eqn:E.
    - apply search_inv in E as (pre & t & _ & E). unfold Desktop.amountAt in E.
      destruct (Amount.numberToken _) as [[n r]|] eqn:F; [|discriminate].
      injection E as <-. exists n. split; [right; right; eauto | reflexivity].
    - exists "". split; [now left | reflexivity]. }
  now destruct (List.find _ Desktop.categoryKeywords) as [[cat kws]|].
Qed.

Lemma isSep_not_digit c : Amount.isSep c = true -> Js.isDigit c = false.
Proof. intros H. destruct (isSep_cases c H) as [-> | ->]; reflexivity. Qed.

Lemma numberToken_decimalToken s m r :
  Amount.numberToken s = Some (m, r) -> decimalToken m = true.
Proof.
  intros H. apply numberToken_shape in H as (_ & ds & tail & -> & Hne & Hds & Htail).
  unfold decimalToken.
  assert (Hspan : Js.span Js.isDigit (ds ++ tail) = (ds, tail)).
  { apply span_app; [exact Hds|].
    destruct Htail as [->|(sep & d1 & Hsep & _ & [->|(d2 & _ & ->)])];
      [exact I | now apply isSep_not_digit | now apply isSep_not_digit]. }
  rewrite Hspan.
  assert (E : Js.isEmpty ds = false) by (destruct ds; [easy | reflexivity]).
  rewrite E. cbn [negb andb].
  destruct Htail as [->|(sep & d1 & Hsep & Hd1 & [->|(d2 & Hd2 & ->)])].
  - reflexivity.
  - now rewrite Hsep, Hd1.
  - now rewrite Hsep, Hd1, Hd2.
Qed.

Lemma tokenOrDefault_value x :
  tokenOrDefault x ->
  (Amount.toNumber x == 0)%Q \/ decimalToken x = true.
Proof.
  intros [->|[->|(s & r & H)]].
  - left. reflexivity.
  - left. reflexivity.
  - right. exact (numberToken_decimalToken _ _ _ H).
Qed.

(** X9. The amount of every rule-based parse, in the backend parser and in
    the desktop parser, is 0 or the number [parseFloat] reads from a token
    of decimal digits that is optionally followed by a point or a comma
    and one or two more digits: the amount patterns read at most two
    fraction digits. *)
Theorem parsed_amount_is_read_from_token :
  forall categories d text,
    ((amount (Backend.parseTransaction d text) == 0)%Q
     \/ exists x, decimalToken x = true
                  /\ (amount (Backend.parseTransaction d text) == Amount.toNumber x)%Q)
    /\ ((amount (Desktop.parseWithRules categories d text) == 0)%Q
        \/ exists x, decimalToken x = true
                     /\ (amount (Desktop.parseWithRules categories d text)
                         == Amount.toNumber x)%Q).
Proof.
  intros categories d text. split.
  - rewrite backend_amount_abs.
    destruct (extractAmount_value text) as (x & Hx & ->).
    pose proof (Qabs_pos _ (toNumber_nonneg x)) as Habs.
    destruct (tokenOrDefault_value x Hx) as [H|H].
    + left. now rewrite Habs.
    + right. exists x. split; [exact H | exact Habs].
  - destruct (rules_amount_value categories d text) as (x & Hx & ->).
    destruct (tokenOrDefault_value x Hx) as [H|H]; [now left|].
    right. exists x. split; [exact H | reflexivity].
Qed.

(** ** Texts without a digit *)

Lemma hasDigit_cons c r : hasDigit (String c r) = Js.isDigit c || hasDigit r.
Proof. unfold hasDigit. cbn. now destruct (Js.isDigit c). Qed.

Lemma hasDigit_app_r pre t : hasDigit t = true -> hasDigit (pre ++ t) = true.
Proof.
  intros H. induction pre as [|c r IH]; [exact H|].
  rewrite append_cons, hasDigit_cons, IH. apply orb_true_r.
Qed.

Lemma slice_suffix n s : exists pre, s = pre ++ Js.slice n s.
Proof.
  revert s. induction n as [|n IH]; intros s; [now exists ""|].
  destruct s as [|c r]; [now exists ""|].
  destruct (IH r) as [pre H]. exists (String c pre). cbn [Js.slice].
  now rewrite append_cons, <- H.
Qed.

Lemma hasDigit_dropWhile p s : hasDigit (Js.dropWhile p s) = true -> hasDigit s = true.
Proof.
  intros H. destruct (span_spec p s) as (Hs & _). rewrite Hs. now apply hasDigit_app_r.
Qed.

Lemma optCurrency_suffix s : exists pre, s = pre ++ Amount.optCurrency s.
Proof.
  unfold Amount.optCurrency, Amount.currency.
  destruct (Js.startsWith "$" s); [apply slice_suffix|].
  destruct (Js.startsWith Amount.euro s); [apply slice_suffix|].
  destruct (Js.startsWith Amount.pound s); [apply slice_suffix | now exists ""].
Qed.

Lemma hasDigit_optCurrency s : hasDigit (Amount.optCurrency s) = true -> hasDigit s = true.
Proof.
  intros H. destruct (optCurrency_suffix s) as [pre Hs]. rewrite Hs.
  now apply hasDigit_app_r.
Qed.

Lemma hasDigit_numberToken s x : Amount.numberToken s = Some x -> hasDigit s = true.
Proof.
  unfold Amount.numberToken. destruct s as [|c r]; [discriminate|].
  cbn [Js.span]. rewrite hasDigit_cons. destruct (Js.isDigit c); [easy|discriminate].
Qed.

Lemma no_digit_no_match {A} (m : string -> option A) text :
  (forall t r, m t = Some r -> hasDigit t = true) ->
  hasDigit text = false -> Js.search m text = None.
Proof.
  intros Hm Hd. destruct (Js.search m text) as [r|] eqn:E; [|reflexivity].
  apply search_inv in E as (pre & t & -> & E).
  now rewrite (hasDigit_app_r pre t (Hm t r E)) in Hd.
Qed.

Lemma signedAmountAt_digit t r : Backend.signedAmountAt t = Some r -> hasDigit t = true.
Proof.
  destruct t as [|c s]; [discriminate|]. cbn.
  destruct (Ascii.eqb c "+" || Ascii.eqb c "-"); [|discriminate].
  destruct (Amount.numberToken _) as [x|] eqn:E; [|discriminate]. intros _.
  rewrite hasDigit_cons. apply hasDigit_numberToken in E.
  apply hasDigit_dropWhile, hasDigit_optCurrency, hasDigit_dropWhile in E.
  rewrite E. apply orb_true_r.
Qed.

Lemma currencyAmountAt_digit t r : Backend.currencyAmountAt t = Some r -> hasDigit t = true.
Proof.
  unfold Backend.currencyAmountAt. destruct (Amount.currency t) as [s|] eqn:C; [|discriminate].
  destruct (Amount.numberToken _) as [x|] eqn:E; [|discriminate]. intros _.
  apply hasDigit_numberToken, hasDigit_dropWhile in E.
  apply hasDigit_optCurrency. unfold Amount.optCurrency. now rewrite C.
Qed.

Lemma plainAmountAt_digit t r : Backend.plainAmountAt t = Some r -> hasDigit t = true.
Proof.
  unfold Backend.plainAmountAt.
  destruct (Amount.numberToken t) as [x|] eqn:E; [|discriminate]. intros _.
  now apply hasDigit_numberToken in E.
Qed.

Lemma amountAt_digit t r : Desktop.amountAt t = Some r -> hasDigit t = true.
Proof.
  unfold Desktop.amountAt.
  destruct (Amount.numberToken _) as [x|] eqn:E; [|discriminate]. intros _.
  now apply hasDigit_numberToken, hasDigit_dropWhile, hasDigit_optCurrency in E.
Qed.

Lemma no_digit_no_amount text :
  hasDigit text = false ->
  Backend.extractAmount Backend.amountPatterns text = (0%Q, None).
Proof.
  intros H. cbn [Backend.extractAmount Backend.amountPatterns].
  rewrite (no_digit_no_match _ text signedAmountAt_digit H),
    (no_digit_no_match _ text currencyAmountAt_digit H),
    (no_digit_no_match _ text plainAmountAt_digit H).
  reflexivity.
Qed.

Lemma no_digit_gives_zero d text :
  hasDigit text = false -> amount (Backend.parseTransaction d text) = 0%Q.
Proof.
  intros H. now rewrite backend_amount_abs, (no_digit_no_amount text H).
Qed.

(** X10. A text without any decimal digit has no amount: both rule-based
    parsers return the amount 0, and the backend parser finds no explicit
    sign, so that the type comes from the income keywords alone. *)
Theorem no_digit_gives_amount_zero :
  forall categories d text,
    hasDigit text = false ->
    amount (Backend.parseTransaction d text) = 0%Q
    /\ type (Backend.parseTransaction d text)
       = (if existsb (fun kw => Js.includes kw (Js.trim (Js.toLowerCase text)))
                     Backend.incomeKeywords
          then income else expense)
    /\ amount (Desktop.parseWithRules categories d text) = 0%Q.
Proof.
  intros categories d text H. repeat split.
  - now rewrite backend_amount_abs, (no_digit_no_amount text H).
  - now rewrite (backend_type_of_amount d text _ _ (no_digit_no_amount text H)).
  - unfold Desktop.parseWithRules.
    rewrite (no_digit_no_match _ text amountAt_digit H).
    now destruct (List.find _ Desktop.categoryKeywords) as [[cat kws]|].
Qed.

Lemma no_digit_gives_amount_zero_witness :
  amount (Backend.parseTransaction jan15 "+ coffee, - tea") = 0%Q
  /\ amount (Desktop.parseWithRules Desktop.seededCategories jan15 "+ coffee, - tea") = 0%Q.
Proof.
  destruct (no_digit_gives_amount_zero Desktop.seededCategories jan15 "+ coffee, - tea")
    as (H1 & _ & H2); [reflexivity | now split].
Defined.

(** ** Merchant and description *)

Lemma allChars_app p a b : allChars p (a ++ b) = allChars p a && allChars p b.
Proof.
  induction a as [|c r IH]; [reflexivity|].
  rewrite append_cons. cbn. now rewrite IH, andb_assoc.
Qed.

Lemma allChars_reverse p s : allChars p (Js.reverse s) = allChars p s.
Proof.
  induction s as [|c r IH]; [reflexivity|].
  rewrite reverse_cons, allChars_app, IH. cbn. now rewrite andb_true_r, andb_comm.
Qed.

Lemma allChars_dropWhile p q s :
  allChars p s = true -> allChars p (Js.dropWhile q s) = true.
Proof.
  intros H. destruct (span_spec q s) as (Hs & _). rewrite Hs, allChars_app in H.
  now apply andb_true_iff in H as [_ H].
Qed.

Lemma allChars_trim p s : allChars p s = true -> allChars p (Js.trim s) = true.
Proof.
  intros H. unfold Js.trim, Js.trimEnd, Js.trimStart.
  rewrite allChars_reverse. apply allChars_dropWhile.
  rewrite allChars_reverse. now apply allChars_dropWhile.
Qed.

Lemma allChars_weaken (p q : ascii -> bool) s :
  (forall c, p c = true -> q c = true) -> allChars p s = true -> allChars q s = true.
Proof.
  intros Hpq. induction s as [|c r IH]; [easy|]. cbn. intros H.
  apply andb_true_iff in H as [Hc Hr]. now rewrite (Hpq c Hc), (IH Hr).
Qed.

Lemma allChars_lastChar p s : allChars p s = true -> allChars p (Js.lastChar s) = true.
Proof.
  intros H. unfold Js.lastChar. rewrite <- allChars_reverse in H.
  destruct (Js.reverse s) as [|c r]; [reflexivity|].
  cbn in *. apply andb_true_iff in H as [-> _]. reflexivity.
Qed.

Lemma includes_comma s : Js.includes "," s = negb (allChars Backend.notComma s).
Proof.
  induction s as [|c r IH]; [reflexivity|].
  cbn [Js.includes Js.startsWith allChars]. rewrite IH. unfold Backend.notComma.
  rewrite (Ascii.eqb_sym "," c). destruct (Ascii.eqb c ","); [|reflexivity].
  now destruct r.
Qed.

Lemma space_notComma c : Js.isSpace c = true -> Backend.notComma c = true.
Proof.
  unfold Backend.notComma. intros H. destruct (Ascii.eqb c ",") eqn:E; [|reflexivity].
  apply Ascii.eqb_eq in E. subst c. discriminate H.
Qed.

Lemma spacesThenField_notComma n s f :
  Backend.spacesThenField n s = Some f -> allChars Backend.notComma f = true.
Proof.
  unfold Backend.spacesThenField.
  destruct (span_spec Js.isSpace s) as (_ & Hws & _).
  destruct (Js.span Js.isSpace s) as [ws r]. cbn [fst] in Hws.
  destruct (span_spec Backend.notComma r) as (_ & Hf & _).
  destruct (negb (Js.isEmpty _)).
  - destruct (_ <=? _)%nat; [|discriminate]. now intros [= <-].
  - destruct (_ <=? _)%nat; [|discriminate]. intros [= <-].
    apply allChars_lastChar. exact (allChars_weaken _ _ _ space_notComma Hws).
Qed.

Lemma splitOn_pieces sep s piece :
  In piece (Js.splitOn sep s) -> allChars (fun c => negb (Ascii.eqb c sep)) piece = true.
Proof.
  revert piece. induction s as [|c r IH]; intros piece; cbn.
  - intros [<-|[]]. reflexivity.
  - destruct (Ascii.eqb c sep) eqn:E.
    + intros [<-|H]; [reflexivity | now apply IH].
    + destruct (Js.splitOn sep r) as [|p ps].
      * intros [<-|[]]. cbn. now rewrite E.
      * intros [<-|H].
        -- cbn. rewrite E. apply IH. now left.
        -- apply IH. now right.
Qed.

Lemma searchAtBoundary_inv {A} (m : string -> option A) b s r :
  Js.searchAtBoundary m b s = Some r -> exists t, m t = Some r.
Proof.
  revert b. induction s as [|c s IH]; intros b; cbn.
  - destruct b; [discriminate|]. destruct (m "") eqn:E; [|discriminate].
    intros [= <-]. eauto.
  - destruct (if b then None else m (String c s)) as [x|] eqn:E.
    + intros [= <-]. destruct b; [discriminate | eauto].
    + apply IH.
Qed.

Lemma extractMerchant_clean text m :
  Backend.extractMerchant text = Some m ->
  Js.trim m = m /\ Js.includes "," m = false.
Proof.
  unfold Backend.extractMerchant. rewrite includes_comma.
  assert (A : forall f, allChars Backend.notComma f = true ->
                        Js.trim (Js.trim f) = Js.trim f
                        /\ negb (allChars Backend.notComma (Js.trim f)) = false).
  { intros f Hf. split; [apply trim_idem|]. now rewrite allChars_trim. }
  destruct (match Js.search Backend.atSignAt text with
            | Some x => Some x
            | None => Js.searchAtBoundary Backend.atWordAt false text
            end) as [f|] eqn:E.
  - intros [= <-]. apply A.
    destruct (Js.search Backend.atSignAt text) as [x|] eqn:E1.
    + injection E as ->. apply search_inv in E1 as (pre & t & _ & E1).
      unfold Backend.atSignAt in E1.
      destruct t as [|c r]; [discriminate|].
      destruct (Ascii.eqb c "@") eqn:C;
        [|destruct c as [[] [] [] [] [] [] [] []]; try discriminate].
      apply Ascii.eqb_eq in C. subst c. eauto using spacesThenField_notComma.
    + apply searchAtBoundary_inv in E as (t & E). unfold Backend.atWordAt in E.
      destruct (Js.wordCI "at" t); [|discriminate].
      eauto using spacesThenField_notComma.
  - destruct (3 <=? _)%nat; [|discriminate]. intros H.
    apply nth_error_In, in_map_iff in H as (piece & <- & Hin).
    apply A. exact (splitOn_pieces _ _ _ Hin).
Qed.

(** X11. The merchant of the backend parser, when there is one, is
    trimmed (no white space at either end) and contains no comma: it is
    cut at the first comma after the marker, or is one of the
    comma-separated parts. *)
Theorem backend_merchant_is_clean :
  forall d text m,
    merchant (Backend.parseTransaction d text) = Some m ->
    Js.trim m = m /\ Js.includes "," m = false.
Proof.
  intros d text m H. apply (extractMerchant_clean text).
  rewrite <- H. unfold Backend.parseTransaction.
  destruct (Backend.extractAmount Backend.amountPatterns text) as [a sgn].
  now destruct (Backend.matchCategory _ _).
Qed.

Lemma backend_merchant_is_clean_witness :
  merchant (Backend.parseTransaction jan15 "-12 lunch @  Pizza Hut  , with Ann")
  = Some "Pizza Hut"
  /\ Js.trim "Pizza Hut" = "Pizza Hut" /\ Js.includes "," "Pizza Hut" = false.
Proof.
  split; [reflexivity|].
  apply (backend_merchant_is_clean jan15 "-12 lunch @  Pizza Hut  , with Ann").
  reflexivity.
Defined.

Lemma default_names_long c :
  In c Backend.DEFAULT_CATEGORIES -> 2 <= String.length (Backend.name c).
Proof.
  intros H.
  assert (A : forallb (fun c => (2 <=? String.length (Backend.name c))%nat)
                      Backend.DEFAULT_CATEGORIES = true) by reflexivity.
  rewrite forallb_forall in A. apply A in H. now apply Nat.leb_le in H.
Qed.

Lemma isLower_upperChar c : Js.isLower (Js.upperChar c) = false.
Proof. destruct c as [[] [] [] [] [] [] [] []]; reflexivity. Qed.

Lemma capitalize_length s : String.length (Backend.capitalize s) = String.length s.
Proof. now destruct s. Qed.

(** X12. The description of the backend parser always has at least two
    characters and never starts with a lower-case ASCII letter: what is
    left of the text after the amount, the [@] merchant and the date words
    are removed is used when it has two characters or more, and the name
    of the matched (or fallback) category otherwise. *)
Theorem backend_description_is_filled :
  forall d text,
    2 <= String.length (description (Backend.parseTransaction d text))
    /\ forall c r, description (Backend.parseTransaction d text) = String c r ->
                   Js.isLower c = false.
Proof.
  intros d text. split.
  - unfold Backend.parseTransaction.
    destruct (Backend.extractAmount Backend.amountPatterns text) as [a sgn].
    set (ty := Backend.determineType sgn _).
    assert (N : forall cat, In cat Backend.DEFAULT_CATEGORIES ->
      2 <= String.length
             (Backend.capitalize
                (if Js.isEmpty (Backend.stripTokens text)
                    || (String.length (Backend.stripTokens text) <? 2)%nat
                 then Js.orElse (Backend.name cat) "Transaction"
                 else Backend.stripTokens text))).
    { intros cat Hin. rewrite capitalize_length.
      destruct (Js.isEmpty _ || _) eqn:E.
      - rewrite orElse_nonempty by now apply default_names_nonempty.
        now apply default_names_long.
      - apply orb_false_iff in E as [_ E]. apply Nat.ltb_ge in E. exact E. }
    destruct (Backend.matchCategory ty _) as [cat|] eqn:E; cbn [description].
    + apply matchCategory_sound in E as [Hin _]. now apply N.
    + destruct (fallbackCategory_sound ty) as (c & -> & Hin & _). now apply N.
  - intros c r H.
    assert (C : exists s, description (Backend.parseTransaction d text)
                          = Backend.capitalize s).
    { unfold Backend.parseTransaction.
      destruct (Backend.extractAmount Backend.amountPatterns text) as [a sgn].
      destruct (Backend.matchCategory _ _); cbn [description]; eauto. }
    destruct C as [s C]. rewrite C in H. destruct s as [|x s]; [discriminate|].
    injection H as <- _. apply isLower_upperChar.
Qed.

Lemma isLetter_not_space c : Js.isLetter c = true -> Js.isSpace c = false.
Proof.
  destruct c as [[] [] [] [] [] [] [] []]; vm_compute; intros H;
    first [reflexivity | discriminate H].
Qed.

Lemma trimEnd_allChars p s : allChars p s = true -> allChars p (Js.trimEnd s) = true.
Proof.
  intros H. unfold Js.trimEnd, Js.trimStart. rewrite allChars_reverse.
  apply allChars_dropWhile. now rewrite allChars_reverse.
Qed.

Lemma merchantAfter_shape w t f :
  Desktop.merchantAfter w t = Some f ->
  exists c run, f = String c run /\ Js.isLetter c = true
                /\ allChars (fun x => Js.isLetter x || Js.isSpace x) run = true.
Proof.
  unfold Desktop.merchantAfter. destruct (Js.wordCI w t) as [r|]; [|discriminate].
  destruct (Js.span Js.isSpace r) as [ws r1]. destruct (Js.isEmpty ws); [discriminate|].
  destruct r1 as [|c r2]; [discriminate|].
  destruct (span_spec (fun x => Js.isLetter x || Js.isSpace x) r2) as (_ & Hrun & _).
  destruct (Js.isLetter c) eqn:Hc; [|discriminate]. cbn [andb].
  destruct (negb _); [|discriminate]. intros [= <-]. eauto.
Qed.

(** X13. The merchant of the desktop rule-based parse, when there is one,
    starts with an ASCII letter, consists of ASCII letters and white space
    only, and is trimmed. *)
Theorem desktop_merchant_is_letters :
  forall categories d text m,
    merchant (Desktop.parseWithRules categories d text) = Some m ->
    (exists c r, m = String c r /\ Js.isLetter c = true)
    /\ allChars (fun x => Js.isLetter x || Js.isSpace x) m = true
    /\ Js.trim m = m.
Proof.
  intros categories d text m H.
  assert (F : Desktop.firstMerchant Desktop.merchantPatterns text = Some m).
  { rewrite <- H. unfold Desktop.parseWithRules.
    now destruct (List.find _ Desktop.categoryKeywords) as [[cat kws]|]. }
  clear H.
  assert (S : exists f c run, m = Js.trim f /\ f = String c run /\ Js.isLetter c = true
                /\ allChars (fun x => Js.isLetter x || Js.isSpace x) run = true).
  { cbn [Desktop.firstMerchant Desktop.merchantPatterns] in F.
    destruct (Js.search (Desktop.merchantAfter "at") text) as [f|] eqn:E1.
    - injection F as <-. apply search_inv in E1 as (pre & t & _ & E1).
      apply merchantAfter_shape in E1 as (c & run & -> & Hc & Hrun). eauto 8.
    - destruct (Js.search (Desktop.merchantAfter "from") text) as [f|] eqn:E2;
        [|discriminate].
      injection F as <-. apply search_inv in E2 as (pre & t & _ & E2).
      apply merchantAfter_shape in E2 as (c & run & -> & Hc & Hrun). eauto 8. }
  destruct S as (f & c & run & -> & -> & Hc & Hrun).
  assert (T : Js.trim (String c run) = String c (Js.trimEnd run)).
  { unfold Js.trim, Js.trimStart.
    rewrite dropWhile_cons, (isLetter_not_space c Hc), trimEnd_cons.
    now rewrite (isLetter_not_space c Hc). }
  split; [|split].
  - rewrite T. eauto.
  - rewrite T. cbn. rewrite Hc. cbn. now apply trimEnd_allChars.
  - apply trim_idem.
Qed.

Lemma desktop_merchant_is_letters_witness :
  merchant (Desktop.parseWithRules Desktop.seededCategories jan15 "paid 9 at  Corner Shop 24")
  = Some "Corner Shop"
  /\ Js.trim "Corner Shop" = "Corner Shop".
Proof.
  split; [reflexivity|].
  apply (desktop_merchant_is_letters Desktop.seededCategories jan15
           "paid 9 at  Corner Shop 24").
  reflexivity.
Defined.

(** * The relay *)

Lemma backend_amount_nonneg d text : (0 <= amount (Backend.parseTransaction d text))%Q.
Proof. rewrite backend_amount_abs. apply Qabs_nonneg. Qed.

Lemma nonzero_amount_positive d text :
  Qeq_bool (amount (Backend.parseTransaction d text)) 0 = false ->
  (0 < amount (Backend.parseTransaction d text))%Q.
Proof.
  intros H. destruct (Qle_lt_or_eq _ _ (backend_amount_nonneg d text)) as [L|E]; [exact L|].
  symmetry in E. apply Qeq_bool_iff in E. congruence.
Qed.

Lemma preview_invariant u st text noAmount failure :
  botInvariant st -> botInvariant (fst (Relay.preview u st text noAmount failure)).
Proof.
  intros [Hp Hr]. unfold Relay.preview.
  destruct (Qeq_bool _ 0) eqn:E; [easy|].
  destruct (Relay.previewMessageId _); [|easy].
  split; [|exact Hr]. cbn. intros uid p.
  destruct (decide (Relay.from u = uid)) as [->|Hne].
  - rewrite lookup_insert_eq. intros [= <-]. cbn. now apply nonzero_amount_positive.
  - rewrite lookup_insert_ne by assumption. apply Hp.
Qed.

Lemma onConfirm_invariant u st :
  botInvariant st -> botInvariant (fst (Relay.onConfirm u st)).
Proof.
  intros [Hp Hr]. unfold Relay.onConfirm.
  destruct (Relay.pendingTransactions st !! Relay.from u) as [pending|] eqn:L; [|easy].
  destruct (Relay.getOrCreateUser _ _ _) as [[dbUserId users']|]; [|easy].
  unfold Relay.addTransaction.
  destruct (Relay.rowInsertOk _); [|easy].
  assert (Hrows : forall row,
    In row (Relay.transactions (Relay.store st) ++
            [{| Relay.tx_id := Relay.rowUUID (Relay.storeEnv (Relay.env u));
                Relay.tx_user := dbUserId;
                Relay.tx_date := date (Relay.parsed pending);
                Relay.tx_amount := amount (Relay.parsed pending);
                Relay.tx_type := type (Relay.parsed pending);
                Relay.tx_category := category (Relay.parsed pending);
                Relay.tx_merchant := merchant (Relay.parsed pending);
                Relay.tx_description := description (Relay.parsed pending);
                Relay.tx_tags := [];
                Relay.tx_source := "telegram";
                Relay.tx_created_at := Relay.nowISO (Relay.storeEnv (Relay.env u));
                Relay.tx_updated_at := Relay.nowISO (Relay.storeEnv (Relay.env u)) |}])%list ->
    (0 < Relay.tx_amount row)%Q /\ Relay.tx_source row = "telegram").
  { intros row Hin. apply in_app_or in Hin as [Hin|[<-|[]]]; [now apply Hr|].
    cbn. split; [exact (Hp _ _ L) | reflexivity]. }
  destruct (Relay.editOk _); cbn; (split; [|exact Hrows]); [|exact Hp].
  cbn. intros uid p Hl. apply lookup_delete_Some in Hl as [_ Hl]. exact (Hp _ _ Hl).
Qed.

Lemma step_invariant allowed st u :
  botInvariant st -> botInvariant (fst (Relay.step allowed st u)).
Proof.
  intros H. unfold Relay.step.
  assert (Hh : botInvariant (fst (Relay.handle u st))).
  { unfold Relay.handle. destruct (Relay.message u) as [name|text|[t|]| | |]; try easy.
    - destruct (Js.startsWith "/" text); [easy | now apply preview_invariant].
    - destruct (Js.isEmpty t || _); [easy|].
      pose proof (preview_invariant u st t Relay.NoAmountInVoice Relay.VoiceError H) as P.
      now destruct (Relay.preview u st t _ _).
    - now apply onConfirm_invariant.
    - destruct H as [Hp Hr]. split; [|exact Hr]. cbn. intros uid p Hl.
      apply lookup_delete_Some in Hl as [_ Hl]. exact (Hp _ _ Hl). }
  destruct (Desktop.truthyString allowed); [|exact Hh].
  now destruct (negb _).
Qed.

Lemma run_invariant allowed updates :
  forall st, botInvariant st -> botInvariant (fst (Relay.run allowed st updates)).
Proof.
  induction updates as [|u rest IH]; intros st H; [exact H|].
  cbn [Relay.run]. pose proof (step_invariant allowed st u H) as S.
  destruct (Relay.step allowed st u) as [st1 r1]. specialize (IH st1 S).
  now destruct (Relay.run allowed st1 rest).
Qed.

(** X14. Whatever updates the bot receives, in whatever order and with
    whatever outcomes of the remote calls, every row it has stored has a
    strictly positive amount and the source "telegram": a parse with the
    amount 0 never becomes a pending preview, and only pending previews
    are stored. *)
Theorem bot_stores_positive_amounts :
  forall allowed updates row,
    In row (Relay.transactions (Relay.store (fst (Relay.run allowed Relay.initial updates)))) ->
    (0 < Relay.tx_amount row)%Q /\ Relay.tx_source row = "telegram".
Proof.
  intros allowed updates row.
  assert (I : botInvariant Relay.initial).
  { split; [intros uid p; cbn; rewrite lookup_empty; discriminate | intros r []]. }
  apply (run_invariant allowed updates) in I. now apply I.
Qed.

Lemma bot_stores_positive_amounts_witness :
  exists row,
    Relay.transactions
      (Relay.store
         (fst (Relay.run None Relay.initial
                 [update 42 (Relay.Text "lunch 12.50 at cafe") "a";
                  update 42 Relay.ConfirmButton "b"])))
    = [row]
    /\ (0 < Relay.tx_amount row)%Q /\ Relay.tx_source row = "telegram".
Proof.
  eexists. split; [vm_compute; reflexivity|].
  apply (bot_stores_positive_amounts None
           [update 42 (Relay.Text "lunch 12.50 at cafe") "a";
            update 42 Relay.ConfirmButton "b"]).
  vm_compute. left. reflexivity.
Defined.

(** X15. With [ALLOWED_USER_ID] set, updates of any other user have no
    effect: each is answered with the refusal and the state of the bot,
    pending previews and stored rows alike, stays as it was. *)
Theorem bot_ignores_other_users :
  forall allowed who updates st,
    Desktop.truthyString allowed = Some who ->
    (forall u, In u updates -> Relay.idString (Relay.from u) <> who) ->
    Relay.run allowed st updates = (st, repeat Relay.Unauthorized (length updates)).
Proof.
  intros allowed who updates st Ha.
  induction updates as [|u rest IH]; intros Hu; [reflexivity|].
  cbn [Relay.run]. unfold Relay.step. rewrite Ha.
  assert (E : String.eqb (Relay.idString (Relay.from u)) who = false).
  { apply String.eqb_neq. apply Hu. now left. }
  rewrite E. cbn [negb]. rewrite IH by (intros v Hv; apply Hu; now right).
  reflexivity.
Qed.

Lemma bot_ignores_other_users_witness :
  Relay.run (Some "42") Relay.initial
    [update 7 (Relay.Text "-30 gas") "a"; update 7 Relay.ConfirmButton "b"]
  = (Relay.initial, [Relay.Unauthorized; Relay.Unauthorized]).
Proof.
  apply (bot_ignores_other_users (Some "42") "42"
           [update 7 (Relay.Text "-30 gas") "a"; update 7 Relay.ConfirmButton "b"]).
  - reflexivity.
  - intros u [<-|[<-|[]]]; vm_compute; discriminate.
Defined.

(** X16. What a confirmation leaves of the pending preview.  After a
    cancel, or after a confirm that stored the row and edited the message,
    the preview is gone: a further confirm of the same user answers that the
    transaction expired and changes nothing.  But when the row was stored
    and the edit of the message failed, the user is told that saving failed
    and the preview stays pending; a second confirm then stores the same
    parse a second time, under the same user. *)
Theorem bot_confirm_and_pending_preview :
  (forall st u1 u2,
      Relay.from u2 = Relay.from u1 ->
      Relay.message u2 = Relay.ConfirmButton ->
      (Relay.message u1 = Relay.CancelButton
       \/ (Relay.message u1 = Relay.ConfirmButton
           /\ exists p, snd (Relay.handle u1 st) = [Relay.Added p; Relay.Saved])) ->
      Relay.handle u2 (fst (Relay.handle u1 st)) = (fst (Relay.handle u1 st), [Relay.Expired]))
  /\ (forall st u1 u2 pending,
         Relay.from u2 = Relay.from u1 ->
         Relay.message u1 = Relay.ConfirmButton ->
         Relay.message u2 = Relay.ConfirmButton ->
         Relay.pendingTransactions st !! Relay.from u1 = Some pending ->
         Relay.userInsertOk (Relay.storeEnv (Relay.env u1)) = true ->
         Relay.rowInsertOk (Relay.storeEnv (Relay.env u1)) = true ->
         Relay.editOk (Relay.env u1) = false ->
         Relay.rowInsertOk (Relay.storeEnv (Relay.env u2)) = true ->
         Relay.editOk (Relay.env u2) = true ->
         snd (Relay.handle u1 st) = [Relay.SaveError]
         /\ Relay.pendingTransactions (fst (Relay.handle u1 st)) !! Relay.from u1
            = Some pending
         /\ snd (Relay.handle u2 (fst (Relay.handle u1 st)))
            = [Relay.Added (Relay.parsed pending); Relay.Saved]
         /\ exists row1 row2,
              Relay.transactions
                (Relay.store (fst (Relay.handle u2 (fst (Relay.handle u1 st)))))
              = (Relay.transactions (Relay.store st) ++ [row1; row2])%list
              /\ Relay.tx_user row2 = Relay.tx_user row1
              /\ Relay.tx_amount row1 = amount (Relay.parsed pending)
              /\ Relay.tx_amount row2 = amount (Relay.parsed pending)
              /\ Relay.tx_type row2 = Relay.tx_type row1
              /\ Relay.tx_category row2 = Relay.tx_category row1
              /\ Relay.tx_description row2 = Relay.tx_description row1
              /\ Relay.tx_date row2 = Relay.tx_date row1).
Proof.
  split.
  { intros st u1 u2 Hfrom Hm2 H1.
    assert (Gone : Relay.pendingTransactions (fst (Relay.handle u1 st)) !! Relay.from u1
                   = None).
    { unfold Relay.handle in *. destruct H1 as [Hc|[Hc [p Hp]]]; rewrite Hc in *.
      - cbn. apply lookup_delete_eq.
      - unfold Relay.onConfirm in *.
        destruct (Relay.pendingTransactions st !! Relay.from u1); [|discriminate].
        destruct (Relay.getOrCreateUser _ _ _) as [[dbUserId users']|]; [|discriminate].
        destruct (Relay.addTransaction _ _ _ _ _) as [[row rows']|]; [|discriminate].
        destruct (Relay.editOk _); [|discriminate].
        cbn. apply lookup_delete_eq. }
    unfold Relay.handle at 1. rewrite Hm2. unfold Relay.onConfirm.
    now rewrite Hfrom, Gone. }
  { intros st u1 u2 pending Hfrom Hm1 Hm2 Hp Hu1 Hr1 He1 Hr2 He2.
    destruct (Relay.getOrCreateUser (Relay.storeEnv (Relay.env u1))
                (Relay.users (Relay.store st)) (Relay.idString (Relay.from u1)))
      as [[uid users']|] eqn:G.
    2: { unfold Relay.getOrCreateUser in G. rewrite Hu1 in G.
         destruct (Relay.users (Relay.store st) !! _); discriminate. }
    assert (G2 : Relay.getOrCreateUser (Relay.storeEnv (Relay.env u2)) users'
                   (Relay.idString (Relay.from u1)) = Some (uid, users')).
    { unfold Relay.getOrCreateUser in G |- *.
      destruct (Relay.users (Relay.store st) !! Relay.idString (Relay.from u1)) eqn:L.
      - injection G as <- <-. now rewrite L.
      - rewrite Hu1 in G. injection G as <- <-. now rewrite lookup_insert_eq. }
    assert (H1 : Relay.handle u1 st
                 = ({| Relay.pendingTransactions := Relay.pendingTransactions st;
                       Relay.store :=
                         {| Relay.users := users';
                            Relay.transactions :=
                              (Relay.transactions (Relay.store st)
                               ++ [{| Relay.tx_id := Relay.rowUUID (Relay.storeEnv (Relay.env u1));
                                      Relay.tx_user := uid;
                                      Relay.tx_date := date (Relay.parsed pending);
                                      Relay.tx_amount := amount (Relay.parsed pending);
                                      Relay.tx_type := type (Relay.parsed pending);
                                      Relay.tx_category := category (Relay.parsed pending);
                                      Relay.tx_merchant := merchant (Relay.parsed pending);
                                      Relay.tx_description := description (Relay.parsed pending);
                                      Relay.tx_tags := [];
                                      Relay.tx_source := "telegram";
                                      Relay.tx_created_at :=
                                        Relay.nowISO (Relay.storeEnv (Relay.env u1));
                                      Relay.tx_updated_at :=
                                        Relay.nowISO (Relay.storeEnv (Relay.env u1)) |}])%list
                         |} |},
                    [Relay.SaveError])).
    { unfold Relay.handle. rewrite Hm1. unfold Relay.onConfirm.
      rewrite Hp, G. unfold Relay.addTransaction. now rewrite Hr1, He1. }
    rewrite H1. cbn [fst snd Relay.pendingTransactions].
    split; [reflexivity|]. split; [exact Hp|].
    unfold Relay.handle. rewrite Hm2. unfold Relay.onConfirm.
    cbn [Relay.pendingTransactions Relay.store Relay.users Relay.transactions].
    rewrite Hfrom, Hp, G2. unfold Relay.addTransaction. rewrite Hr2, He2.
    cbn [fst snd Relay.store Relay.transactions].
    split; [reflexivity|].
    eexists. eexists. split; [rewrite <- app_assoc; reflexivity|].
    cbn. repeat split; reflexivity. }
Qed.

Lemma bot_confirm_and_pending_preview_witness :
  Relay.handle (update 42 Relay.ConfirmButton "c")
    (fst (Relay.handle (update 42 Relay.CancelButton "b") Relay.initial))
  = (fst (Relay.handle (update 42 Relay.CancelButton "b") Relay.initial), [Relay.Expired])
  /\ snd (Relay.handle (updateEditFails 42 Relay.ConfirmButton "b") gasPreview)
     = [Relay.SaveError]
  /\ snd (Relay.handle (update 42 Relay.ConfirmButton "c")
            (fst (Relay.handle (updateEditFails 42 Relay.ConfirmButton "b") gasPreview)))
     = [Relay.Added (Backend.parseTransaction jan15 "-30 gas"); Relay.Saved]
  /\ length (Relay.transactions
               (Relay.store
                  (fst (Relay.handle (update 42 Relay.ConfirmButton "c")
                          (fst (Relay.handle (updateEditFails 42 Relay.ConfirmButton "b")
                                  gasPreview))))))
     = 2.
Proof.
  split.
  - apply (proj1 bot_confirm_and_pending_preview Relay.initial
             (update 42 Relay.CancelButton "b") (update 42 Relay.ConfirmButton "c"));
      [reflexivity | reflexivity | now left].
  - destruct (proj2 bot_confirm_and_pending_preview gasPreview
                (updateEditFails 42 Relay.ConfirmButton "b")
                (update 42 Relay.ConfirmButton "c")
                {| Relay.parsed := Backend.parseTransaction jan15 "-30 gas";
                   Relay.messageId := 7 |})
      as (H1 & _ & H2 & row1 & row2 & Hrows & _);
      try reflexivity.
    split; [exact H1|]. split; [exact H2|].
    rewrite Hrows. reflexivity.
Defined.

(** X17. An update touches the pending preview of its sender only, and the
    stored rows only grow: the rows stored before an update are still
    there after it, unchanged and in the same order, with at most one new
    row after them. *)
Theorem bot_step_is_local :
  forall allowed st u,
    (forall other, other <> Relay.from u ->
                   Relay.pendingTransactions (fst (Relay.step allowed st u)) !! other
                   = Relay.pendingTransactions st !! other)
    /\ (Relay.transactions (Relay.store (fst (Relay.step allowed st u)))
        = Relay.transactions (Relay.store st)
        \/ exists row,
             Relay.transactions (Relay.store (fst (Relay.step allowed st u)))
             = (Relay.transactions (Relay.store st) ++ [row])%list).
Proof.
  intros allowed st u.
  assert (P : forall text noAmount failure,
    (forall other, other <> Relay.from u ->
       Relay.pendingTransactions (fst (Relay.preview u st text noAmount failure)) !! other
       = Relay.pendingTransactions st !! other)
    /\ Relay.store (fst (Relay.preview u st text noAmount failure)) = Relay.store st).
  { intros text noAmount failure. unfold Relay.preview.
    destruct (Qeq_bool _ 0); [easy|]. destruct (Relay.previewMessageId _); [|easy].
    cbn. split; [|reflexivity]. intros other Hne. now rewrite lookup_insert_ne. }
  assert (H : (forall other, other <> Relay.from u ->
                  Relay.pendingTransactions (fst (Relay.handle u st)) !! other
                  = Relay.pendingTransactions st !! other)
              /\ (Relay.transactions (Relay.store (fst (Relay.handle u st)))
                  = Relay.transactions (Relay.store st)
                  \/ exists row,
                       Relay.transactions (Relay.store (fst (Relay.handle u st)))
                       = (Relay.transactions (Relay.store st) ++ [row])%list)).
  { unfold Relay.handle. destruct (Relay.message u) as [name|text|[t|]| | |].
    - cbn. auto.
    - destruct (Js.startsWith "/" text); [cbn; auto|].
      destruct (P text Relay.NoAmountInText Relay.ParseError) as [Pp Ps].
      split; [exact Pp | left; now rewrite Ps].
    - destruct (Js.isEmpty t || _); [cbn; auto|].
      destruct (P t Relay.NoAmountInVoice Relay.VoiceError) as [Pp Ps].
      destruct (Relay.preview u st t _ _) as [st' replies]. cbn in *.
      split; [exact Pp | left; now rewrite Ps].
    - cbn. auto.
    - cbn. auto.
    - unfold Relay.onConfirm.
      destruct (Relay.pendingTransactions st !! Relay.from u); [|cbn; auto].
      destruct (Relay.getOrCreateUser _ _ _) as [[dbUserId users']|]; [|cbn; auto].
      unfold Relay.addTransaction. destruct (Relay.rowInsertOk _); [|cbn; auto].
      destruct (Relay.editOk _); cbn.
      + split; [intros other Hne; now rewrite lookup_delete_ne | eauto].
      + split; eauto.
    - cbn. split; [intros other Hne; now rewrite lookup_delete_ne | auto]. }
  unfold Relay.step. destruct (Desktop.truthyString allowed); [|exact H].
  destruct (negb _); [auto | exact H].
Qed.

(** ** [POST /api/transactions] *)

Lemma storeParsed_spec d env rows source text userId (table : gmap string string) :
  match fst (Relay.storeParsed d env rows source text userId table) with
  | Relay.Created row p =>
      Relay.transactions (snd (Relay.storeParsed d env rows source text userId table))
      = (rows ++ [row])%list
      /\ (0 < Relay.tx_amount row)%Q
      /\ hasDigit text = true
      /\ p = Backend.parseTransaction d text
      /\ Relay.tx_amount row = amount p /\ Relay.tx_type row = type p
      /\ Relay.tx_category row = category p
      /\ Relay.tx_user row = userId
      /\ Relay.users (snd (Relay.storeParsed d env rows source text userId table)) = table
  | _ =>
      Relay.transactions (snd (Relay.storeParsed d env rows source text userId table)) = rows
  end.
Proof.
  unfold Relay.storeParsed.
  destruct (Qeq_bool _ 0) eqn:Ez; [reflexivity|].
  unfold Relay.addTransaction. destruct (Relay.rowInsertOk env); [|reflexivity].
  cbn. split; [reflexivity|]. split; [now apply nonzero_amount_positive|].
  repeat split.
  destruct (hasDigit text) eqn:Hd; [reflexivity|].
  rewrite (no_digit_gives_zero d text Hd) in Ez. discriminate.
Qed.

(** X18. The route stores a row only when it answers with success: then
    exactly one row is appended, built from the parse of the text, with a
    strictly positive amount, under the user that belongs to the device.
    With any other answer the stored rows are as before; a text without a
    digit is never stored. *)
Theorem api_stores_only_on_success :
  forall d env st body,
    match fst (Relay.postTransaction d env st body) with
    | Relay.Created row p =>
        Relay.transactions (snd (Relay.postTransaction d env st body))
        = (Relay.transactions st ++ [row])%list
        /\ (0 < Relay.tx_amount row)%Q
        /\ (exists text device,
               Relay.body_text body = Some text /\ Relay.body_device_id body = Some device
               /\ hasDigit text = true
               /\ p = Backend.parseTransaction d text
               /\ Relay.tx_amount row = amount p /\ Relay.tx_type row = type p
               /\ Relay.tx_category row = category p
               /\ Relay.users (snd (Relay.postTransaction d env st body)) !! device
                  = Some (Relay.tx_user row))
    | _ =>
        Relay.transactions (snd (Relay.postTransaction d env st body))
        = Relay.transactions st
    end.
Proof.
  intros d env st body. unfold Relay.postTransaction.
  destruct (Relay.body_text body) as [text|] eqn:Et; cbn [Desktop.truthyString]; [|easy].
  destruct (Js.isEmpty text) eqn:Ee; [easy|].
  destruct (Relay.body_device_id body) as [device|] eqn:Ed;
    cbn [Desktop.truthyString]; [|easy].
  destruct (Js.isEmpty device); [easy|].
  assert (Row : forall userId (table : gmap string string),
    table !! device = Some userId ->
    match fst (Relay.storeParsed d env (Relay.transactions st) (Relay.body_source body)
                 text userId table) with
    | Relay.Created row p =>
        Relay.transactions
          (snd (Relay.storeParsed d env (Relay.transactions st) (Relay.body_source body)
                  text userId table))
        = (Relay.transactions st ++ [row])%list
        /\ (0 < Relay.tx_amount row)%Q
        /\ (exists text' device',
               Some text = Some text' /\ Some device = Some device'
               /\ hasDigit text' = true
               /\ p = Backend.parseTransaction d text'
               /\ Relay.tx_amount row = amount p /\ Relay.tx_type row = type p
               /\ Relay.tx_category row = category p
               /\ Relay.users
                    (snd (Relay.storeParsed d env (Relay.transactions st)
                            (Relay.body_source body) text userId table)) !! device'
                  = Some (Relay.tx_user row))
    | _ =>
        Relay.transactions
          (snd (Relay.storeParsed d env (Relay.transactions st) (Relay.body_source body)
                  text userId table))
        = Relay.transactions st
    end).
  { intros userId table Hu.
    pose proof (storeParsed_spec d env (Relay.transactions st) (Relay.body_source body)
                  text userId table) as S.
    destruct (Relay.storeParsed _ _ _ _ _ _ _) as [[row p| |] st']; cbn in *; try exact S.
    destruct S as (S1 & S2 & S3 & S4 & S5 & S6 & S7 & S8 & S9).
    split; [exact S1|]. split; [exact S2|]. exists text, device.
    rewrite S9, S8. easy. }
  unfold Relay.getOrCreateUser.
  destruct (Relay.users st !! device) as [existing|] eqn:L.
  - exact (Row existing (Relay.users st) L).
  - destruct (Relay.userInsertOk env); [|reflexivity].
    apply Row. apply lookup_insert_eq.
Qed.

Lemma postTransaction_created d env st body row p :
  fst (Relay.postTransaction d env st body) = Relay.Created row p ->
  exists device,
    Desktop.truthyString (Relay.body_device_id body) = Some device
    /\ Relay.users (snd (Relay.postTransaction d env st body)) !! device
       = Some (Relay.tx_user row)
    /\ (forall known, Relay.users st !! device = Some known -> Relay.tx_user row = known).
Proof.
  unfold Relay.postTransaction.
  destruct (Desktop.truthyString (Relay.body_text body)) as [text|]; [|discriminate].
  destruct (Desktop.truthyString (Relay.body_device_id body)) as [device|]; [|discriminate].
  unfold Relay.getOrCreateUser.
  assert (Row : forall userId (table : gmap string string),
    table !! device = Some userId ->
    fst (Relay.storeParsed d env (Relay.transactions st) (Relay.body_source body)
           text userId table) = Relay.Created row p ->
    Relay.users (snd (Relay.storeParsed d env (Relay.transactions st)
                        (Relay.body_source body) text userId table)) !! device
    = Some (Relay.tx_user row)
    /\ Relay.tx_user row = userId).
  { intros userId table Hu Hc.
    pose proof (storeParsed_spec d env (Relay.transactions st) (Relay.body_source body)
                  text userId table) as S.
    rewrite Hc in S. destruct S as (_ & _ & _ & _ & _ & _ & _ & S8 & S9).
    now rewrite S9, S8. }
  destruct (Relay.users st !! device) as [existing|] eqn:L.
  - intros Hc. destruct (Row existing _ L Hc) as [R1 R2].
    exists device. split; [reflexivity|]. split; [exact R1|].
    intros known E. congruence.
  - destruct (Relay.userInsertOk env); [|discriminate].
    intros Hc. destruct (Row _ _ (lookup_insert_eq _ _ _) Hc) as [R1 R2].
    exists device. split; [reflexivity|]. split; [exact R1|].
    intros known E. congruence.
Qed.

(** X19. A device keeps its user: when two requests with the same
    [device_id] are both stored, the second one after the first, both rows
    carry the same user id, whatever identifier the second request would
    have drawn for a new user. *)
Theorem api_device_keeps_its_user :
  forall d1 d2 env1 env2 st body1 body2 row1 p1 row2 p2,
    Relay.body_device_id body2 = Relay.body_device_id body1 ->
    fst (Relay.postTransaction d1 env1 st body1) = Relay.Created row1 p1 ->
    fst (Relay.postTransaction d2 env2 (snd (Relay.postTransaction d1 env1 st body1)) body2)
    = Relay.Created row2 p2 ->
    Relay.tx_user row2 = Relay.tx_user row1.
Proof.
  intros d1 d2 env1 env2 st body1 body2 row1 p1 row2 p2 Hd H1 H2.
  apply postTransaction_created in H1 as (device1 & T1 & U1 & _).
  apply postTransaction_created in H2 as (device2 & T2 & _ & K2).
  rewrite Hd, T1 in T2. injection T2 as <-. now apply K2.
Qed.

Lemma api_device_keeps_its_user_witness :
  exists row1 row2,
    fst (Relay.postTransaction jan15 (storeUp "a")
           {| Relay.users := ∅; Relay.transactions := [] |}
           {| Relay.body_text := Some "-30 gas"; Relay.body_device_id := Some "mac-1";
              Relay.body_source := Some "spotlight" |})
    = Relay.Created row1 (Backend.parseTransaction jan15 "-30 gas")
    /\ fst (Relay.postTransaction jan15 (storeUp "b")
              (snd (Relay.postTransaction jan15 (storeUp "a")
                      {| Relay.users := ∅; Relay.transactions := [] |}
                      {| Relay.body_text := Some "-30 gas";
                         Relay.body_device_id := Some "mac-1";
                         Relay.body_source := Some "spotlight" |}))
              {| Relay.body_text := Some "+5 gift"; Relay.body_device_id := Some "mac-1";
                 Relay.body_source := None |})
       = Relay.Created row2 (Backend.parseTransaction jan15 "+5 gift")
    /\ Relay.tx_user row2 = Relay.tx_user row1.
Proof.
  do 2 eexists. split; [vm_compute; reflexivity|]. split; [vm_compute; reflexivity|].
  eapply (api_device_keeps_its_user jan15 jan15 (storeUp "a") (storeUp "b")
            {| Relay.users := ∅; Relay.transactions := [] |}
            {| Relay.body_text := Some "-30 gas"; Relay.body_device_id := Some "mac-1";
               Relay.body_source := Some "spotlight" |}
            {| Relay.body_text := Some "+5 gift"; Relay.body_device_id := Some "mac-1";
               Relay.body_source := None |}).
  - reflexivity.
  - vm_compute. reflexivity.
  - vm_compute. reflexivity.
Defined.

(** * The desktop database *)

Lemma updateAccountBalance_eq now id amount type (table : gmap string Ledger.Account) acc :
  table !! id = Some acc ->
  exists acc',
    Ledger.updateAccountBalance now id amount type table !! id = Some acc'
    /\ Ledger.balance acc' = (Ledger.balance acc + Ledger.balanceDelta amount type)%Q
    /\ Ledger.acc_name acc' = Ledger.acc_name acc.
Proof.
  intros H. unfold Ledger.updateAccountBalance. rewrite lookup_alter_eq, H. cbn. eauto.
Qed.

Lemma updateAccountBalance_ne now id amount type (table : gmap string Ledger.Account) other :
  other <> id ->
  Ledger.updateAccountBalance now id amount type table !! other = table !! other.
Proof. intros H. unfold Ledger.updateAccountBalance. now rewrite lookup_alter_ne. Qed.

Lemma addTransaction_inv id now f db db' :
  Ledger.addTransaction id now f db = Some db' ->
  Ledger.transactions db !! id = None
  /\ Ledger.referencesOk db (Ledger.stored f) = true
  /\ db' = {| Ledger.accounts := Ledger.applyBalance now f (Ledger.accounts db);
              Ledger.categories := Ledger.categories db;
              Ledger.transactions :=
                <[id := {| Ledger.fields := Ledger.stored f; Ledger.createdAt := now;
                           Ledger.updatedAt := now |}]> (Ledger.transactions db);
              Ledger.recurring := Ledger.recurring db |}.
Proof.
  unfold Ledger.addTransaction.
  destruct (Ledger.transactions db !! id); [discriminate|].
  destruct (Ledger.referencesOk db _); [|discriminate].
  now intros [= <-].
Qed.

Lemma referencesOk_account db f :
  Ledger.referencesOk db f = true -> exists acc, Ledger.accounts db !! Ledger.accountId f = Some acc.
Proof.
  unfold Ledger.referencesOk, Ledger.hasAccount. intros H.
  apply andb_true_iff in H as [H _]. apply andb_true_iff in H as [H _].
  apply andb_true_iff in H as [_ H]. apply bool_decide_eq_true in H as [acc H]. eauto.
Qed.

(** X20. A stored income or expense moves the balance of its account by
    the absolute value of the amount, up for an income and down for an
    expense, whatever the sign of the amount passed in; the other accounts
    keep their balance.  (Transactions without a target account.) *)
Theorem ledger_add_moves_balance :
  forall id now f db db',
    Ledger.addTransaction id now f db = Some db' ->
    Desktop.truthyString (Ledger.toAccountId f) = None ->
    (exists acc acc',
        Ledger.accounts db !! Ledger.accountId f = Some acc
        /\ Ledger.accounts db' !! Ledger.accountId f = Some acc'
        /\ Ledger.balance acc'
           = (Ledger.balance acc
              + match Ledger.f_type f with
                | Ledger.ExpenseTx => - Qabs (Ledger.f_amount f)
                | Ledger.IncomeTx => Qabs (Ledger.f_amount f)
                | Ledger.TransferTx => Ledger.f_amount f
                end)%Q)
    /\ (forall other, other <> Ledger.accountId f ->
                      Ledger.accounts db' !! other = Ledger.accounts db !! other)
    /\ Ledger.transactions db' !! id
       = Some {| Ledger.fields := Ledger.stored f; Ledger.createdAt := now;
                 Ledger.updatedAt := now |}.
Proof.
  intros id now f db db' H Hto.
  apply addTransaction_inv in H as (Hid & Hrefs & ->). cbn.
  apply referencesOk_account in Hrefs as [acc Hacc]. cbn in Hacc.
  unfold Ledger.applyBalance. rewrite Hto. split; [|split].
  - destruct (updateAccountBalance_eq now _ (Ledger.f_amount f) (Ledger.f_type f) _ _ Hacc)
      as (acc' & H1 & H2 & _).
    exists acc, acc'. split; [exact Hacc | split; [exact H1 |]].
    rewrite H2. unfold Ledger.balanceDelta. now destruct (Ledger.f_type f).
  - intros other Hne. now apply updateAccountBalance_ne.
  - apply lookup_insert_eq.
Qed.

Lemma ledger_add_moves_balance_witness :
  exists db',
    Ledger.addTransaction "tx-1" "2026-01-15T10:00:00.000Z" gasExpense cashOnly = Some db'
    /\ exists acc', Ledger.accounts db' !! "acc-1" = Some acc'
                    /\ (Ledger.balance acc' == 70)%Q.
Proof.
  eexists. split; [vm_compute; reflexivity|].
  edestruct (ledger_add_moves_balance "tx-1" "2026-01-15T10:00:00.000Z" gasExpense cashOnly)
    as ((acc & acc' & Ha & Ha' & Hb) & _); [vm_compute; reflexivity | reflexivity |].
  exists acc'. split; [exact Ha'|]. rewrite Hb.
  vm_compute in Ha. injection Ha as <-. reflexivity.
Defined.

Lemma balanceDelta_opp amount type :
  type <> Ledger.TransferTx ->
  (Ledger.balanceDelta (- amount) type == Ledger.balanceDelta amount type)%Q.
Proof.
  intros H. unfold Ledger.balanceDelta. destruct type; [| |easy]; now rewrite Qabs_opp.
Qed.

Lemma reverseBalance_eq now old (table : gmap string Ledger.Account) acc :
  Desktop.truthyString (Ledger.toAccountId old) = None ->
  table !! Ledger.accountId old = Some acc ->
  exists acc',
    Ledger.reverseBalance now old table !! Ledger.accountId old = Some acc'
    /\ Ledger.balance acc'
       = (Ledger.balance acc
          + Ledger.balanceDelta (- Ledger.f_amount old) (Ledger.f_type old))%Q.
Proof.
  intros Hto Hacc. unfold Ledger.reverseBalance. rewrite Hto.
  destruct (updateAccountBalance_eq now _ (- Ledger.f_amount old) (Ledger.f_type old) _ _ Hacc)
    as (acc' & H1 & H2 & _). eauto.
Qed.

Lemma applyBalance_eq now f (table : gmap string Ledger.Account) acc :
  Desktop.truthyString (Ledger.toAccountId f) = None ->
  table !! Ledger.accountId f = Some acc ->
  exists acc',
    Ledger.applyBalance now f table !! Ledger.accountId f = Some acc'
    /\ Ledger.balance acc'
       = (Ledger.balance acc + Ledger.balanceDelta (Ledger.f_amount f) (Ledger.f_type f))%Q.
Proof.
  intros Hto Hacc. unfold Ledger.applyBalance. rewrite Hto.
  destruct (updateAccountBalance_eq now _ (Ledger.f_amount f) (Ledger.f_type f) _ _ Hacc)
    as (acc' & H1 & H2 & _). eauto.
Qed.

Lemma truthyString_idem o :
  Desktop.truthyString (Desktop.truthyString o) = Desktop.truthyString o.
Proof. destruct o as [[|c s]|]; reflexivity. Qed.

Lemma referencesOk_target db f to :
  Ledger.referencesOk db f = true ->
  Ledger.toAccountId f = Some to ->
  exists acc, Ledger.accounts db !! to = Some acc.
Proof.
  unfold Ledger.referencesOk. intros H Hto. rewrite Hto in H.
  apply andb_true_iff in H as [H _]. apply andb_true_iff in H as [_ H].
  cbn in H. unfold Ledger.hasAccount in H.
  apply bool_decide_eq_true in H as [acc H]. eauto.
Qed.

Lemma Qabs_Qabs a : (Qabs (Qabs a) == Qabs a)%Q.
Proof. apply Qabs_pos, Qabs_nonneg. Qed.

(** X21. Deleting a stored transaction does not take its amounts back.
    The balance of its account moves a second time in the same direction
    for an income or an expense (for a transfer the amount is added and
    then subtracted), and a target account is credited the absolute value
    of the amount when the transaction is added and once more when it is
    deleted. *)
Theorem ledger_delete_moves_balance_again :
  forall id now now' f db db',
    Ledger.addTransaction id now f db = Some db' ->
    let after := snd (Ledger.deleteTransaction now' id db') in
    let a := Ledger.f_amount f in
    let first := match Ledger.f_type f with
                 | Ledger.ExpenseTx => (- Qabs a)%Q
                 | Ledger.IncomeTx => Qabs a
                 | Ledger.TransferTx => a
                 end in
    let second := match Ledger.f_type f with
                  | Ledger.ExpenseTx => (- Qabs a)%Q
                  | Ledger.IncomeTx => Qabs a
                  | Ledger.TransferTx => (- a)%Q
                  end in
    fst (Ledger.deleteTransaction now' id db') = true
    /\ Ledger.transactions after !! id = None
    /\ exists acc acc2,
         Ledger.accounts db !! Ledger.accountId f = Some acc
         /\ Ledger.accounts after !! Ledger.accountId f = Some acc2
         /\ match Desktop.truthyString (Ledger.toAccountId f) with
            | None => (Ledger.balance acc2 == Ledger.balance acc + first + second)%Q
            | Some to =>
                (to = Ledger.accountId f ->
                 (Ledger.balance acc2
                  == Ledger.balance acc + first + Qabs a + second + Qabs a)%Q)
                /\ (to <> Ledger.accountId f ->
                    (Ledger.balance acc2 == Ledger.balance acc + first + second)%Q
                    /\ exists target target2,
                         Ledger.accounts db !! to = Some target
                         /\ Ledger.accounts after !! to = Some target2
                         /\ (Ledger.balance target2
                             == Ledger.balance target + Qabs a + Qabs a)%Q)
            end.
Proof.
  intros id now now' f db db' H after a first second.
  apply addTransaction_inv in H as (Hid & Hrefs & Hdb').
  destruct (referencesOk_account _ _ Hrefs) as [acc Hacc]. cbn in Hacc.
  assert (Hdel : Ledger.deleteTransaction now' id db'
                 = (true,
                    {| Ledger.accounts :=
                         Ledger.reverseBalance now' (Ledger.stored f)
                           (Ledger.applyBalance now f (Ledger.accounts db));
                       Ledger.categories := Ledger.categories db;
                       Ledger.transactions :=
                         delete id (<[id := {| Ledger.fields := Ledger.stored f;
                                               Ledger.createdAt := now;
                                               Ledger.updatedAt := now |}]>
                                      (Ledger.transactions db));
                       Ledger.recurring := Ledger.recurring db |})).
  { subst db'. unfold Ledger.deleteTransaction. cbn [Ledger.transactions].
    now rewrite lookup_insert_eq. }
  subst after. rewrite Hdel. cbn [fst snd Ledger.transactions Ledger.accounts].
  split; [reflexivity|]. split; [apply lookup_delete_eq|].
  assert (Hfirst : (Ledger.balanceDelta a (Ledger.f_type f) == first)%Q)
    by (subst first; unfold Ledger.balanceDelta; now destruct (Ledger.f_type f)).
  assert (Hsecond : (Ledger.balanceDelta (- a) (Ledger.f_type f) == second)%Q)
    by (subst second; unfold Ledger.balanceDelta;
        destruct (Ledger.f_type f); rewrite ?Qabs_opp; reflexivity).
  assert (Hin : (Ledger.balanceDelta (Qabs a) Ledger.IncomeTx == Qabs a)%Q)
    by apply Qabs_Qabs.
  assert (Hout : (Ledger.balanceDelta (- Qabs a) Ledger.IncomeTx == Qabs a)%Q)
    by (unfold Ledger.balanceDelta; rewrite Qabs_opp; apply Qabs_Qabs).
  unfold Ledger.reverseBalance, Ledger.applyBalance.
  cbn [Ledger.stored Ledger.accountId Ledger.toAccountId Ledger.f_amount Ledger.f_type].
  rewrite truthyString_idem. fold a.
  destruct (Desktop.truthyString (Ledger.toAccountId f)) as [to|] eqn:Hto.
  - assert (Hto' : Ledger.toAccountId (Ledger.stored f) = Some to) by exact Hto.
    destruct (referencesOk_target _ _ to Hrefs Hto') as [target Htarget].
    destruct (decide (to = Ledger.accountId f)) as [E|N].
    + subst to.
      destruct (updateAccountBalance_eq now _ a (Ledger.f_type f) _ _ Hacc)
        as (s1 & L1 & B1 & _).
      destruct (updateAccountBalance_eq now _ (Qabs a) Ledger.IncomeTx _ _ L1)
        as (s2 & L2 & B2 & _).
      destruct (updateAccountBalance_eq now' _ (- a) (Ledger.f_type f) _ _ L2)
        as (s3 & L3 & B3 & _).
      destruct (updateAccountBalance_eq now' _ (- Qabs a) Ledger.IncomeTx _ _ L3)
        as (s4 & L4 & B4 & _).
      exists acc, s4. split; [exact Hacc|]. split; [exact L4|].
      split; [|intros C; now destruct C].
      intros _. rewrite B4, B3, B2, B1. now rewrite Hfirst, Hsecond, Hin, Hout.
    + destruct (updateAccountBalance_eq now _ a (Ledger.f_type f) _ _ Hacc)
        as (s1 & L1 & B1 & _).
      assert (T1 : Ledger.updateAccountBalance now (Ledger.accountId f) a (Ledger.f_type f)
                     (Ledger.accounts db) !! to = Some target)
        by (now rewrite updateAccountBalance_ne).
      destruct (updateAccountBalance_eq now _ (Qabs a) Ledger.IncomeTx _ _ T1)
        as (t2 & T2 & C2 & _).
      assert (L2 : Ledger.updateAccountBalance now to (Qabs a) Ledger.IncomeTx
                     (Ledger.updateAccountBalance now (Ledger.accountId f) a
                        (Ledger.f_type f) (Ledger.accounts db))
                   !! Ledger.accountId f = Some s1)
        by (rewrite updateAccountBalance_ne; [exact L1 | congruence]).
      destruct (updateAccountBalance_eq now' _ (- a) (Ledger.f_type f) _ _ L2)
        as (s3 & L3 & B3 & _).
      assert (T3 : Ledger.updateAccountBalance now' (Ledger.accountId f) (- a)
                     (Ledger.f_type f)
                     (Ledger.updateAccountBalance now to (Qabs a) Ledger.IncomeTx
                        (Ledger.updateAccountBalance now (Ledger.accountId f) a
                           (Ledger.f_type f) (Ledger.accounts db)))
                   !! to = Some t2)
        by (now rewrite updateAccountBalance_ne).
      destruct (updateAccountBalance_eq now' _ (- Qabs a) Ledger.IncomeTx _ _ T3)
        as (t4 & T4 & C4 & _).
      exists acc, s3. split; [exact Hacc|].
      split; [rewrite updateAccountBalance_ne; [exact L3 | congruence]|].
      split; [intros C; now destruct N|].
      intros _. split.
      * rewrite B3, B1. now rewrite Hfirst, Hsecond.
      * exists target, t4. split; [exact Htarget|]. split; [exact T4|].
        rewrite C4, C2. now rewrite Hin, Hout.
  - destruct (updateAccountBalance_eq now _ a (Ledger.f_type f) _ _ Hacc)
      as (s1 & L1 & B1 & _).
    destruct (updateAccountBalance_eq now' _ (- a) (Ledger.f_type f) _ _ L1)
      as (s3 & L3 & B3 & _).
    exists acc, s3. split; [exact Hacc|]. split; [exact L3|].
    rewrite B3, B1. now rewrite Hfirst, Hsecond.
Qed.

Lemma ledger_delete_moves_balance_again_witness :
  (exists acc2,
      Ledger.accounts
        (snd (Ledger.deleteTransaction "2026-01-16T10:00:00.000Z" "tx-1"
                (withRow "tx-1" "2026-01-15T10:00:00.000Z" gasExpense cashOnly))) !! "acc-1"
      = Some acc2
      /\ (Ledger.balance acc2 == 40)%Q)
  /\ (exists cash savings,
         Ledger.accounts
           (snd (Ledger.deleteTransaction "2026-01-16T10:00:00.000Z" "tx-1"
                   (withRow "tx-1" "2026-01-15T10:00:00.000Z" toSavings cashAndSavings)))
           !! "acc-1" = Some cash
         /\ Ledger.accounts
              (snd (Ledger.deleteTransaction "2026-01-16T10:00:00.000Z" "tx-1"
                      (withRow "tx-1" "2026-01-15T10:00:00.000Z" toSavings cashAndSavings)))
              !! "acc-2" = Some savings
         /\ (Ledger.balance cash == 100)%Q
         /\ (Ledger.balance savings == 100)%Q).
Proof.
  split.
  - edestruct (ledger_delete_moves_balance_again "tx-1" "2026-01-15T10:00:00.000Z"
                 "2026-01-16T10:00:00.000Z" gasExpense cashOnly)
      as (_ & _ & acc & acc2 & Ha & Ha2 & Hb); [vm_compute; reflexivity |].
    exists acc2. split; [exact Ha2|]. cbn in Hb. rewrite Hb.
    vm_compute in Ha. injection Ha as <-. reflexivity.
  - edestruct (ledger_delete_moves_balance_again "tx-1" "2026-01-15T10:00:00.000Z"
                 "2026-01-16T10:00:00.000Z" toSavings cashAndSavings)
      as (_ & _ & acc & acc2 & Ha & Ha2 & Hb); [vm_compute; reflexivity |].
    cbn in Hb. destruct Hb as [_ Hb].
    destruct (Hb ltac:(discriminate)) as (Hsrc & target & target2 & Ht & Ht2 & Htb).
    exists acc2, target2. split; [exact Ha2|]. split; [exact Ht2|].
    vm_compute in Ha. injection Ha as <-.
    vm_compute in Ht. injection Ht as <-.
    split; [rewrite Hsrc | rewrite Htb]; reflexivity.
Defined.

(** X22. Editing a stored income or expense applies the old amount a
    second time instead of taking it back, and then the new amount: the
    balance of the account ends at the old balance plus the change of the
    old row plus the change of the new one.  (Same account before and after,
    no target accounts.) *)
Theorem ledger_update_keeps_old_amount :
  forall now id f db old acc,
    Ledger.transactions db !! id = Some old ->
    Ledger.f_type (Ledger.fields old) <> Ledger.TransferTx ->
    Desktop.truthyString (Ledger.toAccountId (Ledger.fields old)) = None ->
    Desktop.truthyString (Ledger.toAccountId f) = None ->
    Ledger.accountId f = Ledger.accountId (Ledger.fields old) ->
    Ledger.accounts db !! Ledger.accountId f = Some acc ->
    Ledger.hasCategory db (Ledger.categoryId f) = true ->
    fst (Ledger.updateTransaction now id f db) = true
    /\ exists acc2,
         Ledger.accounts (snd (Ledger.updateTransaction now id f db)) !! Ledger.accountId f
         = Some acc2
         /\ (Ledger.balance acc2
             == Ledger.balance acc
                + Ledger.balanceDelta (Ledger.f_amount (Ledger.fields old))
                                      (Ledger.f_type (Ledger.fields old))
                + Ledger.balanceDelta (Ledger.f_amount f) (Ledger.f_type f))%Q.
Proof.
  intros now id f db old acc Hold Hty Hto_old Hto Hsame Hacc Hcat.
  unfold Ledger.updateTransaction. rewrite Hold, Hcat, Hto.
  assert (Hhas : Ledger.hasAccount db (Ledger.accountId f) = true).
  { unfold Ledger.hasAccount. apply bool_decide_eq_true. now exists acc. }
  rewrite Hhas. cbn [andb Ledger.hasOptionalAccount fst snd Ledger.accounts].
  split; [reflexivity|].
  rewrite Hsame in Hacc.
  destruct (reverseBalance_eq now (Ledger.fields old) _ acc Hto_old Hacc) as (acc1 & H1 & B1).
  rewrite <- Hsame in H1.
  destruct (applyBalance_eq now f _ acc1 Hto H1) as (acc2 & H2 & B2).
  exists acc2. split; [exact H2|]. rewrite B2, B1.
  now rewrite (balanceDelta_opp _ _ Hty).
Qed.

Lemma ledger_update_keeps_old_amount_witness :
  exists acc2,
    Ledger.accounts
      (snd (Ledger.updateTransaction "2026-01-16T10:00:00.000Z" "tx-1" gasExpense
              (withRow "tx-1" "2026-01-15T10:00:00.000Z" gasExpense cashOnly))) !! "acc-1"
    = Some acc2
    /\ (Ledger.balance acc2 == 10)%Q.
Proof.
  edestruct (ledger_update_keeps_old_amount "2026-01-16T10:00:00.000Z" "tx-1" gasExpense
               (withRow "tx-1" "2026-01-15T10:00:00.000Z" gasExpense cashOnly))
    as (_ & acc2 & Ha2 & Hb);
    [vm_compute; reflexivity | discriminate | reflexivity | reflexivity | reflexivity
    | vm_compute; reflexivity | reflexivity |].
  exists acc2. split; [exact Ha2|]. rewrite Hb. reflexivity.
Defined.

(** X23. An update is not all or nothing.  For an id that is not in the
    table no row is written, yet the balance of the account named in the
    update moves.  For a stored row and an update that names a category
    outside the catalog the update fails and the row stays, yet the old
    balance change has already been applied once more. *)
Theorem ledger_update_without_write_moves_balance :
  (forall now id f db acc,
      Ledger.transactions db !! id = None ->
      Desktop.truthyString (Ledger.toAccountId f) = None ->
      Ledger.accounts db !! Ledger.accountId f = Some acc ->
      fst (Ledger.updateTransaction now id f db) = true
      /\ Ledger.transactions (snd (Ledger.updateTransaction now id f db))
         = Ledger.transactions db
      /\ exists acc2,
           Ledger.accounts (snd (Ledger.updateTransaction now id f db)) !! Ledger.accountId f
           = Some acc2
           /\ Ledger.balance acc2
              = (Ledger.balance acc
                 + Ledger.balanceDelta (Ledger.f_amount f) (Ledger.f_type f))%Q)
  /\ (forall now id f db old acc,
         Ledger.transactions db !! id = Some old ->
         Desktop.truthyString (Ledger.toAccountId (Ledger.fields old)) = None ->
         Ledger.accounts db !! Ledger.accountId (Ledger.fields old) = Some acc ->
         Ledger.hasCategory db (Ledger.categoryId f) = false ->
         fst (Ledger.updateTransaction now id f db) = false
         /\ Ledger.transactions (snd (Ledger.updateTransaction now id f db))
            = Ledger.transactions db
         /\ exists acc2,
              Ledger.accounts (snd (Ledger.updateTransaction now id f db))
                !! Ledger.accountId (Ledger.fields old) = Some acc2
              /\ Ledger.balance acc2
                 = (Ledger.balance acc
                    + Ledger.balanceDelta (- Ledger.f_amount (Ledger.fields old))
                                          (Ledger.f_type (Ledger.fields old)))%Q).
Proof.
  split.
  - intros now id f db acc Hid Hto Hacc.
    unfold Ledger.updateTransaction. rewrite Hid. cbn [fst snd Ledger.transactions Ledger.accounts].
    split; [reflexivity|]. split; [reflexivity|].
    exact (applyBalance_eq now f _ acc Hto Hacc).
  - intros now id f db old acc Hold Hto Hacc Hcat.
    unfold Ledger.updateTransaction. rewrite Hold, Hcat.
    cbn [andb fst snd Ledger.transactions Ledger.accounts].
    split; [reflexivity|]. split; [reflexivity|].
    exact (reverseBalance_eq now (Ledger.fields old) _ acc Hto Hacc).
Qed.

Lemma ledger_update_without_write_moves_balance_witness :
  (exists acc2,
      Ledger.accounts
        (snd (Ledger.updateTransaction "2026-01-16T10:00:00.000Z" "no-such-id" gasExpense
                cashOnly)) !! "acc-1" = Some acc2
      /\ (Ledger.balance acc2 == 70)%Q)
  /\ fst (Ledger.updateTransaction "2026-01-16T10:00:00.000Z" "tx-1" gasWithoutCategory
            (withRow "tx-1" "2026-01-15T10:00:00.000Z" gasExpense cashOnly)) = false.
Proof.
  split.
  - edestruct (proj1 ledger_update_without_write_moves_balance "2026-01-16T10:00:00.000Z"
                 "no-such-id" gasExpense cashOnly)
      as (_ & _ & acc2 & Ha2 & Hb); [reflexivity | reflexivity | vm_compute; reflexivity |].
    exists acc2. split; [exact Ha2|]. rewrite Hb. reflexivity.
  - edestruct (proj2 ledger_update_without_write_moves_balance "2026-01-16T10:00:00.000Z"
                 "tx-1" gasWithoutCategory
                 (withRow "tx-1" "2026-01-15T10:00:00.000Z" gasExpense cashOnly))
      as (Hf & _); [vm_compute; reflexivity | reflexivity | vm_compute; reflexivity
                   | reflexivity | exact Hf].
Defined.

(** * The confirmation of a parse *)

Lemma find_all_false {A} (f : A -> bool) (l : list A) :
  (forall x, In x l -> f x = false) -> List.find f l = None.
Proof.
  induction l as [|a l IH]; cbn; [easy|].
  intros H. rewrite (H a (or_introl eq_refl)). apply IH. intros x Hx. apply H. now right.
Qed.

Lemma find_is_some {A} (f : A -> bool) (l : list A) x :
  In x l -> f x = true -> exists y, List.find f l = Some y /\ In y l /\ f y = true.
Proof.
  intros Hin Hf. destruct (List.find f l) as [y|] eqn:E.
  - exists y. split; [reflexivity|]. now apply find_some in E.
  - rewrite (find_none _ _ E x Hin) in Hf. discriminate.
Qed.

Lemma validated_category_cases categories d parsed :
  (exists c, In c categories
             /\ category (Desktop.validateAndEnrich categories d parsed) = Desktop.name c)
  \/ category (Desktop.validateAndEnrich categories d parsed)
     = Desktop.fallbackName (type parsed).
Proof.
  unfold Desktop.validateAndEnrich; cbn [category].
  destruct (List.find _ categories) as [c|] eqn:E.
  - left. exists c. split; [|reflexivity]. now apply find_some in E.
  - destruct (List.find (fun c => Js.includes _ _) categories) as [c|] eqn:F; cbn.
    + apply find_some in F as [Hin _].
      unfold Js.orElse. destruct (Js.isEmpty (Desktop.name c)); [now right|].
      left. now exists c.
    + now right.
Qed.

(** X24. A parse that went through the validator is never dropped on
    confirmation: when the catalog has an entry for each of the two fallback
    names and there is an account, the confirmation passes a transaction on.
    Its category is a catalog entry with the name of the parse, compared
    without case; its account is the first one; its type is the type of the
    parse, and its amount is negative or zero for an expense and positive or
    zero for an income. *)
Theorem confirm_passes_validated_parse :
  forall categories account accounts d parsed,
    (forall ty, exists c, In c categories /\ Desktop.name c = Desktop.fallbackName ty) ->
    exists f c,
      Ledger.handleConfirmTransaction categories (account :: accounts)
        (Some (Desktop.validateAndEnrich categories d parsed)) = Some f
      /\ In c categories
      /\ Ledger.categoryId f = Desktop.id c
      /\ Desktop.sameName (Desktop.name c)
           (category (Desktop.validateAndEnrich categories d parsed)) = true
      /\ Ledger.accountId f = fst account
      /\ Ledger.f_type f = Ledger.kindOf (type parsed)
      /\ match type parsed with
         | expense => (Ledger.f_amount f <= 0)%Q
         | income => (0 <= Ledger.f_amount f)%Q
         end.
Proof.
  intros categories [accountId account] accounts d parsed Hfb.
  set (v := Desktop.validateAndEnrich categories d parsed).
  assert (Hex : exists c, In c categories
                          /\ Desktop.sameName (Desktop.name c) (category v) = true).
  { destruct (validated_category_cases categories d parsed) as [(c & Hin & Hc)|Hc].
    - exists c. split; [exact Hin|]. subst v. rewrite Hc. apply sameName_refl.
    - destruct (Hfb (type parsed)) as (c & Hin & Hn).
      exists c. split; [exact Hin|]. subst v. rewrite Hc, Hn. apply sameName_refl. }
  destruct Hex as (c0 & Hin0 & Hs0).
  destruct (find_is_some (fun c => Desktop.sameName (Desktop.name c) (category v))
              categories c0 Hin0 Hs0) as (c & Hfind & Hin & Hs).
  unfold Ledger.handleConfirmTransaction. rewrite Hfind.
  eexists. exists c. split; [reflexivity|].
  cbn [Ledger.categoryId Ledger.accountId Ledger.f_type Ledger.f_amount fst].
  repeat (split; [easy|]).
  assert (Hty : type v = type parsed) by reflexivity. rewrite Hty.
  destruct (type parsed).
  - apply Qabs_nonneg.
  - apply (Qopp_le_compat 0), Qabs_nonneg.
Qed.

Lemma confirm_passes_validated_parse_witness :
  exists f,
    Ledger.handleConfirmTransaction Desktop.seededCategories
      cashAccounts
      (Some (Desktop.validateAndEnrich Desktop.seededCategories jan15
               {| amount := 12; type := expense; category := "Snacks"; merchant := None;
                  description := "snacks"; date := "2026-01-15"; confidence := 0.9 |}))
    = Some f
    /\ Ledger.accountId f = "acc-1".
Proof.
  edestruct (confirm_passes_validated_parse Desktop.seededCategories
               ("acc-1", {| Ledger.acc_name := "Cash"; Ledger.balance := 100%Q;
                            Ledger.isActive := true;
                            Ledger.acc_updatedAt := "2026-01-01T00:00:00.000Z" |})
               [] jan15
               {| amount := 12; type := expense; category := "Snacks"; merchant := None;
                  description := "snacks"; date := "2026-01-15"; confidence := 0.9 |})
    as (f & c & Hf & _ & _ & _ & Ha & _).
  - intros [|].
    + exists (Desktop.mkCategory "22" "Other Income" income "other").
      split; [cbn; tauto | reflexivity].
    + exists (Desktop.mkCategory "21" "Other" expense "other").
      split; [cbn; tauto | reflexivity].
  - exists f. split; [exact Hf | exact Ha].
Defined.

(** X25. A text the rules place by keyword is returned without the
    validator, under the name the keyword table gives.  When no catalog
    entry carries that name, the confirmation drops it: nothing is passed on
    to be stored, whatever accounts there are.  With the seeded catalog this
    is the case for every text placed under "Transportation". *)
Theorem confirm_drops_parse_outside_catalog :
  forall categories d generateObject text accounts cat kws,
    List.find (Desktop.entryMatches (Js.toLowerCase text)) Desktop.categoryKeywords
    = Some (cat, kws) ->
    (forall c, In c categories -> Desktop.sameName (Desktop.name c) cat = false) ->
    category (fst (Desktop.parseTransaction categories d generateObject text)) = cat
    /\ snd (Desktop.parseTransaction categories d generateObject text) = []
    /\ Ledger.handleConfirmTransaction categories accounts
         (Some (fst (Desktop.parseTransaction categories d generateObject text))) = None.
Proof.
  intros categories d generateObject text accounts cat kws Hkw Hout.
  assert (Hr : Desktop.parseWithRules categories d text
               = {| amount := amount (Desktop.parseWithRules categories d text);
                    type := type (Desktop.parseWithRules categories d text);
                    category := cat;
                    merchant := merchant (Desktop.parseWithRules categories d text);
                    description := description (Desktop.parseWithRules categories d text);
                    date := date (Desktop.parseWithRules categories d text);
                    confidence := 0.8%Q |}).
  { unfold Desktop.parseWithRules. rewrite Hkw. cbn [amount type category merchant description date confidence].
    rewrite find_all_false.
    - reflexivity.
    - intros c Hc. now rewrite (Hout c Hc). }
  unfold Desktop.parseTransaction. rewrite Hr.
  cbn [confidence]. change (Qle_bool Desktop.THRESHOLD 0.8) with true.
  cbn [fst snd category]. split; [reflexivity|]. split; [reflexivity|].
  unfold Ledger.handleConfirmTransaction. cbn [category].
  now rewrite (find_all_false _ _ Hout).
Qed.

Lemma confirm_drops_parse_outside_catalog_witness :
  Ledger.handleConfirmTransaction Desktop.seededCategories
    cashAccounts
    (Some (fst (Desktop.parseTransaction Desktop.seededCategories jan15 modelDown "uber 20")))
  = None.
Proof.
  refine (proj2 (proj2 (confirm_drops_parse_outside_catalog Desktop.seededCategories jan15
                          modelDown "uber 20" _ "Transportation"
                          ["uber"; "lyft"; "taxi"; "gas"; "fuel"; "parking"; "transit";
                           "metro"; "bus"] _ _))).
  - vm_compute. reflexivity.
  - intros c Hc. cbn in Hc.
    repeat (destruct Hc as [<-|Hc]; [vm_compute; reflexivity|]). destruct Hc.
Defined.

(** X26. From the voice panel to the account: when a confirmed parse is
    stored, the balance of the account falls by the absolute value of the
    parsed amount for an expense and rises by it for an income. *)
Theorem confirmed_parse_moves_balance :
  forall categories accounts p f id now db db',
    Ledger.handleConfirmTransaction categories accounts (Some p) = Some f ->
    Ledger.addTransaction id now f db = Some db' ->
    exists acc acc',
      Ledger.accounts db !! Ledger.accountId f = Some acc
      /\ Ledger.accounts db' !! Ledger.accountId f = Some acc'
      /\ (Ledger.balance acc'
          == Ledger.balance acc
             + match type p with
               | expense => - Qabs (amount p)
               | income => Qabs (amount p)
               end)%Q.
Proof.
  intros categories accounts p f id now db db' Hc Hadd.
  unfold Ledger.handleConfirmTransaction in Hc.
  destruct (List.find _ categories) as [c|]; [|discriminate].
  destruct accounts as [|[accountId account] rest]; [discriminate|].
  injection Hc as <-.
  apply addTransaction_inv in Hadd as (_ & Hrefs & ->).
  apply referencesOk_account in Hrefs as [acc Hacc].
  cbn [Ledger.stored Ledger.accountId] in Hacc.
  cbn [Ledger.accounts Ledger.accountId].
  match goal with
  | |- context [Ledger.applyBalance now ?f _] =>
      destruct (applyBalance_eq now f (Ledger.accounts db) acc eq_refl Hacc)
        as (acc' & H1 & B1)
  end.
  cbn [Ledger.accountId] in H1.
  exists acc, acc'. split; [exact Hacc|]. split; [exact H1|].
  rewrite B1. cbn [Ledger.f_amount Ledger.f_type]. unfold Ledger.balanceDelta.
  destruct (type p); cbn [Ledger.kindOf].
  - now rewrite Qabs_pos by apply Qabs_nonneg.
  - now rewrite Qabs_opp, Qabs_pos by apply Qabs_nonneg.
Qed.

Lemma confirmed_parse_moves_balance_witness :
  exists acc',
    Ledger.accounts (withRow "tx-1" "2026-01-15T10:00:00.000Z" gasConfirmed cashOnly) !! "acc-1"
    = Some acc'
    /\ (Ledger.balance acc' == 95)%Q.
Proof.
  edestruct (confirmed_parse_moves_balance Desktop.seededCategories
               cashAccounts gasParse gasConfirmed
               "tx-1" "2026-01-15T10:00:00.000Z" cashOnly)
    as (acc & acc' & Ha & Ha' & Hb); [vm_compute; reflexivity | vm_compute; reflexivity |].
  exists acc'. split; [exact Ha'|]. rewrite Hb.
  vm_compute in Ha. injection Ha as <-. reflexivity.
Defined.

(** * Insights and dashboard *)

Lemma Qle_bool_false a b : Qle_bool a b = false <-> (b < a)%Q.
Proof.
  split; intros H.
  - apply Qnot_le_lt. intros L. apply Qle_bool_iff in L. congruence.
  - destruct (Qle_bool a b) eqn:E; [|reflexivity].
    apply Qle_bool_iff in E. lra.
Qed.

Lemma gt_true a b : Reports.gt a b = true <-> (b < a)%Q.
Proof.
  unfold Reports.gt. rewrite negb_true_iff. apply Qle_bool_false.
Qed.

Lemma gt_false a b : Reports.gt a b = false <-> (a <= b)%Q.
Proof.
  unfold Reports.gt. rewrite negb_false_iff. apply Qle_bool_iff.
Qed.

Section Rounded.
Context (R : Reports.Rounding).

Lemma fl_le x c : (x <= c)%Q -> representable R c -> (Reports.fl R x <= c)%Q.
Proof.
  intros H Hc. unfold representable in Hc. rewrite <- Hc.
  now apply Reports.fl_monotone.
Qed.

Lemma fl_ge x c : (c <= x)%Q -> representable R c -> (c <= Reports.fl R x)%Q.
Proof.
  intros H Hc. unfold representable in Hc. rewrite <- Hc.
  now apply Reports.fl_monotone.
Qed.

Lemma representable_dyadic (n : Z) (k : N) :
  (Z.abs n <= 2 ^ 53)%Z -> (k <= 1000)%N -> representable R (n # Pos.shiftl 1 k).
Proof. apply Reports.fl_exact. Qed.

Lemma representable_0 : representable R 0.
Proof. apply (representable_dyadic 0 0); [vm_compute | vm_compute]; discriminate. Qed.

Lemma representable_1 : representable R 1.
Proof. apply (representable_dyadic 1 0); [vm_compute | vm_compute]; discriminate. Qed.

Lemma representable_100 : representable R 100.
Proof. apply (representable_dyadic 100 0); [vm_compute | vm_compute]; discriminate. Qed.

Lemma representable_fl x : representable R (Reports.fl R x).
Proof. apply Reports.fl_idempotent. Qed.

Lemma fl_nonneg x : (0 <= x)%Q -> (0 <= Reports.fl R x)%Q.
Proof. intros H. apply fl_ge; [exact H | apply representable_0]. Qed.

Lemma fl_nonpos x : (x <= 0)%Q -> (Reports.fl R x <= 0)%Q.
Proof. intros H. apply fl_le; [exact H | apply representable_0]. Qed.

(** ** Sums of amounts *)

Lemma total_fold_nonneg rows s :
  (0 <= s)%Q ->
  (0 <= fold_left (fun s t => Reports.fl R (s + Qabs (Ledger.f_amount t))) rows s)%Q.
Proof.
  revert s. induction rows as [|t r IH]; intros s Hs; cbn [fold_left]; [exact Hs|].
  apply IH, fl_nonneg. pose proof (Qabs_nonneg (Ledger.f_amount t)). lra.
Qed.

Lemma total_nonneg rows : (0 <= Reports.total R rows)%Q.
Proof. apply total_fold_nonneg. lra. Qed.

Lemma total_fold_representable rows s :
  representable R s ->
  representable R
    (fold_left (fun s t => Reports.fl R (s + Qabs (Ledger.f_amount t))) rows s).
Proof.
  revert s. induction rows as [|t r IH]; intros s Hs; cbn [fold_left]; [exact Hs|].
  apply IH, representable_fl.
Qed.

Lemma total_representable rows : representable R (Reports.total R rows).
Proof. apply total_fold_representable, representable_0. Qed.

Lemma total_fold_filter_le p rows s s' :
  (s' <= s)%Q -> representable R s ->
  (fold_left (fun s t => Reports.fl R (s + Qabs (Ledger.f_amount t))) (List.filter p rows) s'
   <= fold_left (fun s t => Reports.fl R (s + Qabs (Ledger.f_amount t))) rows s)%Q.
Proof.
  revert s s'. induction rows as [|t r IH]; intros s s' Hle Hs; cbn [List.filter fold_left].
  - exact Hle.
  - pose proof (Qabs_nonneg (Ledger.f_amount t)) as Ht.
    destruct (p t); cbn [fold_left].
    + apply IH; [|apply representable_fl]. apply Reports.fl_monotone. lra.
    + apply IH; [|apply representable_fl].
      unfold representable in Hs.
      apply Qle_trans with (Reports.fl R s); [lra|].
      apply Reports.fl_monotone. lra.
Qed.

Lemma total_filter_le p rows :
  (Reports.total R (List.filter p rows) <= Reports.total R rows)%Q.
Proof.
  apply total_fold_filter_le; [lra | apply representable_0].
Qed.

Lemma spentOn_nonneg b rows : (0 <= Reports.spentOn R b rows)%Q.
Proof. apply total_nonneg. Qed.

(** ** Percentages *)

Lemma percentOf_ge d x y :
  (0 < y)%Q -> (d * y <= x)%Q ->
  representable R d -> representable R (d * 100) ->
  (d * 100 <= Reports.percentOf R x y)%Q.
Proof.
  intros Hy Hx Hd Hd100. unfold Reports.percentOf.
  apply fl_ge; [|exact Hd100].
  assert (H : (d <= Reports.fl R (x / y))%Q).
  { apply fl_ge; [|exact Hd]. now apply Qle_shift_div_l. }
  lra.
Qed.

Lemma percentOf_le d x y :
  (0 < y)%Q -> (x <= d * y)%Q ->
  representable R d -> representable R (d * 100) ->
  (Reports.percentOf R x y <= d * 100)%Q.
Proof.
  intros Hy Hx Hd Hd100. unfold Reports.percentOf.
  apply fl_le; [|exact Hd100].
  assert (H : (Reports.fl R (x / y) <= d)%Q).
  { apply fl_le; [|exact Hd]. now apply Qle_shift_div_r. }
  lra.
Qed.

Lemma representable_scaled (n : Z) (k : N) :
  (Z.abs n <= 2 ^ 53)%Z -> (k <= 1000)%N ->
  forall c, (c == n # Pos.shiftl 1 k)%Q -> (Reports.fl R c <= c)%Q /\ (c <= Reports.fl R c)%Q.
Proof.
  intros Hn Hk c Hc. pose proof (representable_dyadic n k Hn Hk) as H.
  unfold representable in H. split.
  - eapply Qle_trans; [apply (Reports.fl_monotone R c (n # Pos.shiftl 1 k)); lra|]. lra.
  - eapply Qle_trans; [|apply (Reports.fl_monotone R (n # Pos.shiftl 1 k) c); lra]. lra.
Qed.

Lemma representable_eq (n : Z) (k : N) c :
  (Z.abs n <= 2 ^ 53)%Z -> (k <= 1000)%N -> (c == n # Pos.shiftl 1 k)%Q ->
  representable R c.
Proof.
  intros Hn Hk Hc. destruct (representable_scaled n k Hn Hk c Hc).
  unfold representable. now apply Qle_antisym.
Qed.

End Rounded.

Lemma quotient_nonpos x y : (0 <= x)%Q -> (y < 0)%Q -> (x / y <= 0)%Q.
Proof.
  intros Hx Hy.
  assert (E : (x / y == - (x / (- y)))%Q) by (field; lra).
  assert (P : (0 <= x / (- y))%Q) by (apply Qle_shift_div_l; lra).
  lra.
Qed.

(** X27. The budget alerts of the insights, in amounts, whatever the
    rounding of the division.  For a budget with a positive amount:
    spending the amount or more gives an anomaly of high priority, spending
    between 13/16 and 15/16 of it gives a warning of medium priority, and
    spending three quarters of it or less gives nothing.  A budget of zero
    is over budget with the first expense and silent without one; a
    negative budget never alerts. *)
Theorem budget_alert_by_amounts :
  forall R now categories thisMonth b,
    let spent := Reports.spentOn R b thisMonth in
    let alert := Reports.budgetInsight R now categories thisMonth b in
    ((0 < Reports.b_amount b)%Q ->
       ((Reports.b_amount b <= spent)%Q ->
          exists i, alert = Some i /\ Reports.i_type i = Reports.Anomaly
                    /\ Reports.priority i = Reports.High)
       /\ ((13 * Reports.b_amount b <= 16 * spent)%Q ->
           (16 * spent <= 15 * Reports.b_amount b)%Q ->
             exists i, alert = Some i /\ Reports.i_type i = Reports.Spending
                       /\ Reports.priority i = Reports.Medium)
       /\ ((4 * spent <= 3 * Reports.b_amount b)%Q -> alert = None))
    /\ ((Reports.b_amount b == 0)%Q ->
          ((0 < spent)%Q ->
             exists i, alert = Some i /\ Reports.i_type i = Reports.Anomaly
                       /\ Reports.priority i = Reports.High)
          /\ ((spent == 0)%Q -> alert = None))
    /\ ((Reports.b_amount b < 0)%Q -> alert = None).
Proof.
  intros R now categories thisMonth b spent alert.
  pose proof (spentOn_nonneg R b thisMonth) as Hs. fold spent in Hs.
  subst alert. unfold Reports.budgetInsight, Reports.percentage. fold spent.
  split; [|split].
  - intros Hpos.
    destruct (Qeq_bool (Reports.b_amount b) 0) eqn:E;
      [apply Qeq_bool_iff in E; lra|].
    split; [|split].
    + intros H.
      assert (P : (1 * 100 <= Reports.percentOf R spent (Reports.b_amount b))%Q).
      { apply percentOf_ge; [exact Hpos | lra | apply representable_1 |].
        apply (representable_eq R 100 0); [vm_compute; discriminate.. | reflexivity]. }
      destruct (Qle_bool 100 _) eqn:L.
      * eexists. split; [reflexivity|]. now split.
      * apply Qle_bool_false in L. lra.
    + intros H1 H2.
      assert (P : ((13 # 16) * 100
                   <= Reports.percentOf R spent (Reports.b_amount b))%Q).
      { apply percentOf_ge; [exact Hpos | lra | |].
        - apply (representable_dyadic R 13 4); vm_compute; discriminate.
        - apply (representable_eq R 325 2); [vm_compute; discriminate.. | reflexivity]. }
      assert (U : (Reports.percentOf R spent (Reports.b_amount b)
                   <= (15 # 16) * 100)%Q).
      { apply percentOf_le; [exact Hpos | lra | |].
        - apply (representable_dyadic R 15 4); vm_compute; discriminate.
        - apply (representable_eq R 375 2); [vm_compute; discriminate.. | reflexivity]. }
      destruct (Qle_bool 100 _) eqn:L; [apply Qle_bool_iff in L; lra|].
      destruct (Qle_bool 80 _) eqn:L2.
      * eexists. split; [reflexivity|]. now split.
      * apply Qle_bool_false in L2. lra.
    + intros H.
      assert (U : (Reports.percentOf R spent (Reports.b_amount b)
                   <= (3 # 4) * 100)%Q).
      { apply percentOf_le; [exact Hpos | lra | |].
        - apply (representable_dyadic R 3 2); vm_compute; discriminate.
        - apply (representable_eq R 75 0); [vm_compute; discriminate.. | reflexivity]. }
      destruct (Qle_bool 100 _) eqn:L; [apply Qle_bool_iff in L; lra|].
      destruct (Qle_bool 80 _) eqn:L2; [apply Qle_bool_iff in L2; lra|].
      reflexivity.
  - intros Hz. apply Qeq_bool_iff in Hz. rewrite Hz. split.
    + intros H. apply gt_true in H. rewrite H.
      eexists. split; [reflexivity|]. now split.
    + intros H. assert (G : Reports.gt spent 0 = false) by (apply gt_false; lra).
      now rewrite G.
  - intros Hneg.
    destruct (Qeq_bool (Reports.b_amount b) 0) eqn:E;
      [apply Qeq_bool_iff in E; lra|].
    assert (U : (Reports.percentOf R spent (Reports.b_amount b) <= 0)%Q).
    { unfold Reports.percentOf. apply fl_nonpos.
      pose proof (fl_nonpos R _ (quotient_nonpos spent _ Hs Hneg)). lra. }
    destruct (Qle_bool 100 _) eqn:L; [apply Qle_bool_iff in L; lra|].
    destruct (Qle_bool 80 _) eqn:L2; [apply Qle_bool_iff in L2; lra|].
    reflexivity.
Qed.

Lemma budget_alert_by_amounts_witness :
  exists i,
    Reports.budgetInsight Reports.unrounded "2026-01-31T10:00:00.000Z"
      Desktop.seededCategories threeFillings gasBudget = Some i
    /\ Reports.i_type i = Reports.Spending
    /\ Reports.priority i = Reports.Medium.
Proof.
  apply (proj1 (proj2 (proj1 (budget_alert_by_amounts Reports.unrounded
                                "2026-01-31T10:00:00.000Z"
                                Desktop.seededCategories threeFillings gasBudget)
                         ltac:(reflexivity)))).
  - vm_compute. discriminate.
  - vm_compute. discriminate.
Defined.

Lemma spendingChange_id R now a b i :
  In i (Reports.spendingChange R now a b) -> Reports.i_id i = "spending-change".
Proof.
  unfold Reports.spendingChange.
  destruct (Reports.gt b 0); [|intros []].
  destruct (Reports.gt (Qabs _) 10); [|intros []].
  now intros [<-|[]].
Qed.

Lemma savingsInsight_id R now a b i :
  In i (Reports.savingsInsight R now a b) ->
  Reports.i_id i = "great-savings" \/ Reports.i_id i = "low-savings".
Proof.
  unfold Reports.savingsInsight.
  destruct (Reports.gt a 0); [|intros []].
  destruct (Qle_bool 20 _); [intros [<-|[]]; now left|].
  destruct (_ && _); [intros [<-|[]]; now right | intros []].
Qed.

Lemma budgetInsight_id R now categories thisMonth b i :
  Reports.budgetInsight R now categories thisMonth b = Some i ->
  exists rest, Reports.i_id i = String "b" rest.
Proof.
  unfold Reports.budgetInsight.
  destruct (Reports.percentage _ _ _) as [p| |].
  - destruct (Qle_bool 100 p); [intros [= <-]; cbn; rewrite append_cons; eauto|].
    destruct (Qle_bool 80 p); [intros [= <-]; cbn; rewrite append_cons; eauto|].
    discriminate.
  - intros [= <-]. cbn. rewrite append_cons. eauto.
  - discriminate.
Qed.

Lemma budget_alerts_id R now categories thisMonth budgets i :
  In i (omap (Reports.budgetInsight R now categories thisMonth) budgets) ->
  exists rest, Reports.i_id i = String "b" rest.
Proof.
  intros H. apply list_elem_of_In, list_elem_of_omap in H as (b & _ & H).
  eapply budgetInsight_id, H.
Qed.

Lemma savings_block R now thisMonth lastMonth budgets categories name :
  name = "great-savings" \/ name = "low-savings" ->
  (exists i, In i (Reports.getInsights R now thisMonth lastMonth budgets categories)
             /\ Reports.i_id i = name)
  <-> (exists i, In i (Reports.savingsInsight R now
                         (Reports.total R (List.filter (Reports.hasType Ledger.IncomeTx)
                                                       thisMonth))
                         (Reports.total R (List.filter (Reports.hasType Ledger.ExpenseTx)
                                                       thisMonth)))
                 /\ Reports.i_id i = name).
Proof.
  intros Hname. unfold Reports.getInsights. split.
  - intros (i & Hin & Hid). exists i. split; [|exact Hid].
    apply in_app_iff in Hin as [Hin|Hin].
    + apply spendingChange_id in Hin. rewrite Hin in Hid.
      destruct Hname; subst name; discriminate.
    + apply in_app_iff in Hin as [Hin|Hin]; [exact Hin|].
      apply budget_alerts_id in Hin as [rest Hin]. rewrite Hin in Hid.
      destruct Hname; subst name; discriminate.
  - intros (i & Hin & Hid). exists i. split; [|exact Hid].
    apply in_app_iff. right. apply in_app_iff. now left.
Qed.

Lemma savingsRate_nonpos R income expenses :
  (0 < income)%Q -> (income <= expenses)%Q ->
  (Reports.percentOf R (Reports.fl R (income - expenses)) income <= 0)%Q.
Proof.
  intros Hi He.
  assert (N : (Reports.fl R (income - expenses) <= 0)%Q) by (apply fl_nonpos; lra).
  assert (U : (Reports.percentOf R (Reports.fl R (income - expenses)) income
               <= 0 * 100)%Q).
  { apply percentOf_le; [exact Hi | lra | apply representable_0 |].
    apply (representable_eq R 0 0); [vm_compute; discriminate.. | reflexivity]. }
  lra.
Qed.

Lemma savingsRate_full R income expenses :
  (0 < income)%Q -> (expenses == 0)%Q -> representable R income ->
  (100 <= Reports.percentOf R (Reports.fl R (income - expenses)) income)%Q.
Proof.
  intros Hi He Hr.
  assert (N : (income <= Reports.fl R (income - expenses))%Q)
    by (apply fl_ge; [lra | exact Hr]).
  assert (P : (1 * 100
               <= Reports.percentOf R (Reports.fl R (income - expenses)) income)%Q).
  { apply percentOf_ge; [exact Hi | lra | apply representable_1 |].
    apply (representable_eq R 100 0); [vm_compute; discriminate.. | reflexivity]. }
  lra.
Qed.

(** X28. The savings insight, in amounts of the month, whatever the
    rounding.  Without income the insights say nothing about savings.
    "Great Savings!" is never given when more was spent than earned, and it
    is given whenever there is income and nothing was spent; "Consider
    Saving More" is then not given, and the two are never given together. *)
Theorem savings_insight_by_amounts :
  forall R now thisMonth lastMonth budgets categories,
    let income := Reports.total R (List.filter (Reports.hasType Ledger.IncomeTx) thisMonth) in
    let expenses :=
      Reports.total R (List.filter (Reports.hasType Ledger.ExpenseTx) thisMonth) in
    let insights := Reports.getInsights R now thisMonth lastMonth budgets categories in
    let great := exists i, In i insights /\ Reports.i_id i = "great-savings" in
    let low := exists i, In i insights /\ Reports.i_id i = "low-savings" in
    (great -> (0 < income)%Q /\ (expenses <= income)%Q)
    /\ (low -> (0 < income)%Q /\ ~ (expenses == 0)%Q)
    /\ ((0 < income)%Q -> (expenses == 0)%Q -> great)
    /\ ~ (great /\ low).
Proof.
  intros R now thisMonth lastMonth budgets categories income expenses insights great low.
  pose proof (savings_block R now thisMonth lastMonth budgets categories "great-savings"
                (or_introl eq_refl)) as Bg.
  pose proof (savings_block R now thisMonth lastMonth budgets categories "low-savings"
                (or_intror eq_refl)) as Bl.
  fold income expenses insights in Bg, Bl. fold great in Bg. fold low in Bl.
  pose proof (total_representable R (List.filter (Reports.hasType Ledger.IncomeTx) thisMonth))
    as Hr. fold income in Hr.
  assert (Cases :
    (Reports.gt income 0 = false /\ Reports.savingsInsight R now income expenses = [])
    \/ ((0 < income)%Q
        /\ ((exists i, Reports.savingsInsight R now income expenses = [i]
                       /\ Reports.i_id i = "great-savings"
                       /\ (20 <= Reports.percentOf R (Reports.fl R (income - expenses))
                                   income)%Q)
            \/ (exists i, Reports.savingsInsight R now income expenses = [i]
                          /\ Reports.i_id i = "low-savings"
                          /\ (Reports.percentOf R (Reports.fl R (income - expenses)) income
                              < 20)%Q
                          /\ (0 <= Reports.percentOf R (Reports.fl R (income - expenses))
                                     income)%Q)
            \/ (Reports.savingsInsight R now income expenses = []
                /\ (Reports.percentOf R (Reports.fl R (income - expenses)) income
                    < 20)%Q)))).
  { unfold Reports.savingsInsight. destruct (Reports.gt income 0) eqn:G; [|now left].
    right. apply gt_true in G. split; [exact G|].
    destruct (Qle_bool 20 _) eqn:L.
    - left. apply Qle_bool_iff in L. eexists. split; [reflexivity|]. now split.
    - apply Qle_bool_false in L. right.
      destruct (Reports.gt 10 _) eqn:L10; cbn [andb]; [|right; now split].
      destruct (Qle_bool 0 _) eqn:L0; [|right; now split].
      left. apply Qle_bool_iff in L0. eexists. split; [reflexivity|]. now split. }
  assert (Full : (0 < income)%Q -> (expenses == 0)%Q ->
                 (100 <= Reports.percentOf R (Reports.fl R (income - expenses)) income)%Q)
    by (intros; now apply savingsRate_full).
  assert (Over : (0 < income)%Q -> (income < expenses)%Q ->
                 (Reports.percentOf R (Reports.fl R (income - expenses)) income <= 0)%Q)
    by (intros; apply savingsRate_nonpos; lra).
  split; [|split; [|split]].
  - intros Hg. apply Bg in Hg as (i & Hin & Hid).
    destruct Cases as [[_ E]|[Hi [(j & E & _ & P)|[(j & E & Hj & _)|[E _]]]]];
      rewrite E in Hin.
    + destruct Hin.
    + split; [exact Hi|]. apply Qnot_lt_le. intros C. specialize (Over Hi C). lra.
    + destruct Hin as [<-|[]]. rewrite Hj in Hid. discriminate.
    + destruct Hin.
  - intros Hl. apply Bl in Hl as (i & Hin & Hid).
    destruct Cases as [[_ E]|[Hi [(j & E & Hj & _)|[(j & E & _ & P20 & P0)|[E _]]]]];
      rewrite E in Hin.
    + destruct Hin.
    + destruct Hin as [<-|[]]. rewrite Hj in Hid. discriminate.
    + split; [exact Hi|]. intros Z. specialize (Full Hi Z). lra.
    + destruct Hin.
  - intros Hi Hz. apply Bg.
    destruct Cases as [[G _]|[_ [(j & E & Hj & _)|[(j & E & _ & P20 & _)|[E P20]]]]].
    + apply gt_false in G. lra.
    + exists j. split; [rewrite E; now left | exact Hj].
    + specialize (Full Hi Hz). lra.
    + specialize (Full Hi Hz). lra.
  - intros [Hg Hl]. apply Bg in Hg as (i & Hin & Hid). apply Bl in Hl as (j & Hjn & Hjd).
    destruct Cases as [[_ E]|[_ [(k & E & Hk & _)|[(k & E & Hk & _)|[E _]]]]];
      rewrite E in Hin, Hjn.
    + destruct Hin.
    + destruct Hjn as [<-|[]]. rewrite Hk in Hjd. discriminate.
    + destruct Hin as [<-|[]]. rewrite Hk in Hid. discriminate.
    + destruct Hin.
Qed.

Lemma savings_insight_by_amounts_witness :
  exists i,
    In i (Reports.getInsights Reports.unrounded "2026-01-31T10:00:00.000Z" [salary] []
            [] Desktop.seededCategories)
    /\ Reports.i_id i = "great-savings".
Proof.
  apply (proj1 (proj2 (proj2 (savings_insight_by_amounts Reports.unrounded
                                "2026-01-31T10:00:00.000Z" [salary] [] []
                                Desktop.seededCategories)))).
  - reflexivity.
  - reflexivity.
Defined.

Lemma change_sign R this last :
  (0 < last)%Q ->
  ((this <= last)%Q ->
   (Reports.percentOf R (Reports.fl R (this - last)) last <= 0)%Q)
  /\ ((last <= this)%Q ->
      (0 <= Reports.percentOf R (Reports.fl R (this - last)) last)%Q).
Proof.
  intros Hl.
  assert (Z100 : representable R (0 * 100))
    by (apply (representable_eq R 0 0); [vm_compute; discriminate.. | reflexivity]).
  split; intros H.
  - assert (N : (Reports.fl R (this - last) <= 0)%Q) by (apply fl_nonpos; lra).
    assert (U : (Reports.percentOf R (Reports.fl R (this - last)) last <= 0 * 100)%Q)
      by (apply percentOf_le; [exact Hl | lra | apply representable_0 | exact Z100]).
    lra.
  - assert (N : (0 <= Reports.fl R (this - last))%Q) by (apply fl_nonneg; lra).
    assert (U : (0 * 100 <= Reports.percentOf R (Reports.fl R (this - last)) last)%Q)
      by (apply percentOf_ge; [exact Hl | lra | apply representable_0 | exact Z100]).
    lra.
Qed.

Lemma change_doubled R this last :
  (0 < last)%Q -> (2 * last <= this)%Q -> representable R last ->
  (100 <= Reports.percentOf R (Reports.fl R (this - last)) last)%Q.
Proof.
  intros Hl H Hr.
  assert (N : (last <= Reports.fl R (this - last))%Q)
    by (apply fl_ge; [lra | exact Hr]).
  assert (P : (1 * 100 <= Reports.percentOf R (Reports.fl R (this - last)) last)%Q).
  { apply percentOf_ge; [exact Hl | lra | apply representable_1 |].
    apply (representable_eq R 100 0); [vm_compute; discriminate.. | reflexivity]. }
  lra.
Qed.

Lemma Qabs_gt k c : (k < Qabs c <-> k < c \/ c < - k)%Q.
Proof.
  split.
  - intros H. destruct (Qlt_le_dec k c) as [|A]; [now left|].
    destruct (Qlt_le_dec c (- k)) as [|B]; [now right|].
    assert (X : (Qabs c <= k)%Q) by (apply Qabs_Qle_condition; split; lra). lra.
  - intros H. apply Qnot_le_lt. intros X. apply Qabs_Qle_condition in X. lra.
Qed.

Lemma spendingChange_spec R now this last :
  (exists i, Reports.spendingChange R now this last = [i]
             /\ (0 < last)%Q /\ ~ (this == last)%Q
             /\ (Reports.i_type i = Reports.Anomaly <-> (last < this)%Q)
             /\ (Reports.i_type i = Reports.Saving <-> (this < last)%Q)
             /\ (representable R last -> (2 * last <= this)%Q ->
                 Reports.priority i = Reports.High))
  \/ (Reports.spendingChange R now this last = []
      /\ ((last <= 0)%Q \/ (this < 2 * last)%Q \/ ~ representable R last)).
Proof.
  unfold Reports.spendingChange.
  destruct (Reports.gt last 0) eqn:G.
  2: { right. split; [reflexivity|]. apply gt_false in G. now left. }
  apply gt_true in G.
  destruct (change_sign R this last G) as [Down Up].
  pose proof (change_doubled R this last G) as Doubled.
  set (change := Reports.percentOf R (Reports.fl R (this - last)) last) in *.
  destruct (Reports.gt (Qabs change) 10) eqn:C.
  - left. apply gt_true, Qabs_gt in C. eexists. split; [reflexivity|].
    cbn [Reports.i_type Reports.priority].
    assert (Ne : ~ (this == last)%Q).
    { intros E. assert (A : (change <= 0)%Q) by (apply Down; lra).
      assert (B : (0 <= change)%Q) by (apply Up; lra). lra. }
    assert (T : Reports.gt change 0 = true <-> (last < this)%Q).
    { rewrite gt_true. split; intros H.
      - apply Qnot_le_lt. intros L. specialize (Down L). lra.
      - assert (B : (0 <= change)%Q) by (apply Up; lra). lra. }
    split; [exact G|]. split; [exact Ne|]. split; [|split].
    + destruct (Reports.gt change 0); split; intros H; try easy.
      * now apply T.
      * apply T in H. discriminate.
    + destruct (Reports.gt change 0) eqn:E; split; intros H; try easy.
      * assert (X : (last < this)%Q) by now apply T. lra.
      * destruct (Qlt_le_dec last this) as [X|X]; [apply T in X; discriminate|].
        destruct (Qle_lt_or_eq _ _ X) as [Y|Y]; [exact Y | now destruct Ne].
    + intros Hr H2. specialize (Doubled H2 Hr).
      assert (H25 : Reports.gt (Qabs change) 25 = true)
        by (apply gt_true, Qabs_gt; left; lra).
      now rewrite H25.
  - right. split; [reflexivity|]. apply gt_false in C.
    destruct (Qlt_le_dec this (2 * last)) as [X|X]; [right; now left|].
    right. right. intros Hr. specialize (Doubled X Hr).
    assert (Y : (10 < Qabs change)%Q) by (apply Qabs_gt; left; lra). lra.
Qed.

Lemma omap_length_le {A B} (f : A -> option B) (l : list A) :
  (length (omap f l) <= length l)%nat.
Proof.
  induction l as [|a l IH]; cbn; [lia|]. destruct (f a); cbn; lia.
Qed.

(** X29. The insight on the change of spending, whatever the rounding.
    It is given only when last month had expenses and this month's differ
    from them; when it is given, it is an anomaly exactly when spending
    rose and a saving exactly when it fell.  When this month's expenses are
    at least twice last month's, it is given, as an anomaly of high
    priority.  The list of insights never has more than two entries beside
    the budget alerts. *)
Theorem spending_insight_by_amounts :
  forall R now thisMonth lastMonth budgets categories,
    let this := Reports.total R (List.filter (Reports.hasType Ledger.ExpenseTx) thisMonth) in
    let last := Reports.total R (List.filter (Reports.hasType Ledger.ExpenseTx) lastMonth) in
    let insights := Reports.getInsights R now thisMonth lastMonth budgets categories in
    (forall i, In i insights -> Reports.i_id i = "spending-change" ->
               (0 < last)%Q /\ ~ (this == last)%Q
               /\ (Reports.i_type i = Reports.Anomaly <-> (last < this)%Q)
               /\ (Reports.i_type i = Reports.Saving <-> (this < last)%Q))
    /\ ((0 < last)%Q -> (2 * last <= this)%Q ->
        exists i, In i insights /\ Reports.i_id i = "spending-change"
                  /\ Reports.i_type i = Reports.Anomaly
                  /\ Reports.priority i = Reports.High)
    /\ (length insights <= 2 + length budgets)%nat.
Proof.
  intros R now thisMonth lastMonth budgets categories this last insights.
  pose proof (total_representable R
                (List.filter (Reports.hasType Ledger.ExpenseTx) lastMonth)) as Hr.
  fold last in Hr.
  assert (Hblock : forall i, In i insights -> Reports.i_id i = "spending-change" ->
                             In i (Reports.spendingChange R now this last)).
  { intros i Hin Hid. subst insights. unfold Reports.getInsights in Hin.
    fold this in Hin. fold last in Hin.
    apply in_app_iff in Hin as [Hin|Hin]; [exact Hin|].
    apply in_app_iff in Hin as [Hin|Hin].
    - apply savingsInsight_id in Hin as [Hin|Hin]; rewrite Hin in Hid; discriminate.
    - apply budget_alerts_id in Hin as [rest Hin]. rewrite Hin in Hid. discriminate. }
  assert (Hin1 : forall i, In i (Reports.spendingChange R now this last) -> In i insights).
  { intros i Hin. subst insights. unfold Reports.getInsights. fold this. fold last.
    apply in_app_iff. now left. }
  split; [|split].
  - intros i Hin Hid. specialize (Hblock i Hin Hid).
    destruct (spendingChange_spec R now this last)
      as [(j & E & H0 & Hne & H1 & H2 & _)|[E _]]; rewrite E in Hblock.
    + destruct Hblock as [<-|[]]. easy.
    + destruct Hblock.
  - intros Hl H2.
    destruct (spendingChange_spec R now this last)
      as [(j & E & _ & _ & H1 & _ & H3)|[_ [N|[N|N]]]].
    + exists j. split; [apply Hin1; rewrite E; now left|].
      split; [apply (spendingChange_id R now this last); rewrite E; now left|].
      split; [apply H1; lra | now apply H3].
    + lra.
    + lra.
    + now destruct N.
  - subst insights. unfold Reports.getInsights. rewrite !length_app.
    pose proof (omap_length_le (Reports.budgetInsight R now categories thisMonth) budgets).
    assert (A : (length (Reports.spendingChange R now this last) <= 1)%nat).
    { unfold Reports.spendingChange.
      destruct (Reports.gt last 0); [|cbn; lia].
      destruct (Reports.gt (Qabs _) 10); cbn; lia. }
    assert (B : forall income,
               (length (Reports.savingsInsight R now income this) <= 1)%nat).
    { intros income. unfold Reports.savingsInsight.
      destruct (Reports.gt income 0); [|cbn; lia].
      destruct (Qle_bool 20 _); [cbn; lia|].
      destruct (_ && _); cbn; lia. }
    specialize (B (Reports.total R (List.filter (Reports.hasType Ledger.IncomeTx)
                                                thisMonth))).
    fold this. fold last. lia.
Qed.

Lemma spending_insight_by_amounts_witness :
  exists i,
    In i (Reports.getInsights Reports.unrounded "2026-01-31T10:00:00.000Z" threeFillings
            oneFilling [gasBudget] Desktop.seededCategories)
    /\ Reports.i_id i = "spending-change"
    /\ Reports.i_type i = Reports.Anomaly
    /\ Reports.priority i = Reports.High.
Proof.
  apply (proj1 (proj2 (spending_insight_by_amounts Reports.unrounded
                         "2026-01-31T10:00:00.000Z" threeFillings oneFilling [gasBudget]
                         Desktop.seededCategories))).
  - reflexivity.
  - vm_compute. discriminate.
Defined.

Lemma filter_filter_comm {A} (p q : A -> bool) (l : list A) :
  List.filter p (List.filter q l) = List.filter q (List.filter p l).
Proof.
  induction l as [|a l IH]; cbn; [reflexivity|].
  destruct (q a) eqn:Q, (p a) eqn:P; cbn; rewrite ?Q, ?P, IH; reflexivity.
Qed.

Lemma orZero_nonneg x : (0 <= x)%Q -> (0 <= Reports.orZero x)%Q.
Proof.
  intros H. unfold Reports.orZero. destruct (Qeq_bool x 0); [lra | exact H].
Qed.

Lemma addTo_nonneg R k v m :
  (0 <= v)%Q ->
  Forall (fun e => (0 <= snd e)%Q) m ->
  Forall (fun e => (0 <= snd e)%Q) (Reports.addTo R k v m).
Proof.
  intros Hv. induction 1 as [|[k' v'] r Hx Hr IH]; cbn [Reports.addTo].
  - constructor; [|constructor]. cbn [snd]. apply fl_nonneg. lra.
  - destruct (String.eqb k' k).
    + constructor; [|exact Hr]. cbn [snd] in *. apply fl_nonneg.
      pose proof (orZero_nonneg v' Hx). lra.
    + constructor; assumption.
Qed.

Lemma categorySpending_nonneg R rows :
  Forall (fun e => (0 <= snd e)%Q) (Reports.categorySpending R rows).
Proof.
  unfold Reports.categorySpending.
  generalize (List.filter (Reports.hasType Ledger.ExpenseTx) rows) as l.
  assert (G : forall l m, Forall (fun e : string * Q => (0 <= snd e)%Q) m ->
              Forall (fun e : string * Q => (0 <= snd e)%Q)
                (fold_left (fun m t => Reports.addTo R (Ledger.categoryId t)
                                         (Qabs (Ledger.f_amount t)) m) l m)).
  { induction l as [|t r IH]; intros m Hm; cbn [fold_left]; [exact Hm|].
    apply IH, addTo_nonneg; [apply Qabs_nonneg | exact Hm]. }
  intros l. apply G. constructor.
Qed.

Lemma insertDesc_Forall (P : string * Q -> Prop) x l :
  P x -> Forall P l -> Forall P (Reports.insertDesc x l).
Proof.
  intros Hx. induction 1 as [|y r Hy Hr IH]; cbn.
  - now constructor.
  - destruct (Reports.gt (snd y) (snd x)); now repeat constructor.
Qed.

Lemma insertDesc_descending x l :
  descending snd l -> descending snd (Reports.insertDesc x l).
Proof.
  induction l as [|y r IH]; cbn; [easy|].
  intros [Hy Hr]. destruct (Reports.gt (snd y) (snd x)) eqn:G; cbn.
  - split; [|now apply IH].
    apply insertDesc_Forall; [|exact Hy]. apply gt_true in G. lra.
  - apply gt_false in G. split; [|easy].
    constructor; [exact G|].
    eapply Forall_impl; [exact Hy|]. cbn. intros z Hz. lra.
Qed.

Lemma sortDesc_Forall (P : string * Q -> Prop) l :
  Forall P l -> Forall P (Reports.sortDesc l).
Proof.
  induction 1 as [|x r Hx Hr IH]; cbn; [constructor|].
  now apply insertDesc_Forall.
Qed.

Lemma sortDesc_descending l : descending snd (Reports.sortDesc l).
Proof.
  induction l as [|x r IH]; cbn; [easy|]. now apply insertDesc_descending.
Qed.

Lemma descending_take {A} (f : A -> Q) n (l : list A) :
  descending f l -> descending f (take n l).
Proof.
  revert n. induction l as [|a r IH]; intros [|n]; cbn; try easy.
  intros [Ha Hr]. split; [now apply Forall_take | now apply IH].
Qed.

Section Picked.
Context {A B : Type} (h : A -> option B) (fa : A -> Q) (fb : B -> Q).
Hypothesis keeps : forall a b, h a = Some b -> fb b = fa a.

Lemma omap_Forall (P : Q -> Prop) l :
  Forall (fun a => P (fa a)) l -> Forall (fun b => P (fb b)) (omap h l).
Proof.
  induction 1 as [|a r Ha Hr IH]; cbn; [constructor|].
  destruct (h a) as [b|] eqn:E; [|exact IH].
  constructor; [|exact IH]. now rewrite (keeps _ _ E).
Qed.

Lemma omap_descending l : descending fa l -> descending fb (omap h l).
Proof.
  induction l as [|a r IH]; cbn; [easy|].
  intros [Ha Hr]. destruct (h a) as [b|] eqn:E; [|now apply IH].
  cbn. split; [|now apply IH]. rewrite (keeps _ _ E).
  now apply (omap_Forall (fun q => (q <= fa a)%Q)).
Qed.
End Picked.

Lemma omap_Forall_from {A B} (h : A -> option B) (P : A -> Prop) (Q' : B -> Prop) l :
  (forall a b, P a -> h a = Some b -> Q' b) ->
  Forall P l -> Forall Q' (omap h l).
Proof.
  intros H. induction 1 as [|a r Ha Hr IH]; cbn; [constructor|].
  destruct (h a) as [b|] eqn:E; [|exact IH]. constructor; eauto.
Qed.

(** X30. The figures of the dashboard, whatever the rounding.  The top
    categories are at most five, in descending order of amount, with
    amounts and shares that are not negative.  What is spent under a budget
    shown is between 0 and the total expenses.  The totals are not
    negative, the net savings are at most the income and the savings rate
    is at most 100.  No month of the trend shows more income or expenses
    than the period has in total. *)
Theorem dashboard_figures_fit_together :
  forall R transactions categories budgets months bills,
    let d := Reports.getDashboardData R transactions categories budgets months bills in
    (length (Reports.topCategories d) <= 5)%nat
    /\ descending Reports.tc_amount (Reports.topCategories d)
    /\ Forall (fun c => (0 <= Reports.tc_amount c)%Q /\ (0 <= Reports.tc_percentage c)%Q)
              (Reports.topCategories d)
    /\ Forall (fun p => (0 <= Reports.spent p <= Reports.totalExpenses d)%Q)
              (Reports.budgetProgress d)
    /\ ((0 <= Reports.totalIncome d)%Q /\ (0 <= Reports.totalExpenses d)%Q
        /\ (Reports.netSavings d <= Reports.totalIncome d)%Q
        /\ (Reports.savingsRate d <= 100)%Q)
    /\ Forall (fun m => (Reports.mt_income m <= Reports.totalIncome d)%Q
                        /\ (Reports.mt_expenses m <= Reports.totalExpenses d)%Q)
              (Reports.monthlyTrend d).
Proof.
  intros R transactions categories budgets months bills d.
  subst d. unfold Reports.getDashboardData.
  cbn [Reports.topCategories Reports.totalExpenses Reports.budgetProgress
       Reports.savingsRate Reports.monthlyTrend Reports.totalIncome Reports.netSavings].
  set (expenses := Reports.total R (List.filter (Reports.hasType Ledger.ExpenseTx)
                                                transactions)).
  set (income := Reports.total R (List.filter (Reports.hasType Ledger.IncomeTx)
                                              transactions)).
  set (pick := fun '(categoryId, amount) =>
                 match Reports.categoryMap categories !! categoryId with
                 | Some c => Some {| Reports.tc_category := c; Reports.tc_amount := amount;
                                     Reports.tc_percentage :=
                                       if Reports.gt expenses 0
                                       then Reports.percentOf R amount expenses else 0%Q |}
                 | None => None
                 end).
  assert (Hexp : (0 <= expenses)%Q) by apply total_nonneg.
  assert (Hinc : (0 <= income)%Q) by apply total_nonneg.
  assert (Hrep : representable R income) by apply total_representable.
  assert (Hkeeps : forall a b, pick a = Some b -> Reports.tc_amount b = snd a).
  { intros [k v] b. cbn. destruct (_ !! k); [intros [= <-]; reflexivity | discriminate]. }
  assert (Z100 : representable R (0 * 100))
    by (apply (representable_eq R 0 0); [vm_compute; discriminate.. | reflexivity]).
  assert (O100 : representable R (1 * 100))
    by (apply (representable_eq R 100 0); [vm_compute; discriminate.. | reflexivity]).
  split; [|split; [|split; [|split; [|split]]]].
  - etransitivity; [apply omap_length_le|]. rewrite length_take. lia.
  - apply (omap_descending pick snd Reports.tc_amount Hkeeps).
    apply descending_take, sortDesc_descending.
  - apply (omap_Forall_from pick (fun e => (0 <= snd e)%Q)).
    + intros [k v] c H0. cbn in H0 |- *.
      destruct (_ !! k); [intros [= <-]; cbn | discriminate].
      split; [exact H0|].
      destruct (Reports.gt expenses 0) eqn:G; [|lra].
      apply gt_true in G.
      assert (P : (0 * 100 <= Reports.percentOf R v expenses)%Q)
        by (apply percentOf_ge; [exact G | lra | apply representable_0 | exact Z100]).
      lra.
    + apply Forall_take, sortDesc_Forall, categorySpending_nonneg.
  - apply (omap_Forall_from _ (fun _ => True)); [|now apply Forall_forall].
    intros b p _. destruct (_ !! Reports.b_categoryId b); [intros [= <-]; cbn | discriminate].
    split; [apply total_nonneg|].
    unfold expenses.
    assert (E : List.filter (fun t => Reports.hasType Ledger.ExpenseTx t
                                      && String.eqb (Ledger.categoryId t)
                                                    (Reports.b_categoryId b)) transactions
                = List.filter (fun t => String.eqb (Ledger.categoryId t)
                                                   (Reports.b_categoryId b))
                    (List.filter (Reports.hasType Ledger.ExpenseTx) transactions)).
    { clear. induction transactions as [|t r IH]; cbn; [reflexivity|].
      destruct (Reports.hasType Ledger.ExpenseTx t); cbn; [|exact IH].
      destruct (String.eqb _ _); now rewrite IH. }
    rewrite E. apply total_filter_le.
  - assert (Net : (Reports.fl R (income - expenses) <= income)%Q)
      by (apply fl_le; [lra | exact Hrep]).
    split; [exact Hinc|]. split; [exact Hexp|]. split; [exact Net|].
    destruct (Reports.gt income 0) eqn:G; [|lra].
    apply gt_true in G.
    assert (P : (Reports.percentOf R (Reports.fl R (income - expenses)) income
                 <= 1 * 100)%Q)
      by (apply percentOf_le; [exact G | lra | apply representable_1 | exact O100]).
    lra.
  - apply List.Forall_forall. intros m Hm. apply in_map_iff in Hm as (mo & <- & _).
    cbn [Reports.mt_income Reports.mt_expenses].
    split; rewrite filter_filter_comm; apply total_filter_le.
Qed.

(** A month with a salary and three fillings of the tank, in the arithmetic
    of unbounded precision: one top category with the whole of the
    expenses, and 10 left of the budget for gas. *)
Example dashboard_of_a_month :
  let d := Reports.getDashboardData Reports.unrounded (salary :: threeFillings)
             Desktop.seededCategories [gasBudget] ["2026-01"] [] in
  List.map (fun c => (Desktop.name (Reports.tc_category c), Qred (Reports.tc_amount c),
                      Qred (Reports.tc_percentage c)))
           (Reports.topCategories d) = [("Gas", 90%Q, 100%Q)]
  /\ List.map (fun p => Qred (Reports.remaining p)) (Reports.budgetProgress d) = [10%Q]
  /\ Qred (Reports.savingsRate d) = 91%Q.
Proof. vm_compute. repeat split. Qed.
